(** * Calendar colour-hours: week window, interval clipping, colour
      resolution, aggregation and reporting

    A shallow embedding of the computational core of the two scripts
    [simple_color_hours.py] (label-based report, module [Simple]) and
    [weekly_calendar_color_hours.py] (raw colour-id report, module
    [Weekly]).

    Conventions of the embedding.
    - An aware [datetime] is kept as its local wall-clock reading: the
      proleptic Gregorian ordinal of its date and the microseconds elapsed
      since local midnight.  All datetimes of one run carry the same
      [tzinfo] object, and for such values Python compares, subtracts and
      shifts by [timedelta] on the wall-clock fields alone.
    - The wall clock [datetime.now(tz)] is an argument of the functions that
      read it.
    - Python exceptions are values of [result]; [Raise] aborts the
      enclosing computation unless a [try] catches it.
    - A [str] is a [string] whose characters are code points below 256.
    - A [timedelta] is its exact count of microseconds.  The modules
      [Simple] and [Weekly] keep every total as the exact count of
      microseconds added under its key; the modules [SimpleFloat] and
      [WeeklyFloat] are the same loops with the totals as the
      [defaultdict(float)] of the scripts holds them, binary64 seconds
      obtained by [total_seconds()] and added with [+=].
    - The modules [Simple] and [Weekly] read an event whose time texts
      have been decoded; the modules [SimpleText] and [WeeklyText] read
      the ISO 8601 texts themselves, with [fromisoformat] free to raise. *)

From Stdlib Require Import ZArith List String Ascii Bool Lia Permutation.
From Stdlib Require Import Sorted.
From Stdlib Require Import Floats.
Import ListNotations.
Open Scope string_scope.
Open Scope Z_scope.

(** ** Exceptions *)

Inductive exn : Type :=
| KeyError
| ValueError
| OverflowError.

Inductive result (A : Type) : Type :=
| Ok (a : A)
| Raise (e : exn).

Arguments Ok {A} a.
Arguments Raise {A} e.

Definition bind {A B : Type} (m : result A) (k : A -> result B) : result B :=
  match m with
  | Ok a => k a
  | Raise e => Raise e
  end.

Notation "x <- m ;; k" := (bind m (fun x => k))
  (at level 61, m at next level, right associativity).
Notation "' pat <- m ;; k" := (bind m (fun x => match x with pat => k end))
  (at level 61, pat pattern, m at next level, right associativity).

(** ** Wall-clock datetimes *)

Record datetime : Type := mkdt {
  toordinal : Z;   (* date.toordinal(): 0001-01-01 is day 1 *)
  micros : Z       (* microseconds since local midnight *)
}.

(** [datetime.max.toordinal()], the ordinal of 9999-12-31. *)
Definition MAXORDINAL : Z := 3652059.

Definition US_PER_DAY : Z := 86400000000.

(** [date.weekday()]: Monday is 0, Sunday is 6. *)
Definition weekday (d : datetime) : Z := (toordinal d + 6) mod 7.

(** [d.replace(hour=0, minute=0, second=0, microsecond=0)]. *)
Definition replace_midnight (d : datetime) : datetime :=
  mkdt (toordinal d) 0.

(** [d + timedelta(days=k)]: the date moves, the time of day stays, and a
    date outside 0001-01-01 .. 9999-12-31 raises [OverflowError]. *)
Definition add_days (d : datetime) (k : Z) : result datetime :=
  let o := toordinal d + k in
  if (0 <? o) && (o <=? MAXORDINAL)
  then Ok (mkdt o (micros d))
  else Raise OverflowError.

(** [d - timedelta(days=k)], which Python computes as [d + (-timedelta)]. *)
Definition sub_days (d : datetime) (k : Z) : result datetime :=
  add_days d (- k).

(** [datetime._cmp]: lexicographic on the wall-clock fields. *)
Definition dt_cmp (a b : datetime) : comparison :=
  match toordinal a ?= toordinal b with
  | Eq => micros a ?= micros b
  | c => c
  end.

Definition dt_lt (a b : datetime) : bool :=
  match dt_cmp a b with Lt => true | _ => false end.

Definition dt_gt (a b : datetime) : bool :=
  match dt_cmp a b with Gt => true | _ => false end.

Definition dt_ge (a b : datetime) : bool :=
  match dt_cmp a b with Lt => false | _ => true end.

Definition dt_le (a b : datetime) : bool :=
  match dt_cmp a b with Gt => false | _ => true end.

(** The builtins [max(a, b)] and [min(a, b)] on two arguments: the first
    argument is kept unless the second is strictly better. *)
Definition py_max (a b : datetime) : datetime :=
  if dt_gt b a then b else a.

Definition py_min (a b : datetime) : datetime :=
  if dt_lt b a then b else a.

(** [(a - b)] as a microsecond count ([total_seconds() * 10**6]). *)
Definition elapsed_us (a b : datetime) : Z :=
  (toordinal a - toordinal b) * US_PER_DAY + (micros a - micros b).

(** Calendar dates, as [datetime.date] computes their ordinal. *)
Definition is_leap (year : Z) : bool :=
  (year mod 4 =? 0) && (negb (year mod 100 =? 0) || (year mod 400 =? 0)).

Definition days_before_year (year : Z) : Z :=
  let y := year - 1 in
  y * 365 + y / 4 - y / 100 + y / 400.

Definition days_before_month (year month : Z) : Z :=
  nth (Z.to_nat month) [0; 0; 31; 59; 90; 120; 151; 181; 212; 243; 273; 304; 334] 0
  + (if (2 <? month) && is_leap year then 1 else 0).

Definition ymd2ord (year month day : Z) : Z :=
  days_before_year year + days_before_month year month + day.

(** [datetime(year, month, day, hour, minute, tzinfo=tz)]. *)
Definition civil (year month day hour minute : Z) : datetime :=
  mkdt (ymd2ord year month day) ((hour * 60 + minute) * 60000000).

(** ** Python values used by both scripts *)

(** Truthiness of a value that is [None] or a [str]. *)
Definition truthy (v : option string) : bool :=
  match v with
  | Some s => negb (s =? "")%string
  | None => false
  end.

(** [str(v)] inside an f-string. *)
Definition str (v : option string) : string :=
  match v with
  | Some s => s
  | None => "None"
  end.

(** A [dict] with [str] keys, in insertion order. *)
Definition dict (V : Type) : Type := list (string * V).

Fixpoint get {V : Type} (d : dict V) (k : string) : option V :=
  match d with
  | [] => None
  | (k', v) :: d' => if (k' =? k)%string then Some v else get d' k
  end.

(** [k in d]. *)
Definition contains {V : Type} (d : dict V) (k : string) : bool :=
  match get d k with Some _ => true | None => false end.

(** [d[k] += v] on exact microsecond counts; a missing key starts from 0. *)
Fixpoint add_to (d : dict Z) (k : string) (v : Z) : dict Z :=
  match d with
  | [] => [(k, 0 + v)]
  | (k', x) :: d' =>
      if (k' =? k)%string then (k', x + v) :: d' else (k', x) :: add_to d' k v
  end.

(** [sum(d.values())]. *)
Definition sum_values (d : dict Z) : Z :=
  fold_right (fun kv acc => snd kv + acc) 0 d.

(** A [for] loop whose body may raise. *)
Fixpoint for_each {S X : Type} (body : S -> X -> result S) (xs : list X) (st : S)
  : result S :=
  match xs with
  | [] => Ok st
  | x :: xs' => st' <- body st x ;; for_each body xs' st'
  end.

(** ** [int(s, 16)] *)

Definition is_space (c : ascii) : bool :=
  let n := Z.of_N (N_of_ascii c) in
  ((9 <=? n) && (n <=? 13)) || (n =? 32) || (n =? 133) || (n =? 160).

Definition digit_value (c : ascii) : option Z :=
  let n := Z.of_N (N_of_ascii c) in
  if (48 <=? n) && (n <=? 57) then Some (n - 48)
  else if (97 <=? n) && (n <=? 102) then Some (n - 87)
  else if (65 <=? n) && (n <=? 70) then Some (n - 55)
  else None.

Fixpoint lstrip_space (s : string) : string :=
  match s with
  | String c r => if is_space c then lstrip_space r else s
  | EmptyString => s
  end.

Fixpoint all_space (s : string) : bool :=
  match s with
  | String c r => is_space c && all_space r
  | EmptyString => true
  end.

(** Digits with single underscores between them; the rest of the string is
    returned with the value read. *)
Fixpoint scan_digits (s : string) (acc : Z) (prev_underscore : bool)
  : option (Z * string) :=
  match s with
  | String c r =>
      match digit_value c with
      | Some v => scan_digits r (acc * 16 + v) false
      | None =>
          if (c =? "_")%char
          then if prev_underscore then None else scan_digits r acc true
          else if prev_underscore then None else Some (acc, s)
      end
  | EmptyString => if prev_underscore then None else Some (acc, s)
  end.

(** [int(s, 16)]: surrounding white space, an optional sign, an optional
    [0x] prefix, then at least one hexadecimal digit; anything else is a
    [ValueError]. *)
Definition py_int16 (s : string) : result Z :=
  let s := lstrip_space s in
  let '(sign, s) :=
    match s with
    | String "+" r => (1, r)
    | String "-" r => (-1, r)
    | _ => (1, s)
    end in
  let s :=
    match s with
    | String "0" (String c r) =>
        if (c =? "x")%char || (c =? "X")%char
        then match r with String "_" r' => r' | _ => r end
        else s
    | _ => s
    end in
  match s with
  | String c _ =>
      match digit_value c with
      | Some _ =>
          match scan_digits s 0 false with
          | Some (v, rest) => if all_space rest then Ok (sign * v) else Raise ValueError
          | None => Raise ValueError
          end
      | None => Raise ValueError
      end
  | EmptyString => Raise ValueError
  end.

(** ** Calendar data *)

(** The [start] or [end] object of an event.  A key that is present holds
    the value its ISO text denotes in the run's timezone: a datetime for
    ["dateTime"], the ordinal of a date for ["date"]. *)
Record when : Type := mkwhen {
  dateTime : option datetime;
  date : option Z
}.

Record event : Type := mkevent {
  ev_start : option when;
  ev_end : option when;
  ev_colorId : option string
}.

(** A calendar-list entry with the events fetched for it. *)
Record calendar (E : Type) : Type := mkcal {
  cal_colorId : option string;
  cal_events : list E
}.

Arguments mkcal {E} _ _.
Arguments cal_colorId {E} _.
Arguments cal_events {E} _.

(** [evt.get("start", {})]. *)
Definition get_when (w : option when) : when :=
  match w with
  | Some x => x
  | None => mkwhen None None
  end.

(** [d[key]] on an optional entry. *)
Definition getitem {V : Type} (v : option V) : result V :=
  match v with
  | Some x => Ok x
  | None => Raise KeyError
  end.

(** ** The calendar service *)

(** One page of a [list] response: the dict may lack ["items"] and
    ["nextPageToken"]. *)
Record page (X : Type) : Type := mkpage {
  items : option (list X);
  nextPageToken : option string
}.

Arguments mkpage {X} _ _.
Arguments items {X} _.
Arguments nextPageToken {X} _.

(** [page.get("items", [])]. *)
Definition page_items {X : Type} (p : page X) : list X :=
  match items p with
  | Some l => l
  | None => []
  end.

(** The request loop shared by the fetch functions: a first [list]
    request without page token, then one request per [nextPageToken] while
    the token is truthy.  [execute tok] is the answer of the service to the
    request carrying [tok]; it may raise.  The loop of the scripts has no
    bound of its own: [None] is a run that needs more than [fuel]
    requests. *)
Fixpoint fetch_pages {X : Type} (fuel : nat)
  (execute : option string -> result (page X))
  (tok : option string) (acc : list X) : option (result (list X)) :=
  match fuel with
  | O => None
  | S fuel' =>
      match execute tok with
      | Raise e => Some (Raise e)
      | Ok p =>
          let acc' := (acc ++ page_items p)%list in
          if truthy (nextPageToken p)
          then fetch_pages fuel' execute (nextPageToken p) acc'
          else Some (Ok acc')
      end
  end.

(** An entry of the calendar list, as far as the fetch functions read it. *)
Record calendar_entry : Type := mkentry {
  entry_colorId : option string;
  hidden : option bool
}.

(** [not c.get("hidden")]. *)
Definition not_hidden (c : calendar_entry) : bool :=
  match hidden c with
  | Some b => negb b
  | None => true
  end.

(** A colour definition and the answer to [colors().get()]. *)
Record color_def : Type := mkcolor {
  background : option string
}.

Record colors_response : Type := mkcolors {
  colors_event : option (dict color_def);
  colors_calendar : option (dict color_def)
}.

(** [{k: v.get("background") for k, v in colors.get(section, {}).items()}]. *)
Definition backgrounds (section : option (dict color_def)) : dict (option string) :=
  match section with
  | Some d => map (fun kv => (fst kv, background (snd kv))) d
  | None => []
  end.

(** ** [simple_color_hours.py] *)

Module Simple.

Definition CUSTOM_COLOR_NAMES : dict string :=
  [ ("1", "Class");
    ("2", "Side-Hustle");
    ("3", "Personal-Development");
    ("4", "Faith");
    ("5", "Network");
    ("6", "Test");
    ("7", "Money");
    ("8", "Sleep");
    ("9", "Exercise");
    ("10", "Project");
    ("11", "Meal") ].

(** [get_last_week_window], reading the clock as [now]. *)
Definition get_last_week_window (now : datetime) : result (datetime * datetime) :=
  let today := replace_midnight now in
  let days_since_sunday := weekday today in
  let days_since_sunday :=
    if days_since_sunday =? 6 then 0
    else (days_since_sunday + 1) mod 7 in
  last_sunday <-
    (if weekday today =? 6
     then sub_days today 7
     else sub_days today days_since_sunday) ;;
  let start := last_sunday in
  end_ <- add_days start 7 ;;
  Ok (start, end_).

(** [clip]. *)
Definition clip (a b lo hi : datetime) : option (datetime * datetime) :=
  let s := py_max a lo in
  let e := py_min b hi in
  if dt_ge s e then None else Some (s, e).

(** [parse_event_times]. *)
Definition parse_event_times (evt : event) : result (datetime * datetime * bool) :=
  let s := get_when (ev_start evt) in
  let e := get_when (ev_end evt) in
  match dateTime s with
  | Some sd =>
      ed <- getitem (dateTime e) ;;
      Ok (sd, ed, false)
  | None =>
      sd <- getitem (date s) ;;
      ed <- getitem (date e) ;;
      Ok (mkdt sd 0, mkdt ed 0, true)
  end.

(** [hx.lstrip('#')]. *)
Fixpoint lstrip_hash (hx : string) : string :=
  match hx with
  | String "#" r => lstrip_hash r
  | _ => hx
  end.

(** [hex_to_rgb]; [substring i 2 hx] is the slice [hx[i:i+2]]. *)
Definition hex_to_rgb (hx : string) : result (Z * Z * Z) :=
  let hx := lstrip_hash hx in
  r <- py_int16 (substring 0 2 hx) ;;
  g <- py_int16 (substring 2 2 hx) ;;
  b <- py_int16 (substring 4 2 hx) ;;
  Ok (r, g, b).

(** The [for] loop of [nearest_event_color_id]. *)
Fixpoint nearest_loop (r g b : Z) (items : dict (option string))
  (best_id : option string) (best_d : Z) : result (option string) :=
  match items with
  | [] => Ok best_id
  | (cid, ehx) :: rest =>
      if negb (truthy ehx) then nearest_loop r g b rest best_id best_d
      else
        '(er, eg, eb) <- hex_to_rgb (str ehx) ;;
        let d := (r - er) ^ 2 + (g - eg) ^ 2 + (b - eb) ^ 2 in
        if d <? best_d
        then nearest_loop r g b rest (Some cid) d
        else nearest_loop r g b rest best_id best_d
  end.

(** [nearest_event_color_id]: only the parse of [hex_color] is inside the
    [try]. *)
Definition nearest_event_color_id (hex_color : string)
  (event_hex_map : dict (option string)) : result (option string) :=
  match hex_to_rgb hex_color with
  | Raise _ => Ok None
  | Ok (r, g, b) => nearest_loop r g b event_hex_map None (10 ^ 9)
  end.

(** [CUSTOM_COLOR_NAMES.get(nearest_id, "Miscellaneous")]. *)
Definition label_of_nearest (nearest_id : option string) : string :=
  match nearest_id with
  | Some k =>
      match get CUSTOM_COLOR_NAMES k with
      | Some l => l
      | None => "Miscellaneous"
      end
  | None => "Miscellaneous"
  end.

(** The "Decide label" block of [main]. *)
Definition decide_label (cid cal_default_hex : option string)
  (event_colors : dict (option string)) : result string :=
  if truthy cid && contains CUSTOM_COLOR_NAMES (str cid)
  then getitem (get CUSTOM_COLOR_NAMES (str cid))
  else if truthy cal_default_hex
  then
    nearest_id <- nearest_event_color_id (str cal_default_hex) event_colors ;;
    Ok (label_of_nearest nearest_id)
  else Ok "Miscellaneous".

(** [calendar_colors.get(cal_default_id) if cal_default_id else None]; a
    table entry without a background is [None] as well. *)
Definition default_hex (calendar_colors : dict (option string))
  (cal_default_id : option string) : option string :=
  if truthy cal_default_id
  then match get calendar_colors (str cal_default_id) with
       | Some hx => hx
       | None => None
       end
  else None.

Section Aggregator.

Variables start end_ : datetime.
Variable count_all_day : bool.
Variables event_colors calendar_colors : dict (option string).

(** The body of [for evt in cal_events]. *)
Definition process_event (cal_default_hex : option string)
  (seconds_by_label : dict Z) (evt : event) : result (dict Z) :=
  '(s, e, is_all_day) <- parse_event_times evt ;;
  match clip s e start end_ with
  | None => Ok seconds_by_label
  | Some (cs, ce) =>
      if is_all_day && negb count_all_day then Ok seconds_by_label
      else
        let dur := elapsed_us ce cs in
        label <- decide_label (ev_colorId evt) cal_default_hex event_colors ;;
        Ok (add_to seconds_by_label label dur)
  end.

(** The body of [for cal in calendars]. *)
Definition process_calendar (seconds_by_label : dict Z) (cal : calendar event)
  : result (dict Z) :=
  let cal_default_id := cal_colorId cal in
  let cal_default_hex := default_hex calendar_colors cal_default_id in
  for_each (process_event cal_default_hex) (cal_events cal) seconds_by_label.

(** The aggregation loop of [main]. *)
Definition aggregate (calendars : list (calendar event)) : result (dict Z) :=
  for_each process_calendar calendars [].

End Aggregator.

(** What a run leaves behind: the lines printed and the rows of the CSV
    file, if one is written. *)
Record output : Type := mkoutput {
  console : list string;
  csv_file : option (list (list string))
}.

Section Report.

(** Python floats and their formatting stay abstract. *)
Variable pyfloat : Type.
(** [round(secs / 3600.0, 2)], from the microsecond count. *)
Variable hours_of : Z -> pyfloat.
Variable float_lt : pyfloat -> pyfloat -> bool.
(** [sum(hrs for _, hrs in rows)]. *)
Variable total_of : list pyfloat -> pyfloat.
(** The line printed for a row, from its name, hours and the total. *)
Variable console_row : string -> pyfloat -> pyfloat -> string.
(** The total line. *)
Variable console_total : pyfloat -> string.
(** The CSV fields of a row: name, hours and formatted percentage. *)
Variable csv_row : string -> pyfloat -> pyfloat -> list string.

(** [rows.sort(key=lambda x: x[1], reverse=True)]: stable, descending. *)
Fixpoint insert_desc (x : string * pyfloat) (l : list (string * pyfloat))
  : list (string * pyfloat) :=
  match l with
  | [] => [x]
  | y :: l' => if float_lt (snd y) (snd x) then x :: l else y :: insert_desc x l'
  end.

Definition sort_desc (rows : list (string * pyfloat)) : list (string * pyfloat) :=
  fold_left (fun acc x => insert_desc x acc) rows [].

Definition rule : string := "==================================================".

(** The part of [main] after the aggregation loop, from
    [if not seconds_by_label]. *)
Definition report (csv : option string) (date_range : string)
  (seconds_by_label : dict Z) : output :=
  match seconds_by_label with
  | [] =>
      mkoutput
        ["No events found in this time window."]
        (if truthy csv then Some [["label"; "hours"]] else None)
  | _ =>
      let rows := map (fun kv => (fst kv, hours_of (snd kv))) seconds_by_label in
      let rows := sort_desc rows in
      let total_hours := total_of (map snd rows) in
      mkoutput
        ((String "010" "=== Hours by Label (" ++ date_range ++ ") ===")
           :: map (fun r => console_row (fst r) (snd r) total_hours) rows
           ++ [rule; console_total total_hours; rule]
           ++ (if truthy csv
               then [String "010" "[INFO] CSV report saved to: " ++ str csv]
               else []))%string
        (if truthy csv
         then Some (["label"; "hours"; "percentage"]
                      :: map (fun r => csv_row (fst r) (snd r) total_hours) rows)
         else None)
  end.

End Report.

(** [fetch_all_calendars]. *)
Definition fetch_all_calendars (fuel : nat)
  (calendar_list : option string -> result (page calendar_entry))
  (include_hidden : bool) : option (result (list calendar_entry)) :=
  match fetch_pages fuel calendar_list None [] with
  | Some (Ok cals) =>
      Some (Ok (if negb include_hidden then filter not_hidden cals else cals))
  | r => r
  end.

(** [fetch_events_for_calendar]; [events_list] is the service's
    [events().list] for a calendar id and the two ISO bounds. *)
Definition fetch_events_for_calendar {E : Type} (fuel : nat)
  (events_list : string -> string -> string -> option string -> result (page E))
  (calendar_id start_iso end_iso : string) : option (result (list E)) :=
  fetch_pages fuel (events_list calendar_id start_iso end_iso) None [].

(** [get_colors_map]. *)
Definition get_colors_map (colors : colors_response)
  : dict (option string) * dict (option string) :=
  let event_colors := backgrounds (colors_event colors) in
  let calendar_colors := backgrounds (colors_calendar colors) in
  (event_colors, calendar_colors).

End Simple.

(** ** [weekly_calendar_color_hours.py] *)

Module Weekly.

Definition COUNT_ALL_DAY_AS_24H : bool := true.

(** [last_sun_to_sat], reading the clock as [now]. *)
Definition last_sun_to_sat (now : datetime) : result (datetime * datetime) :=
  let today := replace_midnight now in
  let days_since_last_sun := (weekday today + 1) mod 7 in
  end_ <- sub_days today days_since_last_sun ;;
  start <- sub_days end_ 7 ;;
  Ok (start, end_).

(** [clamp_interval]. *)
Definition clamp_interval (start end_ clamp_start clamp_end : datetime)
  : option (datetime * datetime) :=
  let s := py_max start clamp_start in
  let e := py_min end_ clamp_end in
  if dt_ge s e then None else Some (s, e).

(** [parse_event_times]; [now] is the clock reading of the last branch. *)
Definition parse_event_times (now : datetime) (evt : event)
  : result (datetime * datetime * bool) :=
  let start := get_when (ev_start evt) in
  let end_ := get_when (ev_end evt) in
  match dateTime start with
  | Some s =>
      e <- getitem (dateTime end_) ;;
      Ok (s, e, false)
  | None =>
      match date start with
      | Some s_date =>
          e_date <- getitem (date end_) ;;
          Ok (mkdt s_date 0, mkdt e_date 0, true)
      | None => Ok (now, now, false)
      end
  end.

(** [evt.get("colorId") or cal_default_color_id or "default"]. *)
Definition color_key (evt_color_id cal_default_color_id : option string) : string :=
  if truthy evt_color_id then str evt_color_id
  else if truthy cal_default_color_id then str cal_default_color_id
  else "default".

Section Aggregator.

Variables week_start week_end : datetime.
Variable ignore_all_day : bool.

Definition count_all_day : bool := COUNT_ALL_DAY_AS_24H && negb ignore_all_day.

(** The body of [for evt in cal_events]; every event comes with the clock
    reading [parse_event_times] would take while parsing it. *)
Definition process_event (cal_default_color_id : option string)
  (seconds_by_color_id : dict Z) (timed : datetime * event) : result (dict Z) :=
  let '(now, evt) := timed in
  '(s, e, is_all_day) <- parse_event_times now evt ;;
  match clamp_interval s e week_start week_end with
  | None => Ok seconds_by_color_id
  | Some (cs, ce) =>
      if is_all_day && negb count_all_day then Ok seconds_by_color_id
      else
        let duration_sec := elapsed_us ce cs in
        let cid := color_key (ev_colorId evt) cal_default_color_id in
        Ok (add_to seconds_by_color_id cid duration_sec)
  end.

(** The body of [for cal in calendars]. *)
Definition process_calendar (seconds_by_color_id : dict Z)
  (cal : calendar (datetime * event)) : result (dict Z) :=
  let cal_default_color_id := cal_colorId cal in
  for_each (process_event cal_default_color_id) (cal_events cal) seconds_by_color_id.

(** The aggregation loop of [main]. *)
Definition aggregate (calendars : list (calendar (datetime * event)))
  : result (dict Z) :=
  for_each process_calendar calendars [].

End Aggregator.

(** [color_label], the closure of [main] over the two colour tables. *)
Definition color_label (event_colors calendar_colors : dict (option string))
  (cid : string) : string :=
  match get event_colors cid with
  | Some hx => (cid ++ " (" ++ str hx ++ ")")%string
  | None =>
      match get calendar_colors cid with
      | Some hx => (cid ++ " (default " ++ str hx ++ ")")%string
      | None => (cid ++ " (n/a)")%string
      end
  end.

Record output : Type := mkoutput {
  console : list string;
  csv_file : list (list string)
}.

Section Report.

(** Python floats and their formatting stay abstract. *)
Variable pyfloat : Type.
(** [round(secs / 3600.0, 2)], from the microsecond count. *)
Variable hours_of : Z -> pyfloat.
Variable float_lt : pyfloat -> pyfloat -> bool.
(** [sum(r["hours"] for r in rows)]. *)
Variable total_of : list pyfloat -> pyfloat.
(** The line printed for a row, from its colour text, hours and the total. *)
Variable console_row : string -> pyfloat -> pyfloat -> string.
(** The total line. *)
Variable console_total : pyfloat -> string.
(** [str] of a float, as [csv.DictWriter] writes it. *)
Variable float_str : pyfloat -> string.

Variables event_colors calendar_colors : dict (option string).

(** A row dict of [main]. *)
Record row : Type := mkrow {
  color_id : string;
  color : string;
  hours : pyfloat
}.

(** [rows.sort(key=lambda r: r["hours"], reverse=True)]: stable,
    descending. *)
Fixpoint insert_desc (x : row) (l : list row) : list row :=
  match l with
  | [] => [x]
  | y :: l' => if float_lt (hours y) (hours x) then x :: l else y :: insert_desc x l'
  end.

Definition sort_desc (rows : list row) : list row :=
  fold_left (fun acc x => insert_desc x acc) rows [].

Definition build_rows (seconds_by_color_id : dict Z) : list row :=
  sort_desc
    (map (fun kv => mkrow (fst kv) (color_label event_colors calendar_colors (fst kv))
                      (hours_of (snd kv)))
       seconds_by_color_id).

Definition rule : string :=
  "------------------------------------------------------------".

(** The part of [main] after the aggregation loop, from "Build & print
    rows"; [banner] stands for the title line and the formatted From/To
    line, [csv] for [args.csv]. *)
Definition report (banner : list string) (csv : string)
  (seconds_by_color_id : dict Z) : output :=
  let rows := build_rows seconds_by_color_id in
  mkoutput
    (banner ++ [rule]
       ++ match rows with
          | [] => ["No events found in this window."]
          | _ =>
              let total_hours := total_of (map hours rows) in
              map (fun r => console_row (color r) (hours r) total_hours) rows
                ++ [rule; console_total total_hours]
          end
       ++ [(String "010" "[INFO] Wrote CSV: " ++ csv)%string])
    (["color_id"; "color"; "hours"]
       :: map (fun r => [color_id r; color r; float_str (hours r)]) rows).

End Report.

(** [list_calendars]. *)
Definition list_calendars (fuel : nat)
  (calendar_list : option string -> result (page calendar_entry))
  (include_hidden : bool) : option (result (list calendar_entry)) :=
  match fetch_pages fuel calendar_list None [] with
  | Some (Ok cals) =>
      Some (Ok (if negb include_hidden then filter not_hidden cals else cals))
  | r => r
  end.

(** [fetch_events_for_calendar]: the whole fetch is inside the [try], and
    both handlers print the error and return the empty list. *)
Definition fetch_events_for_calendar {E : Type} (fuel : nat)
  (events_list : string -> string -> string -> option string -> result (page E))
  (calendar_id time_min_iso time_max_iso : string) : option (list E) :=
  match fetch_pages fuel (events_list calendar_id time_min_iso time_max_iso) None [] with
  | Some (Ok events) => Some events
  | Some (Raise _) => Some []
  | None => None
  end.

(** [get_colors_map]. *)
Definition get_colors_map (colors : colors_response)
  : dict (option string) * dict (option string) :=
  let event_colors := backgrounds (colors_event colors) in
  let calendar_colors := backgrounds (colors_calendar colors) in
  (event_colors, calendar_colors).

End Weekly.

(** ** The totals as the scripts store them *)

(** A Python [int] as an operand of the true division. *)
Definition Z2SF (z : Z) : spec_float :=
  match z with
  | Z0 => S754_zero false
  | Zpos p => S754_finite false p 0
  | Zneg p => S754_finite true p 0
  end.

(** [a / b] on two [int]s: the binary64 number nearest to the quotient,
    ties to even. *)
Definition true_divide (a b : Z) : float :=
  SF2Prim (SFdiv prec emax (Z2SF a) (Z2SF b)).

(** [td.total_seconds()] of a [timedelta] of [us] microseconds, which is
    [us / 10**6]. *)
Definition total_seconds (us : Z) : float := true_divide us 1000000.

(** [d[k] += v] on a [defaultdict(float)]: a missing key starts from
    [0.0]. *)
Fixpoint float_add_to (d : dict float) (k : string) (v : float) : dict float :=
  match d with
  | [] => [(k, (0 + v)%float)]
  | (k', x) :: d' =>
      if (k' =? k)%string then (k', (x + v)%float) :: d'
      else (k', x) :: float_add_to d' k v
  end.

(** The aggregation loop of [simple_color_hours.py] on binary64 totals. *)
Module SimpleFloat.

Section Aggregator.

Variables start end_ : datetime.
Variable count_all_day : bool.
Variables event_colors calendar_colors : dict (option string).

(** The body of [for evt in cal_events]. *)
Definition process_event (cal_default_hex : option string)
  (seconds_by_label : dict float) (evt : event) : result (dict float) :=
  '(s, e, is_all_day) <- Simple.parse_event_times evt ;;
  match Simple.clip s e start end_ with
  | None => Ok seconds_by_label
  | Some (cs, ce) =>
      if is_all_day && negb count_all_day then Ok seconds_by_label
      else
        let dur := total_seconds (elapsed_us ce cs) in
        label <- Simple.decide_label (ev_colorId evt) cal_default_hex event_colors ;;
        Ok (float_add_to seconds_by_label label dur)
  end.

(** The body of [for cal in calendars]. *)
Definition process_calendar (seconds_by_label : dict float) (cal : calendar event)
  : result (dict float) :=
  let cal_default_id := cal_colorId cal in
  let cal_default_hex := Simple.default_hex calendar_colors cal_default_id in
  for_each (process_event cal_default_hex) (cal_events cal) seconds_by_label.

(** The aggregation loop of [main]. *)
Definition aggregate (calendars : list (calendar event)) : result (dict float) :=
  for_each process_calendar calendars [].

End Aggregator.

End SimpleFloat.

(** The aggregation loop of [weekly_calendar_color_hours.py] on binary64
    totals. *)
Module WeeklyFloat.

Section Aggregator.

Variables week_start week_end : datetime.
Variable ignore_all_day : bool.

(** The body of [for evt in cal_events]. *)
Definition process_event (cal_default_color_id : option string)
  (seconds_by_color_id : dict float) (timed : datetime * event)
  : result (dict float) :=
  let '(now, evt) := timed in
  '(s, e, is_all_day) <- Weekly.parse_event_times now evt ;;
  match Weekly.clamp_interval s e week_start week_end with
  | None => Ok seconds_by_color_id
  | Some (cs, ce) =>
      if is_all_day && negb (Weekly.count_all_day ignore_all_day)
      then Ok seconds_by_color_id
      else
        let duration_sec := total_seconds (elapsed_us ce cs) in
        let cid := Weekly.color_key (ev_colorId evt) cal_default_color_id in
        Ok (float_add_to seconds_by_color_id cid duration_sec)
  end.

(** The body of [for cal in calendars]. *)
Definition process_calendar (seconds_by_color_id : dict float)
  (cal : calendar (datetime * event)) : result (dict float) :=
  let cal_default_color_id := cal_colorId cal in
  for_each (process_event cal_default_color_id) (cal_events cal) seconds_by_color_id.

(** The aggregation loop of [main]. *)
Definition aggregate (calendars : list (calendar (datetime * event)))
  : result (dict float) :=
  for_each process_calendar calendars [].

End Aggregator.

End WeeklyFloat.

(** ** Event times as the calendar service sends them *)

(** The [start] or [end] object of an event before its texts are read:
    ["dateTime"] and ["date"] hold ISO 8601 texts. *)
Record when_text : Type := mkwhen_text {
  dateTime_text : option string;
  date_text : option string
}.

Record event_text : Type := mkevent_text {
  text_start : option when_text;
  text_end : option when_text
}.

(** [evt.get("start", {})]. *)
Definition get_when_text (w : option when_text) : when_text :=
  match w with
  | Some x => x
  | None => mkwhen_text None None
  end.

(** [parse_event_times] of [simple_color_hours.py] on the texts. *)
Module SimpleText.

Section Iso.

(** [datetime.fromisoformat(t.replace("Z", "+00:00")).astimezone(tz)]. *)
Variable datetime_fromisoformat : string -> result datetime.

(** [date.fromisoformat(t)], as the ordinal of the date. *)
Variable date_fromisoformat : string -> result Z.

Definition parse_event_times (evt : event_text)
  : result (datetime * datetime * bool) :=
  let s := get_when_text (text_start evt) in
  let e := get_when_text (text_end evt) in
  match dateTime_text s with
  | Some st =>
      sd <- datetime_fromisoformat st ;;
      et <- getitem (dateTime_text e) ;;
      ed <- datetime_fromisoformat et ;;
      Ok (sd, ed, false)
  | None =>
      st <- getitem (date_text s) ;;
      sd <- date_fromisoformat st ;;
      et <- getitem (date_text e) ;;
      ed <- date_fromisoformat et ;;
      Ok (mkdt sd 0, mkdt ed 0, true)
  end.

End Iso.

End SimpleText.

(** [parse_event_times] of [weekly_calendar_color_hours.py] on the texts;
    [now] is the clock reading of the last branch. *)
Module WeeklyText.

Section Iso.

Variable datetime_fromisoformat : string -> result datetime.
Variable date_fromisoformat : string -> result Z.

Definition parse_event_times (now : datetime) (evt : event_text)
  : result (datetime * datetime * bool) :=
  let start := get_when_text (text_start evt) in
  let end_ := get_when_text (text_end evt) in
  match dateTime_text start with
  | Some st =>
      s <- datetime_fromisoformat st ;;
      et <- getitem (dateTime_text end_) ;;
      e <- datetime_fromisoformat et ;;
      Ok (s, e, false)
  | None =>
      match date_text start with
      | Some st =>
          s_date <- date_fromisoformat st ;;
          et <- getitem (date_text end_) ;;
          e_date <- date_fromisoformat et ;;
          Ok (mkdt s_date 0, mkdt e_date 0, true)
      | None => Ok (now, now, false)
      end
  end.

End Iso.

End WeeklyText.

(** ** The specification's own notions *)

(** The window of the formula of section 4.1, on unbounded dates:
    [daysSinceSunday = (dow + 1) mod 7]; the start is 7 days back when that
    is 0 and [daysSinceSunday] days back otherwise; the end is 7 days after
    the start. *)
Definition formula_window (now : datetime) : datetime * datetime :=
  let today := replace_midnight now in
  let daysSinceSunday := (weekday today + 1) mod 7 in
  let start :=
    if daysSinceSunday =? 0
    then mkdt (toordinal today - 7) 0
    else mkdt (toordinal today - daysSinceSunday) 0 in
  (start, mkdt (toordinal start + 7) 0).

(** Dates far enough from both ends of the calendar (0001-01-14 to
    9999-12-25) for the week arithmetic of either script to stay in
    range. *)
Definition in_range (now : datetime) : Prop :=
  14 <= toordinal now <= MAXORDINAL - 6.

(** The TimeWindow invariant of section 3. *)
Definition TimeWindow (start end_ : datetime) : Prop :=
  dt_lt start end_ = true /\
  weekday start = 6 /\ micros start = 0 /\
  toordinal end_ = toordinal start + 7 /\ micros end_ = 0.

(** A 6-hex-digit string, optionally "#"-prefixed (section 4.3). *)
Definition is_hex_digit (c : ascii) : bool :=
  match digit_value c with Some _ => true | None => false end.

Definition six_hex_digits (s : string) : bool :=
  (String.length s =? 6)%nat && forallb is_hex_digit (list_ascii_of_string s).

Definition well_formed_hex (s : string) : bool :=
  match s with
  | String "#" r => six_hex_digits r
  | _ => six_hex_digits s
  end.

(** A parsed interval overlaps the window when its clipped start lies
    before its clipped end. *)
Definition overlaps (start end_ s e : datetime) : bool :=
  dt_lt (py_max s start) (py_min e end_).

(** The all-day filter. *)
Definition passes_all_day_filter (count_all_day is_all_day : bool) : bool :=
  negb is_all_day || count_all_day.

(** The clipped duration a parsed event adds to the totals, in
    microseconds: nothing unless it overlaps the window and passes the
    all-day filter. *)
Definition clipped_duration (start end_ : datetime) (count_all_day : bool)
  (t : datetime * datetime * bool) : Z :=
  let '(s, e, is_all_day) := t in
  if overlaps start end_ s e && passes_all_day_filter count_all_day is_all_day
  then elapsed_us (py_min e end_) (py_max s start)
  else 0.

Definition is_ok {A : Type} (r : result A) : bool :=
  match r with Ok _ => true | Raise _ => false end.

(** Every background of the event colour table that the nearest-colour
    loop reads can be parsed. *)
Definition table_parses (event_colors : dict (option string)) : bool :=
  forallb (fun kv => negb (truthy (snd kv)) || is_ok (Simple.hex_to_rgb (str (snd kv))))
    event_colors.

Definition simple_seconds (start end_ : datetime) (count_all_day : bool)
  (evt : event) : Z :=
  match Simple.parse_event_times evt with
  | Ok t => clipped_duration start end_ count_all_day t
  | Raise _ => 0
  end.

Definition weekly_seconds (start end_ : datetime) (count_all_day : bool)
  (timed : datetime * event) : Z :=
  match Weekly.parse_event_times (fst timed) (snd timed) with
  | Ok t => clipped_duration start end_ count_all_day t
  | Raise _ => 0
  end.

(** The events whose times the scripts can read. *)
Definition simple_parses (evt : event) : Prop :=
  is_ok (Simple.parse_event_times evt) = true.

Definition weekly_parses (timed : datetime * event) : Prop :=
  is_ok (Weekly.parse_event_times (fst timed) (snd timed)) = true.

(** Sum of [f] over the events of all calendars, one term per occurrence. *)
Definition sum_over {E : Type} (f : E -> Z) (calendars : list (calendar E)) : Z :=
  fold_right (fun cal acc => fold_right (fun evt a => f evt + a) 0 (cal_events cal) + acc)
    0 calendars.

(** [prefix p s]: the text [s] starts with [p]. *)
Definition starts_with (p s : string) : bool := String.prefix p s.

(** All characters, and the character pairs [int(., 16)] accepts: two
    digits, a digit next to white space, or a signed digit. *)
Definition all_ascii : list ascii := map ascii_of_nat (seq 0 256).

Definition is_sign (c : ascii) : bool := (c =? "+")%char || (c =? "-")%char.

Definition pair_accepted (c1 c2 : ascii) : bool :=
  (is_hex_digit c1 && is_hex_digit c2)
  || (is_space c1 && is_hex_digit c2)
  || (is_hex_digit c1 && is_space c2)
  || (is_sign c1 && is_hex_digit c2).

Definition pair_checked (c1 c2 : ascii) : bool :=
  match py_int16 (String c1 (String c2 "")) with
  | Ok v =>
      pair_accepted c1 c2
      && (negb (is_hex_digit c1 && is_hex_digit c2) || ((0 <=? v) && (v <=? 255)))
  | Raise _ => negb (pair_accepted c1 c2)
  end.

(** ** Notions used to state further properties *)

(** A time of day inside its day. *)
Definition valid_time (d : datetime) : Prop := 0 <= micros d < US_PER_DAY.

(** [d.get(k, 0)]. *)
Definition lookup0 (d : dict Z) (k : string) : Z :=
  match get d k with
  | Some v => v
  | None => 0
  end.

(** The keys of a dict, in order. *)
Definition keys {V : Type} (d : dict V) : list string := map fst d.

(** The service answers the request carrying [tok] with the first page of
    [pages], and each further page is its answer to the token of the page
    before; the last page carries no token. *)
Inductive serves {X : Type} (execute : option string -> result (page X))
  : option string -> list (page X) -> Prop :=
| serves_last tok p :
    execute tok = Ok p ->
    truthy (nextPageToken p) = false ->
    serves execute tok [p]
| serves_more tok p ps :
    execute tok = Ok p ->
    truthy (nextPageToken p) = true ->
    serves execute (nextPageToken p) ps ->
    serves execute tok (p :: ps).

(** The squared RGB distance of [nearest_event_color_id]. *)
Definition rgb_distance (c1 c2 : Z * Z * Z) : Z :=
  let '(r, g, b) := c1 in
  let '(er, eg, eb) := c2 in
  (r - er) ^ 2 + (g - eg) ^ 2 + (b - eb) ^ 2.

(** An event adds to the totals: its times can be read, it overlaps the
    window and it passes the all-day filter. *)
Definition counted (start end_ : datetime) (count_all_day : bool)
  (parsed : result (datetime * datetime * bool)) : bool :=
  match parsed with
  | Ok (s, e, is_all_day) =>
      overlaps start end_ s e && passes_all_day_filter count_all_day is_all_day
  | Raise _ => false
  end.

(** Sum of [f cal evt] over the events of all calendars. *)
Definition sum_over_calendars {E : Type} (f : calendar E -> E -> Z)
  (calendars : list (calendar E)) : Z :=
  fold_right
    (fun cal acc => fold_right (fun evt a => f cal evt + a) 0 (cal_events cal) + acc)
    0 calendars.

(** What an event adds under the key [k] in the raw-colour script. *)
Definition weekly_seconds_under (k : string) (week_start week_end : datetime)
  (count_all_day : bool) (cal : calendar (datetime * event))
  (timed : datetime * event) : Z :=
  if (Weekly.color_key (ev_colorId (snd timed)) (cal_colorId cal) =? k)%string
  then weekly_seconds week_start week_end count_all_day timed
  else 0.

(** What an event adds under the label [k] in the label-based script. *)
Definition simple_seconds_under (k : string) (start end_ : datetime)
  (count_all_day : bool) (event_colors calendar_colors : dict (option string))
  (cal : calendar event) (evt : event) : Z :=
  match Simple.decide_label (ev_colorId evt)
          (Simple.default_hex calendar_colors (cal_colorId cal)) event_colors with
  | Ok label =>
      if (label =? k)%string then simple_seconds start end_ count_all_day evt else 0
  | Raise _ => 0
  end.

(** The twelve labels of the label-based report. *)
Definition all_labels : list string :=
  "Miscellaneous" :: map snd Simple.CUSTOM_COLOR_NAMES.

(** A value [int(., 16)] can return for at most two characters. *)
Definition within_byte (r : result Z) : bool :=
  match r with
  | Ok v => (-255 <=? v) && (v <=? 255)
  | Raise _ => true
  end.

Definition short_bounded (c1 c2 : ascii) : bool :=
  within_byte (py_int16 (String c1 (String c2 "")))
  && within_byte (py_int16 (String c1 "")).

(** The service answers with the pages of [pages], each carrying a token,
    and raises [e] on the request for the page after them. *)
Inductive breaks {X : Type} (execute : option string -> result (page X)) (e : exn)
  : option string -> list (page X) -> Prop :=
| breaks_now tok :
    execute tok = Raise e ->
    breaks execute e tok []
| breaks_later tok p ps :
    execute tok = Ok p ->
    truthy (nextPageToken p) = true ->
    breaks execute e (nextPageToken p) ps ->
    breaks execute e tok (p :: ps).

(** The times read from an event are times of day inside their day. *)
Definition valid_times (parsed : result (datetime * datetime * bool)) : Prop :=
  match parsed with
  | Ok (s, e, _) => valid_time s /\ valid_time e
  | Raise _ => True
  end.

(** Every total is positive. *)
Definition all_positive (d : dict Z) : Prop :=
  forall k v, In (k, v) d -> 0 < v.

(** ** Notions used to relate the binary64 totals to the exact ones *)

(** [float(n)]: the binary64 number nearest to the integer [n], which is
    [n] itself while [|n| < 2**53]. *)
Definition float_of_int (n : Z) : float :=
  SF2Prim (binary_normalize prec emax n 0 false).

(** The binary64 number that is the whole number [n], [0 < n < 2**53]:
    its mantissa has 53 bits. *)
Definition canon (n : Z) : spec_float :=
  S754_finite false (Z.to_pos (n * 2 ^ (52 - Z.log2 n))) (Z.log2 n - 52).

(** Floats added from left to right, starting from [0.0]. *)
Definition float_sum (l : list float) : float :=
  fold_left PrimFloat.add l 0%float.

(** [d.get(k, 0.0)]. *)
Definition float_lookup (d : dict float) (k : string) : float :=
  match get d k with
  | Some v => v
  | None => 0%float
  end.

(** A duration in microseconds that is a whole number of seconds. *)
Definition whole_seconds (us : Z) : Prop := 0 <= us /\ us mod 1000000 = 0.

Definition whole_totals (d : dict Z) : Prop :=
  Forall (fun kv => whole_seconds (snd kv)) d.

(** Exact totals in microseconds, as floats in seconds. *)
Definition seconds_of (d : dict Z) : dict float :=
  map (fun kv => (fst kv, float_of_int (snd kv / 1000000))) d.

(** Below this many microseconds every whole second is a binary64
    number. *)
Definition EXACT_LIMIT : Z := 2 ^ 53 * 1000000.

(** The clipped durations, in microseconds, of the events that are
    counted, in the order the loops meet them. *)
Definition simple_durations (start end_ : datetime) (count_all_day : bool)
  (calendars : list (calendar event)) : list Z :=
  flat_map
    (fun cal =>
       flat_map
         (fun evt =>
            if counted start end_ count_all_day (Simple.parse_event_times evt)
            then [simple_seconds start end_ count_all_day evt]
            else [])
         (cal_events cal))
    calendars.

Definition weekly_durations (week_start week_end : datetime) (count_all_day : bool)
  (calendars : list (calendar (datetime * event))) : list Z :=
  flat_map
    (fun cal =>
       flat_map
         (fun timed =>
            if counted week_start week_end count_all_day
                 (Weekly.parse_event_times (fst timed) (snd timed))
            then [weekly_seconds week_start week_end count_all_day timed]
            else [])
         (cal_events cal))
    calendars.

(** The decoded object [v] holds what the texts of [w] denote: the same
    keys are present, and each text is read as the value. *)
Definition denotes_when (datetime_fromisoformat : string -> result datetime)
  (date_fromisoformat : string -> result Z) (w : when_text) (v : when) : Prop :=
  match dateTime_text w, dateTime v with
  | Some t, Some d => datetime_fromisoformat t = Ok d
  | None, None => True
  | _, _ => False
  end /\
  match date_text w, date v with
  | Some t, Some d => date_fromisoformat t = Ok d
  | None, None => True
  | _, _ => False
  end.

Definition denotes (datetime_fromisoformat : string -> result datetime)
  (date_fromisoformat : string -> result Z) (raw : event_text) (evt : event) : Prop :=
  denotes_when datetime_fromisoformat date_fromisoformat
    (get_when_text (text_start raw)) (get_when (ev_start evt)) /\
  denotes_when datetime_fromisoformat date_fromisoformat
    (get_when_text (text_end raw)) (get_when (ev_end evt)).

(** * Properties *)

(** ** The order on datetimes *)

Lemma dt_cmp_eq (a b : datetime) : dt_cmp a b = Eq <-> a = b.
Proof.
  destruct a as [d1 u1], b as [d2 u2]; unfold dt_cmp; simpl.
  destruct (Z.compare_spec d1 d2) as [-> | H | H].
  - rewrite Z.compare_eq_iff. split; [intros -> | intros [= ->]]; reflexivity.
  - split; [discriminate | intros [= -> _]; lia].
  - split; [discriminate | intros [= -> _]; lia].
Qed.

Lemma dt_cmp_antisym (a b : datetime) : dt_cmp b a = CompOpp (dt_cmp a b).
Proof.
  destruct a as [d1 u1], b as [d2 u2]; unfold dt_cmp; simpl.
  rewrite (Z.compare_antisym d1 d2), (Z.compare_antisym u1 u2).
  destruct (d1 ?= d2); reflexivity.
Qed.

Lemma dt_lt_spec (a b : datetime) :
  dt_lt a b = true <->
  toordinal a < toordinal b \/ (toordinal a = toordinal b /\ micros a < micros b).
Proof.
  destruct a as [d1 u1], b as [d2 u2]; unfold dt_lt, dt_cmp; simpl.
  destruct (Z.compare_spec d1 d2); destruct (Z.compare_spec u1 u2);
    split; intros; try discriminate; try reflexivity; lia.
Qed.

Lemma dt_gt_lt (a b : datetime) : dt_gt a b = dt_lt b a.
Proof.
  unfold dt_gt, dt_lt. rewrite (dt_cmp_antisym a b).
  destruct (dt_cmp a b); reflexivity.
Qed.

Lemma dt_ge_lt (a b : datetime) : dt_ge a b = negb (dt_lt a b).
Proof. unfold dt_ge, dt_lt. destruct (dt_cmp a b); reflexivity. Qed.

Lemma dt_le_lt (a b : datetime) : dt_le a b = negb (dt_lt b a).
Proof.
  unfold dt_le, dt_lt. rewrite (dt_cmp_antisym a b).
  destruct (dt_cmp a b); reflexivity.
Qed.

Lemma dt_lt_irrefl (a : datetime) : dt_lt a a = false.
Proof.
  destruct (dt_lt a a) eqn:E; [| reflexivity].
  apply dt_lt_spec in E. lia.
Qed.

Lemma dt_lt_trans (a b c : datetime) :
  dt_lt a b = true -> dt_lt b c = true -> dt_lt a c = true.
Proof. rewrite !dt_lt_spec. lia. Qed.

Lemma dt_lt_total (a b : datetime) :
  dt_lt a b = true \/ a = b \/ dt_lt b a = true.
Proof.
  rewrite !dt_lt_spec. destruct a as [d1 u1], b as [d2 u2]; simpl.
  destruct (Z.lt_total d1 d2) as [H | [H | H]]; [lia | | lia].
  destruct (Z.lt_total u1 u2) as [H' | [H' | H']]; [lia | | lia].
  right; left; congruence.
Qed.

Lemma dt_lt_asym (a b : datetime) : dt_lt a b = true -> dt_lt b a = false.
Proof.
  intros H. destruct (dt_lt b a) eqn:E; [| reflexivity].
  apply dt_lt_spec in H, E. lia.
Qed.

(** [a <= b] as "not [b < a]", composed with a strict step. *)
Lemma dt_nlt_lt_trans (a b c : datetime) :
  dt_lt b a = false -> dt_lt b c = true -> dt_lt a c = true.
Proof.
  intros H1 H2. destruct (dt_lt_total a b) as [H | [-> | H]].
  - eapply dt_lt_trans; eassumption.
  - assumption.
  - congruence.
Qed.

Lemma dt_lt_nlt_trans (a b c : datetime) :
  dt_lt a b = true -> dt_lt c b = false -> dt_lt a c = true.
Proof.
  intros H1 H2. destruct (dt_lt_total b c) as [H | [<- | H]].
  - eapply dt_lt_trans; eassumption.
  - assumption.
  - congruence.
Qed.

Lemma dt_nlt_trans (a b c : datetime) :
  dt_lt b a = false -> dt_lt c b = false -> dt_lt c a = false.
Proof.
  intros H1 H2. destruct (dt_lt c a) eqn:E; [| reflexivity].
  pose proof (dt_lt_nlt_trans _ _ _ E H1) as H. congruence.
Qed.

(** [py_max] and [py_min] are the later and the earlier of their arguments. *)
Lemma py_max_cases (a b : datetime) :
  (dt_lt a b = true /\ py_max a b = b) \/ (dt_lt a b = false /\ py_max a b = a).
Proof.
  unfold py_max. rewrite dt_gt_lt. destruct (dt_lt a b); auto.
Qed.

Lemma py_min_cases (a b : datetime) :
  (dt_lt b a = true /\ py_min a b = b) \/ (dt_lt b a = false /\ py_min a b = a).
Proof.
  unfold py_min. destruct (dt_lt b a); auto.
Qed.

Lemma py_max_comm (a b : datetime) : py_max a b = py_max b a.
Proof.
  destruct (py_max_cases a b) as [[H ->] | [H ->]];
    destruct (py_max_cases b a) as [[H' ->] | [H' ->]]; try reflexivity.
  - apply dt_lt_asym in H. congruence.
  - destruct (dt_lt_total a b) as [? | [? | ?]]; congruence.
Qed.

Lemma py_min_comm (a b : datetime) : py_min a b = py_min b a.
Proof.
  destruct (py_min_cases a b) as [[H ->] | [H ->]];
    destruct (py_min_cases b a) as [[H' ->] | [H' ->]]; try reflexivity.
  - apply dt_lt_asym in H. congruence.
  - destruct (dt_lt_total a b) as [? | [? | ?]]; congruence.
Qed.

Lemma py_max_ub_l (a b : datetime) : dt_lt (py_max a b) a = false.
Proof.
  destruct (py_max_cases a b) as [[H ->] | [H ->]].
  - now apply dt_lt_asym.
  - apply dt_lt_irrefl.
Qed.

Lemma py_max_ub_r (a b : datetime) : dt_lt (py_max a b) b = false.
Proof. rewrite py_max_comm. apply py_max_ub_l. Qed.

Lemma py_min_lb_l (a b : datetime) : dt_lt a (py_min a b) = false.
Proof.
  destruct (py_min_cases a b) as [[H ->] | [H ->]].
  - now apply dt_lt_asym.
  - apply dt_lt_irrefl.
Qed.

Lemma py_min_lb_r (a b : datetime) : dt_lt b (py_min a b) = false.
Proof. rewrite py_min_comm. apply py_min_lb_l. Qed.

Lemma py_max_absorb (a b : datetime) : py_max (py_max a b) b = py_max a b.
Proof.
  destruct (py_max_cases (py_max a b) b) as [[H _] | [_ ->]]; [| reflexivity].
  rewrite py_max_ub_r in H. discriminate.
Qed.

Lemma py_min_absorb (a b : datetime) : py_min (py_min a b) b = py_min a b.
Proof.
  destruct (py_min_cases (py_min a b) b) as [[H _] | [_ ->]]; [| reflexivity].
  rewrite py_min_lb_r in H. discriminate.
Qed.

Lemma clip_unfold (a b lo hi : datetime) :
  Simple.clip a b lo hi =
  if dt_lt (py_max a lo) (py_min b hi)
  then Some (py_max a lo, py_min b hi) else None.
Proof.
  unfold Simple.clip. cbv zeta. rewrite dt_ge_lt.
  destruct (dt_lt (py_max a lo) (py_min b hi)); reflexivity.
Qed.

Lemma clamp_interval_clip (a b lo hi : datetime) :
  Weekly.clamp_interval a b lo hi = Simple.clip a b lo hi.
Proof. reflexivity. Qed.

(** ** Week Window Resolver *)

Lemma add_days_ok (d : datetime) (k : Z) :
  0 < toordinal d + k <= MAXORDINAL ->
  add_days d k = Ok (mkdt (toordinal d + k) (micros d)).
Proof.
  intros [H1 H2]. unfold add_days. cbv zeta.
  apply Z.ltb_lt in H1. apply Z.leb_le in H2. rewrite H1, H2. reflexivity.
Qed.

Lemma sub_days_ok (d : datetime) (k : Z) :
  0 < toordinal d - k <= MAXORDINAL ->
  sub_days d k = Ok (mkdt (toordinal d - k) (micros d)).
Proof.
  intros H. unfold sub_days. rewrite add_days_ok by lia.
  reflexivity.
Qed.

Lemma weekday_bounds (d : datetime) : 0 <= weekday d < 7.
Proof. unfold weekday. apply Z.mod_pos_bound. lia. Qed.

(** Moving back to the previous Sunday: [k] days with [k = (dow + 1) mod 7]. *)
Lemma weekday_back (o k : Z) :
  k = ((o + 6) mod 7 + 1) mod 7 -> (o - k + 6) mod 7 = 6.
Proof. intros ->. Z.div_mod_to_equations. lia. Qed.

Lemma days_since_sunday_cases (o : Z) :
  ((o + 6) mod 7 = 6 /\ ((o + 6) mod 7 + 1) mod 7 = 0) \/
  ((o + 6) mod 7 <> 6 /\ ((o + 6) mod 7 + 1) mod 7 = (o + 6) mod 7 + 1 /\
   1 <= (o + 6) mod 7 + 1 <= 6).
Proof. Z.div_mod_to_equations. lia. Qed.

(** The label-based script computes the window of the formula. *)
Lemma get_last_week_window_formula (now : datetime) :
  in_range now ->
  Simple.get_last_week_window now = Ok (formula_window now).
Proof.
  destruct now as [o u]. unfold in_range, MAXORDINAL. simpl. intros Hr.
  unfold Simple.get_last_week_window, formula_window, replace_midnight, weekday.
  cbn [toordinal micros].
  destruct (days_since_sunday_cases o) as [[H6 H0] | [H6 [Hs Hb]]].
  - rewrite H0, H6. cbn [Z.eqb Pos.eqb].
    rewrite sub_days_ok by (cbn [toordinal]; unfold MAXORDINAL; lia).
    cbn [bind toordinal micros].
    rewrite add_days_ok by (cbn [toordinal]; unfold MAXORDINAL; lia).
    reflexivity.
  - rewrite Hs. apply Z.eqb_neq in H6. rewrite H6.
    assert (Hz : ((o + 6) mod 7 + 1 =? 0) = false) by (apply Z.eqb_neq; lia).
    rewrite Hz.
    rewrite sub_days_ok by (cbn [toordinal]; unfold MAXORDINAL; lia).
    cbn [bind toordinal micros].
    rewrite add_days_ok by (cbn [toordinal]; unfold MAXORDINAL; lia).
    reflexivity.
Qed.

(** The raw-colour script ends its window at the most recent Sunday
    midnight that is not after today and starts it a week before. *)
Lemma last_sun_to_sat_closed (now : datetime) :
  in_range now ->
  Weekly.last_sun_to_sat now =
  Ok (mkdt (toordinal now - (weekday now + 1) mod 7 - 7) 0,
      mkdt (toordinal now - (weekday now + 1) mod 7) 0).
Proof.
  destruct now as [o u]. unfold in_range, MAXORDINAL. simpl. intros Hr.
  unfold Weekly.last_sun_to_sat, replace_midnight, weekday.
  cbn [toordinal micros].
  assert (Hk : 0 <= ((o + 6) mod 7 + 1) mod 7 <= 6)
    by (Z.div_mod_to_equations; lia).
  rewrite sub_days_ok by (cbn [toordinal]; unfold MAXORDINAL; lia).
  cbn [bind toordinal micros].
  rewrite sub_days_ok by (cbn [toordinal]; unfold MAXORDINAL; lia).
  reflexivity.
Qed.

Lemma formula_window_TimeWindow (now : datetime) :
  TimeWindow (fst (formula_window now)) (snd (formula_window now)).
Proof.
  destruct now as [o u].
  unfold formula_window, replace_midnight, weekday, TimeWindow.
  cbn [toordinal micros fst snd].
  destruct (days_since_sunday_cases o) as [[H6 H0] | [H6 [Hs Hb]]].
  - rewrite H0. cbn [Z.eqb toordinal micros].
    repeat split; try reflexivity.
    + apply dt_lt_spec. cbn. lia.
    + unfold weekday. cbn [toordinal]. Z.div_mod_to_equations. lia.
  - rewrite Hs.
    assert (Hz : ((o + 6) mod 7 + 1 =? 0) = false) by (apply Z.eqb_neq; lia).
    rewrite Hz. cbn [toordinal micros].
    repeat split; try reflexivity.
    + apply dt_lt_spec. cbn. lia.
    + unfold weekday. cbn [toordinal]. Z.div_mod_to_equations. lia.
Qed.

(** C1 (as amended). For every in-range [now], [get_last_week_window]
    returns the window of the formula, whose start on a non-Sunday is the
    most recent past Sunday's midnight; [last_sun_to_sat] returns that same
    window when today is a Sunday, and on every other day the window one
    week earlier, ending at the most recent past Sunday's midnight. *)
Theorem week_window_by_variant (now : datetime) :
  in_range now ->
  let today := replace_midnight now in
  let daysSinceSunday := (weekday today + 1) mod 7 in
  let start := fst (formula_window now) in
  let end_ := snd (formula_window now) in
  Simple.get_last_week_window now = Ok (start, end_) /\
  (daysSinceSunday = 0 ->
     Weekly.last_sun_to_sat now = Ok (start, end_) /\ end_ = today) /\
  (daysSinceSunday <> 0 ->
     weekday start = 6 /\
     toordinal today - 6 <= toordinal start < toordinal today /\
     Weekly.last_sun_to_sat now =
       Ok (mkdt (toordinal start - 7) 0, mkdt (toordinal end_ - 7) 0) /\
     mkdt (toordinal end_ - 7) 0 = start).
Proof.
  intros Hr today dss start end_.
  split; [| split].
  - rewrite (get_last_week_window_formula now Hr).
    subst start end_. destruct (formula_window now); reflexivity.
  - intros H0. rewrite (last_sun_to_sat_closed now Hr).
    subst start end_ dss today. destruct now as [o u].
    unfold formula_window, replace_midnight, weekday in *.
    cbn [toordinal micros fst snd] in *.
    rewrite H0. cbn [Z.eqb toordinal micros].
    replace (o - 0 - 7) with (o - 7) by lia.
    replace (o - 7 + 7) with o by lia.
    replace (o - 0) with o by lia.
    split; reflexivity.
  - intros Hn. rewrite (last_sun_to_sat_closed now Hr).
    subst start end_ dss today. destruct now as [o u].
    unfold formula_window, replace_midnight, weekday in *.
    cbn [toordinal micros fst snd] in *.
    apply Z.eqb_neq in Hn. rewrite Hn. cbn [toordinal micros].
    apply Z.eqb_neq in Hn.
    assert (Hk : 1 <= ((o + 6) mod 7 + 1) mod 7 <= 6)
      by (Z.div_mod_to_equations; lia).
    set (k := ((o + 6) mod 7 + 1) mod 7) in *.
    replace (o - k + 7 - 7) with (o - k) by lia.
    repeat split; try lia.
    apply weekday_back. reflexivity.
Qed.

(** On Monday 2024-01-08 at 10:00 the formula gives the week starting on
    Sunday 2024-01-07, and [last_sun_to_sat] the week before it. *)
Lemma week_window_variants_differ :
  let now := civil 2024 1 8 10 0 in
  formula_window now = (civil 2024 1 7 0 0, civil 2024 1 14 0 0) /\
  Simple.get_last_week_window now = Ok (formula_window now) /\
  Weekly.last_sun_to_sat now = Ok (civil 2023 12 31 0 0, civil 2024 1 7 0 0) /\
  Weekly.last_sun_to_sat now <> Ok (formula_window now) /\
  Weekly.last_sun_to_sat now <> Simple.get_last_week_window now.
Proof.
  cbv zeta. repeat split; try reflexivity; vm_compute; discriminate.
Qed.

Lemma week_window_by_variant_witness :
  in_range (civil 2024 1 7 9 30) /\
  Simple.get_last_week_window (civil 2024 1 7 9 30)
  = Ok (civil 2023 12 31 0 0, civil 2024 1 7 0 0).
Proof.
  assert (Hr : in_range (civil 2024 1 7 9 30))
    by (vm_compute; split; discriminate).
  split; [exact Hr |].
  exact (proj1 (week_window_by_variant (civil 2024 1 7 9 30) Hr)).
Defined.

(** C2. For every in-range [now], both scripts return a window that
    satisfies the TimeWindow invariant: the start is before the end, the
    start is a Sunday at 00:00, the end is the 00:00 seven calendar days
    later; and the window depends on the date of [now] only, not on its
    time of day. *)
Theorem week_window_invariant (now : datetime) :
  in_range now ->
  (exists start end_,
      Simple.get_last_week_window now = Ok (start, end_) /\
      TimeWindow start end_) /\
  (exists start end_,
      Weekly.last_sun_to_sat now = Ok (start, end_) /\
      TimeWindow start end_) /\
  (forall now', toordinal now' = toordinal now ->
      Simple.get_last_week_window now' = Simple.get_last_week_window now /\
      Weekly.last_sun_to_sat now' = Weekly.last_sun_to_sat now).
Proof.
  intros Hr. split; [| split].
  - exists (fst (formula_window now)), (snd (formula_window now)). split.
    + rewrite (get_last_week_window_formula now Hr).
      destruct (formula_window now); reflexivity.
    + apply formula_window_TimeWindow.
  - eexists _, _. split; [apply (last_sun_to_sat_closed now Hr) |].
    destruct now as [o u]. unfold TimeWindow, weekday. cbn [toordinal micros].
    assert (Hk : 0 <= ((o + 6) mod 7 + 1) mod 7 <= 6)
      by (Z.div_mod_to_equations; lia).
    repeat split; try reflexivity; try lia.
    + apply dt_lt_spec. cbn. lia.
    + Z.div_mod_to_equations. lia.
  - intros now' Hd. destruct now as [o u], now' as [o' u'].
    cbn in Hd. subst o'. split; reflexivity.
Qed.

Lemma week_window_invariant_witness :
  in_range (civil 2024 3 13 23 59) /\
  exists start end_,
    Weekly.last_sun_to_sat (civil 2024 3 13 23 59) = Ok (start, end_) /\
    TimeWindow start end_.
Proof.
  assert (Hr : in_range (civil 2024 3 13 23 59))
    by (vm_compute; split; discriminate).
  split; [exact Hr |].
  exact (proj1 (proj2 (week_window_invariant (civil 2024 3 13 23 59) Hr))).
Defined.

(** ** Interval Clipper *)

Lemma clip_zero_length (s start end_ : datetime) :
  Simple.clip s s start end_ = None.
Proof.
  rewrite clip_unfold.
  destruct (dt_lt (py_max s start) (py_min s end_)) eqn:E; [| reflexivity].
  pose proof (py_max_ub_l s start) as H1.
  pose proof (py_min_lb_l s end_) as H2.
  pose proof (dt_nlt_lt_trans _ _ _ H1 E) as H3.
  congruence.
Qed.

Lemma clip_outside (s e start end_ : datetime) :
  dt_le e start = true \/ dt_ge s end_ = true ->
  Simple.clip s e start end_ = None.
Proof.
  rewrite dt_le_lt, dt_ge_lt, !negb_true_iff. intros H.
  rewrite clip_unfold.
  destruct (dt_lt (py_max s start) (py_min e end_)) eqn:E; [| reflexivity].
  exfalso. destruct H as [H | H].
  - pose proof (dt_nlt_lt_trans _ _ _ (py_max_ub_r s start) E) as H1.
    pose proof (dt_lt_nlt_trans _ _ _ H1 (py_min_lb_l e end_)) as H2.
    congruence.
  - pose proof (dt_nlt_lt_trans _ _ _ (py_max_ub_l s start) E) as H1.
    pose proof (dt_lt_nlt_trans _ _ _ H1 (py_min_lb_r e end_)) as H2.
    congruence.
Qed.

(** C3. [clip] returns the overlap [max(s,start), min(e,end)) when the
    clipped start is before the clipped end and [None] exactly when the
    clipped start is at or after the clipped end, where the clipped start
    is the later of [s] and [start] and the clipped end the earlier of [e]
    and [end]; a zero-length interval and an interval entirely outside the
    window give [None]; [clamp_interval] is the same function. *)
Theorem clip_overlap_or_none (s e start end_ : datetime) :
  let cs := py_max s start in
  let ce := py_min e end_ in
  ((cs = s \/ cs = start) /\ dt_le s cs = true /\ dt_le start cs = true) /\
  ((ce = e \/ ce = end_) /\ dt_le ce e = true /\ dt_le ce end_ = true) /\
  (dt_lt cs ce = true -> Simple.clip s e start end_ = Some (cs, ce)) /\
  (Simple.clip s e start end_ = None <-> dt_ge cs ce = true) /\
  (s = e -> Simple.clip s e start end_ = None) /\
  (dt_le e start = true \/ dt_ge s end_ = true ->
   Simple.clip s e start end_ = None) /\
  Weekly.clamp_interval s e start end_ = Simple.clip s e start end_.
Proof.
  intros cs ce. subst cs ce.
  split; [| split; [| split; [| split; [| split; [| split]]]]].
  - rewrite !dt_le_lt, py_max_ub_l, py_max_ub_r.
    destruct (py_max_cases s start) as [[_ ->] | [_ ->]]; auto.
  - rewrite !dt_le_lt, py_min_lb_l, py_min_lb_r.
    destruct (py_min_cases e end_) as [[_ ->] | [_ ->]]; auto.
  - intros H. rewrite clip_unfold, H. reflexivity.
  - rewrite clip_unfold, dt_ge_lt.
    destruct (dt_lt (py_max s start) (py_min e end_)); simpl;
      split; intros; try reflexivity; discriminate.
  - intros <-. apply clip_zero_length.
  - apply clip_outside.
  - apply clamp_interval_clip.
Qed.

(** An event from 06:00 to 07:30 on Monday 2024-01-08 lies inside the week
    of Sunday 2024-01-07 and is returned unchanged. *)
Lemma clip_overlap_or_none_witness :
  dt_lt (py_max (civil 2024 1 8 6 0) (civil 2024 1 7 0 0))
        (py_min (civil 2024 1 8 7 30) (civil 2024 1 14 0 0)) = true /\
  Simple.clip (civil 2024 1 8 6 0) (civil 2024 1 8 7 30)
              (civil 2024 1 7 0 0) (civil 2024 1 14 0 0)
  = Some (civil 2024 1 8 6 0, civil 2024 1 8 7 30).
Proof.
  split; [reflexivity |].
  exact (proj1 (proj2 (proj2
    (clip_overlap_or_none (civil 2024 1 8 6 0) (civil 2024 1 8 7 30)
                          (civil 2024 1 7 0 0) (civil 2024 1 14 0 0))))
    eq_refl).
Defined.

(** C8. Clipping [s, e) against [start, end) gives the same result as
    clipping [start, end) against [s, e), and clipping a result of [clip]
    again against the same window returns it unchanged; likewise for
    [clamp_interval]. *)
Theorem clip_symmetric_idempotent (s e start end_ : datetime) :
  Simple.clip s e start end_ = Simple.clip start end_ s e /\
  Weekly.clamp_interval s e start end_ = Weekly.clamp_interval start end_ s e /\
  (forall cs ce,
      Simple.clip s e start end_ = Some (cs, ce) ->
      Simple.clip cs ce start end_ = Some (cs, ce) /\
      Weekly.clamp_interval cs ce start end_ = Some (cs, ce)).
Proof.
  assert (Hsym : Simple.clip s e start end_ = Simple.clip start end_ s e).
  { rewrite !clip_unfold, (py_max_comm s start), (py_min_comm e end_).
    reflexivity. }
  split; [exact Hsym | split].
  - rewrite (clamp_interval_clip s e start end_),
      (clamp_interval_clip start end_ s e). exact Hsym.
  - intros cs ce H. rewrite (clamp_interval_clip cs ce start end_).
    rewrite clip_unfold in H.
    destruct (dt_lt (py_max s start) (py_min e end_)) eqn:E; [| discriminate].
    injection H as <- <-.
    rewrite clip_unfold, py_max_absorb, py_min_absorb, E. auto.
Qed.

(** An all-day event 2024-01-06 .. 2024-01-08 is cut to the first day of
    the week of Sunday 2024-01-07, and cutting it again changes nothing. *)
Lemma clip_symmetric_idempotent_witness :
  Simple.clip (civil 2024 1 6 0 0) (civil 2024 1 8 0 0)
              (civil 2024 1 7 0 0) (civil 2024 1 14 0 0)
  = Some (civil 2024 1 7 0 0, civil 2024 1 8 0 0) /\
  Simple.clip (civil 2024 1 7 0 0) (civil 2024 1 8 0 0)
              (civil 2024 1 7 0 0) (civil 2024 1 14 0 0)
  = Some (civil 2024 1 7 0 0, civil 2024 1 8 0 0).
Proof.
  split; [reflexivity |].
  exact (proj1 (proj2 (proj2
    (clip_symmetric_idempotent (civil 2024 1 6 0 0) (civil 2024 1 8 0 0)
                               (civil 2024 1 7 0 0) (civil 2024 1 14 0 0)))
    (civil 2024 1 7 0 0) (civil 2024 1 8 0 0) eq_refl)).
Defined.

(** ** Colour Resolver *)

(** C5. An event carrying the explicit colour id "8" gets the label
    "Sleep", whatever the calendar's default colour id, the calendar colour
    table and the event colour table are: the lookup in the fixed table
    decides, and the fallback through the calendar's default hex is not
    evaluated. *)
Theorem explicit_color_8_is_sleep
  (st en : option when) (cal_default_id : option string)
  (calendar_colors event_colors : dict (option string)) :
  Simple.decide_label (ev_colorId (mkevent st en (Some "8")))
    (Simple.default_hex calendar_colors cal_default_id) event_colors
  = Ok "Sleep".
Proof. reflexivity. Qed.

(** With an event colour table whose background cannot be parsed the
    fallback raises for an uncoloured event, and the event coloured "8" is
    labelled all the same. *)
Example fallback_not_consulted :
  Simple.decide_label None (Some "#000000") [("1", Some "zz")] = Raise ValueError /\
  Simple.decide_label (Some "8") (Some "#000000") [("1", Some "zz")] = Ok "Sleep".
Proof. split; reflexivity. Qed.

(** The first branch of the label decision is taken exactly for the ids of
    the fixed table. *)
Lemma decide_label_explicit (cid : option string) (l : string)
  (cal_default_hex : option string) (event_colors : dict (option string)) :
  truthy cid = true ->
  get Simple.CUSTOM_COLOR_NAMES (str cid) = Some l ->
  Simple.decide_label cid cal_default_hex event_colors = Ok l.
Proof.
  intros Ht Hg. unfold Simple.decide_label, contains. rewrite Ht, Hg. reflexivity.
Qed.

(** C6 (as amended). For every event without an explicit colour id of the
    fixed table and every calendar default hex that [hex_to_rgb] rejects,
    the label is "Miscellaneous" and nothing is raised, whatever the event
    colour table holds. *)
Theorem rejected_hex_is_miscellaneous
  (cid : option string) (hx : string) (event_colors : dict (option string)) :
  truthy cid && contains Simple.CUSTOM_COLOR_NAMES (str cid) = false ->
  is_ok (Simple.hex_to_rgb hx) = false ->
  Simple.decide_label cid (Some hx) event_colors = Ok "Miscellaneous".
Proof.
  intros Hc Hx. unfold Simple.decide_label. rewrite Hc.
  destruct (truthy (Some hx)); [| reflexivity].
  unfold Simple.nearest_event_color_id. cbn [str].
  destruct (Simple.hex_to_rgb hx); [discriminate | reflexivity].
Qed.

Lemma rejected_hex_is_miscellaneous_witness :
  is_ok (Simple.hex_to_rgb "#12G45z") = false /\
  Simple.decide_label None (Some "#12G45z") [("11", Some "#dc2127")]
  = Ok "Miscellaneous".
Proof.
  split; [reflexivity |].
  exact (rejected_hex_is_miscellaneous None "#12G45z" [("11", Some "#dc2127")]
           eq_refl eq_refl).
Defined.

(** The default hex "#ff0000zz" is not a 6-hex-digit string, yet
    [hex_to_rgb] reads its first six digits and the uncoloured event is
    labelled with the nearest event colour. *)
Lemma malformed_hex_gets_nearest_label :
  well_formed_hex "#ff0000zz" = false /\
  Simple.hex_to_rgb "#ff0000zz" = Ok (255, 0, 0) /\
  Simple.decide_label None (Some "#ff0000zz") [("11", Some "#dc2127")] = Ok "Meal" /\
  Simple.decide_label None (Some "#ff0000zz") [("11", Some "#dc2127")]
  <> Ok "Miscellaneous".
Proof. repeat split; try reflexivity. vm_compute. discriminate. Qed.

(** ** Event-time parsing *)

(** C7. For an event whose [start] holds neither "dateTime" nor "date" (or
    is missing), [parse_event_times] of the raw-colour script returns the
    zero-length interval [(now, now)], not all-day, and the event adds
    nothing to the totals; [parse_event_times] of the label-based script
    raises [KeyError] on the same event, and its event loop stops with
    that exception. *)
Theorem malformed_event_times
  (now : datetime) (en : option when) (cid : option string) :
  let no_keys := mkevent (Some (mkwhen None None)) en cid in
  let no_start := mkevent None en cid in
  (Weekly.parse_event_times now no_keys = Ok (now, now, false) /\
   Weekly.parse_event_times now no_start = Ok (now, now, false)) /\
  (forall week_start week_end ignore_all_day cal_default acc,
      Weekly.process_event week_start week_end ignore_all_day cal_default acc
        (now, no_keys) = Ok acc /\
      Weekly.process_event week_start week_end ignore_all_day cal_default acc
        (now, no_start) = Ok acc) /\
  (Simple.parse_event_times no_keys = Raise KeyError /\
   Simple.parse_event_times no_start = Raise KeyError) /\
  (forall start end_ count_all_day event_colors cal_default_hex acc,
      Simple.process_event start end_ count_all_day event_colors cal_default_hex acc
        no_keys = Raise KeyError /\
      Simple.process_event start end_ count_all_day event_colors cal_default_hex acc
        no_start = Raise KeyError).
Proof.
  cbv zeta. repeat split.
  - unfold Weekly.process_event. cbn [Weekly.parse_event_times ev_start ev_end
      get_when dateTime date bind].
    rewrite (clamp_interval_clip now now week_start week_end), clip_zero_length.
    reflexivity.
  - unfold Weekly.process_event. cbn [Weekly.parse_event_times ev_start ev_end
      get_when dateTime date bind].
    rewrite (clamp_interval_clip now now week_start week_end), clip_zero_length.
    reflexivity.
Qed.

(** ** Aggregator *)

Lemma for_each_cons {S X : Type} (body : S -> X -> result S)
  (x : X) (xs : list X) (st : S) :
  for_each body (x :: xs) st = (st' <- body st x ;; for_each body xs st').
Proof. reflexivity. Qed.

Lemma sum_values_add_to (d : dict Z) (k : string) (v : Z) :
  sum_values (add_to d k v) = sum_values d + v.
Proof.
  induction d as [| [k' x] d IH]; cbn [add_to sum_values fold_right snd].
  - lia.
  - destruct (k' =? k)%string; cbn [sum_values fold_right snd].
    + fold (sum_values d). lia.
    + fold (sum_values d) (sum_values (add_to d k v)). lia.
Qed.

(** What one event that passes the filters adds, in terms of [clip]. *)
Lemma clipped_duration_clip (start end_ : datetime) (count_all_day : bool)
  (s e : datetime) (is_all_day : bool) :
  clipped_duration start end_ count_all_day (s, e, is_all_day) =
  match Simple.clip s e start end_ with
  | None => 0
  | Some (cs, ce) =>
      if is_all_day && negb count_all_day then 0 else elapsed_us ce cs
  end.
Proof.
  unfold clipped_duration, overlaps, passes_all_day_filter.
  rewrite clip_unfold.
  destruct (dt_lt (py_max s start) (py_min e end_)); [| reflexivity].
  destruct is_all_day, count_all_day; reflexivity.
Qed.

Lemma nearest_loop_total (r g b : Z) (items : dict (option string)) :
  table_parses items = true ->
  forall best_id best_d,
    exists nearest_id, Simple.nearest_loop r g b items best_id best_d = Ok nearest_id.
Proof.
  induction items as [| [cid ehx] items IH]; intros Ht best_id best_d.
  - eexists. reflexivity.
  - cbn [table_parses forallb snd] in Ht. apply andb_true_iff in Ht as [H1 H2].
    cbn [Simple.nearest_loop].
    destruct (truthy ehx); cbn [negb orb] in *.
    + destruct (Simple.hex_to_rgb (str ehx)) as [[[er eg] eb] |]; [| discriminate].
      cbn [bind]. destruct (_ <? best_d); apply IH; assumption.
    + apply IH; assumption.
Qed.

Lemma decide_label_total (cid cal_default_hex : option string)
  (event_colors : dict (option string)) :
  table_parses event_colors = true ->
  exists label, Simple.decide_label cid cal_default_hex event_colors = Ok label.
Proof.
  intros Ht. unfold Simple.decide_label, contains.
  destruct (truthy cid); cbn [andb].
  - destruct (get Simple.CUSTOM_COLOR_NAMES (str cid)) eqn:E.
    + eexists. reflexivity.
    + destruct (truthy cal_default_hex); [| eexists; reflexivity].
      unfold Simple.nearest_event_color_id.
      destruct (Simple.hex_to_rgb (str cal_default_hex)) as [[[r g] b] |].
      * destruct (nearest_loop_total r g b event_colors Ht None (10 ^ 9)) as [n ->].
        eexists. reflexivity.
      * eexists. reflexivity.
  - destruct (truthy cal_default_hex); [| eexists; reflexivity].
    unfold Simple.nearest_event_color_id.
    destruct (Simple.hex_to_rgb (str cal_default_hex)) as [[[r g] b] |].
    + destruct (nearest_loop_total r g b event_colors Ht None (10 ^ 9)) as [n ->].
      eexists. reflexivity.
    + eexists. reflexivity.
Qed.

(** A loop whose body adds [f x] to the sum of the totals adds the sum
    of [f] over the list. *)
Lemma for_each_sum {X : Type} (body : dict Z -> X -> result (dict Z)) (f : X -> Z) :
  (forall acc x acc',
      body acc x = Ok acc' -> sum_values acc' = sum_values acc + f x) ->
  forall xs acc acc',
    for_each body xs acc = Ok acc' ->
    sum_values acc' = sum_values acc + fold_right (fun x a => f x + a) 0 xs.
Proof.
  intros Hbody. induction xs as [| x xs IH]; intros acc acc'; cbn [for_each fold_right].
  - intros [= ->]. lia.
  - destruct (body acc x) as [acc1 |] eqn:E; cbn [bind]; [| discriminate].
    intros H. rewrite (IH _ _ H), (Hbody _ _ _ E). lia.
Qed.

Lemma sum_events_permutation {X : Type} (f : X -> Z) (xs ys : list X) :
  Permutation xs ys ->
  fold_right (fun x a => f x + a) 0 xs = fold_right (fun x a => f x + a) 0 ys.
Proof.
  induction 1; cbn [fold_right]; lia.
Qed.

Lemma simple_process_event_adds
  (start end_ : datetime) (count_all_day : bool)
  (event_colors : dict (option string)) (hex : option string)
  (acc : dict Z) (evt : event) (acc' : dict Z) :
  Simple.process_event start end_ count_all_day event_colors hex acc evt = Ok acc' ->
  sum_values acc' = sum_values acc + simple_seconds start end_ count_all_day evt.
Proof.
  unfold Simple.process_event, simple_seconds.
  destruct (Simple.parse_event_times evt) as [[[s e] ad] |]; [| discriminate].
  cbn [bind]. rewrite clipped_duration_clip.
  destruct (Simple.clip s e start end_) as [[cs ce] |].
  - destruct (ad && negb count_all_day).
    + intros [= ->]. lia.
    + destruct (Simple.decide_label (ev_colorId evt) hex event_colors);
        cbn [bind]; [| discriminate].
      intros [= <-]. apply sum_values_add_to.
  - intros [= ->]. lia.
Qed.

Lemma weekly_process_event_adds
  (week_start week_end : datetime) (ignore_all_day : bool)
  (cal_default : option string) (acc : dict Z) (timed : datetime * event)
  (acc' : dict Z) :
  Weekly.process_event week_start week_end ignore_all_day cal_default acc timed
  = Ok acc' ->
  sum_values acc' =
  sum_values acc
  + weekly_seconds week_start week_end (Weekly.count_all_day ignore_all_day) timed.
Proof.
  destruct timed as [now evt].
  unfold Weekly.process_event, weekly_seconds. cbn [fst snd].
  destruct (Weekly.parse_event_times now evt) as [[[s e] ad] |]; [| discriminate].
  cbn [bind]. rewrite clipped_duration_clip.
  rewrite (clamp_interval_clip s e week_start week_end).
  destruct (Simple.clip s e week_start week_end) as [[cs ce] |].
  - destruct (ad && negb (Weekly.count_all_day ignore_all_day)).
    + intros [= ->]. lia.
    + intros [= <-]. apply sum_values_add_to.
  - intros [= ->]. lia.
Qed.

(** Whenever the aggregation loop completes, the totals add up to the
    clipped durations of the event occurrences. *)
Lemma simple_aggregate_sum
  (start end_ : datetime) (count_all_day : bool)
  (event_colors calendar_colors : dict (option string))
  (calendars : list (calendar event)) (totals : dict Z) :
  Simple.aggregate start end_ count_all_day event_colors calendar_colors calendars
  = Ok totals ->
  sum_values totals = sum_over (simple_seconds start end_ count_all_day) calendars.
Proof.
  unfold Simple.aggregate. intros H.
  apply (for_each_sum _
           (fun cal => fold_right
                         (fun evt a => simple_seconds start end_ count_all_day evt + a)
                         0 (cal_events cal))) in H.
  - exact H.
  - intros acc cal acc'. unfold Simple.process_calendar.
    apply for_each_sum. apply simple_process_event_adds.
Qed.

Lemma weekly_aggregate_sum
  (week_start week_end : datetime) (ignore_all_day : bool)
  (calendars : list (calendar (datetime * event))) (totals : dict Z) :
  Weekly.aggregate week_start week_end ignore_all_day calendars = Ok totals ->
  sum_values totals
  = sum_over (weekly_seconds week_start week_end (Weekly.count_all_day ignore_all_day))
      calendars.
Proof.
  unfold Weekly.aggregate. intros H.
  apply (for_each_sum _
           (fun cal =>
              fold_right
                (fun evt a =>
                   weekly_seconds week_start week_end
                     (Weekly.count_all_day ignore_all_day) evt + a)
                0 (cal_events cal))) in H.
  - exact H.
  - intros acc cal acc'. unfold Weekly.process_calendar.
    apply for_each_sum. apply weekly_process_event_adds.
Qed.

Section SimpleTotals.

Variables start end_ : datetime.
Variable count_all_day : bool.
Variables event_colors calendar_colors : dict (option string).
Hypothesis table_ok : table_parses event_colors = true.

Lemma simple_process_event_sum (hex : option string) (acc : dict Z) (evt : event) :
  simple_parses evt ->
  exists acc',
    Simple.process_event start end_ count_all_day event_colors hex acc evt = Ok acc' /\
    sum_values acc' = sum_values acc + simple_seconds start end_ count_all_day evt.
Proof.
  unfold simple_parses, Simple.process_event, simple_seconds.
  destruct (Simple.parse_event_times evt) as [[[s e] ad] |]; [intros _ | discriminate].
  cbn [bind]. rewrite clipped_duration_clip.
  destruct (Simple.clip s e start end_) as [[cs ce] |].
  - destruct (ad && negb count_all_day).
    + exists acc. split; [reflexivity | lia].
    + destruct (decide_label_total (ev_colorId evt) hex event_colors table_ok)
        as [label ->].
      cbn [bind]. eexists. split; [reflexivity |]. apply sum_values_add_to.
  - exists acc. split; [reflexivity | lia].
Qed.

Lemma simple_events_sum (hex : option string) (evts : list event) :
  Forall simple_parses evts ->
  forall acc, exists acc',
    for_each (Simple.process_event start end_ count_all_day event_colors hex) evts acc
    = Ok acc' /\
    sum_values acc' =
    sum_values acc
    + fold_right (fun evt a => simple_seconds start end_ count_all_day evt + a) 0 evts.
Proof.
  induction 1 as [| evt evts Hp _ IH]; intros acc.
  - exists acc. split; [reflexivity | cbn; lia].
  - destruct (simple_process_event_sum hex acc evt Hp) as [acc1 [E1 S1]].
    destruct (IH acc1) as [acc2 [E2 S2]].
    exists acc2. cbn [for_each fold_right]. rewrite E1. cbn [bind].
    split; [exact E2 | lia].
Qed.

Lemma simple_calendars_sum (cals : list (calendar event)) :
  Forall (fun cal => Forall simple_parses (cal_events cal)) cals ->
  forall acc, exists acc',
    for_each (Simple.process_calendar start end_ count_all_day event_colors calendar_colors)
      cals acc = Ok acc' /\
    sum_values acc' =
    sum_values acc + sum_over (simple_seconds start end_ count_all_day) cals.
Proof.
  induction 1 as [| cal cals Hp _ IH]; intros acc.
  - exists acc. split; [reflexivity | cbn; lia].
  - destruct (simple_events_sum
                (Simple.default_hex calendar_colors (cal_colorId cal))
                (cal_events cal) Hp acc) as [acc1 [E1 S1]].
    rewrite for_each_cons. unfold Simple.process_calendar at 1.
    cbv zeta. rewrite E1. cbn [bind].
    destruct (IH acc1) as [acc2 [E2 S2]].
    exists acc2. split; [exact E2 |]. cbn [sum_over fold_right].
    fold (sum_over (simple_seconds start end_ count_all_day) cals). lia.
Qed.

End SimpleTotals.

Section WeeklyTotals.

Variables week_start week_end : datetime.
Variable ignore_all_day : bool.

Lemma weekly_process_event_sum (cal_default : option string) (acc : dict Z)
  (timed : datetime * event) :
  weekly_parses timed ->
  exists acc',
    Weekly.process_event week_start week_end ignore_all_day cal_default acc timed
    = Ok acc' /\
    sum_values acc' = sum_values acc
    + weekly_seconds week_start week_end (Weekly.count_all_day ignore_all_day) timed.
Proof.
  destruct timed as [now evt].
  unfold weekly_parses, Weekly.process_event, weekly_seconds. cbn [fst snd].
  destruct (Weekly.parse_event_times now evt) as [[[s e] ad] |];
    [intros _ | discriminate].
  cbn [bind]. rewrite clipped_duration_clip.
  rewrite (clamp_interval_clip s e week_start week_end).
  destruct (Simple.clip s e week_start week_end) as [[cs ce] |].
  - destruct (ad && negb (Weekly.count_all_day ignore_all_day)).
    + exists acc. split; [reflexivity | lia].
    + eexists. split; [reflexivity |]. apply sum_values_add_to.
  - exists acc. split; [reflexivity | lia].
Qed.

Lemma weekly_events_sum (cal_default : option string)
  (evts : list (datetime * event)) :
  Forall weekly_parses evts ->
  forall acc, exists acc',
    for_each (Weekly.process_event week_start week_end ignore_all_day cal_default)
      evts acc = Ok acc' /\
    sum_values acc' =
    sum_values acc + fold_right
        (fun evt a =>
           weekly_seconds week_start week_end (Weekly.count_all_day ignore_all_day) evt + a)
        0 evts.
Proof.
  induction 1 as [| evt evts Hp _ IH]; intros acc.
  - exists acc. split; [reflexivity | cbn; lia].
  - destruct (weekly_process_event_sum cal_default acc evt Hp) as [acc1 [E1 S1]].
    destruct (IH acc1) as [acc2 [E2 S2]].
    exists acc2. cbn [for_each fold_right]. rewrite E1. cbn [bind].
    split; [exact E2 | lia].
Qed.

Lemma weekly_calendars_sum (cals : list (calendar (datetime * event))) :
  Forall (fun cal => Forall weekly_parses (cal_events cal)) cals ->
  forall acc, exists acc',
    for_each (Weekly.process_calendar week_start week_end ignore_all_day) cals acc
    = Ok acc' /\
    sum_values acc' =
    sum_values acc
    + sum_over (weekly_seconds week_start week_end (Weekly.count_all_day ignore_all_day)) cals.
Proof.
  induction 1 as [| cal cals Hp _ IH]; intros acc.
  - exists acc. split; [reflexivity | cbn; lia].
  - destruct (weekly_events_sum (cal_colorId cal) (cal_events cal) Hp acc)
      as [acc1 [E1 S1]].
    rewrite for_each_cons. unfold Weekly.process_calendar at 1.
    cbv zeta. rewrite E1. cbn [bind].
    destruct (IH acc1) as [acc2 [E2 S2]].
    exists acc2. split; [exact E2 |]. cbn [sum_over fold_right].
    fold (sum_over (weekly_seconds week_start week_end (Weekly.count_all_day ignore_all_day)) cals). lia.
Qed.

End WeeklyTotals.

(** ** Binary64 arithmetic on whole numbers *)

Lemma digits2_pos_size (p : positive) : digits2_pos p = Pos.size p.
Proof. induction p; simpl; congruence. Qed.

Lemma Zdigits2_log2 (z : Z) : 0 < z -> Zdigits2 z = Z.log2 z + 1.
Proof.
  destruct z as [|p|p]; try lia. intros _. simpl Zdigits2.
  rewrite digits2_pos_size.
  destruct p; simpl; lia.
Qed.

Lemma shr_1_double (K : Z) :
  0 < K -> shr_1 (Build_shr_record (K * 2) false false) = Build_shr_record K false false.
Proof.
  destruct K as [|p|p]; try lia. intros _.
  replace (Z.pos p * 2) with (Z.pos (xO p)) by lia. reflexivity.
Qed.

Lemma iter_shr_1_exact (p : positive) : forall K : Z,
  0 < K ->
  iter_pos shr_1 p (Build_shr_record (K * 2 ^ Z.pos p) false false)
  = Build_shr_record K false false.
Proof.
  induction p as [p IH|p IH|]; intros K HK.
  - replace (K * 2 ^ Z.pos p~1) with ((K * 2 ^ Z.pos p * 2 ^ Z.pos p) * 2).
    2:{ replace (Z.pos p~1) with (Z.pos p + Z.pos p + 1) by lia.
        rewrite !Z.pow_add_r by lia. ring. }
    cbn [iter_pos].
    rewrite shr_1_double by (apply Z.mul_pos_pos; [apply Z.mul_pos_pos|]; lia).
    rewrite IH by (apply Z.mul_pos_pos; lia). apply IH, HK.
  - replace (K * 2 ^ Z.pos p~0) with (K * 2 ^ Z.pos p * 2 ^ Z.pos p).
    2:{ replace (Z.pos p~0) with (Z.pos p + Z.pos p) by lia.
        rewrite !Z.pow_add_r by lia. ring. }
    cbn [iter_pos].
    rewrite IH by (apply Z.mul_pos_pos; lia). apply IH, HK.
  - change (2 ^ 1) with 2. cbn [iter_pos]. apply shr_1_double, HK.
Qed.

Lemma fexp_small (d : Z) : 0 <= d <= 1024 -> fexp prec emax d = d - 53.
Proof. unfold fexp, emin, prec, emax. lia. Qed.

Lemma round_aux_exact (n j : Z) :
  0 < n < 2 ^ 53 -> 0 <= j -> 52 - Z.log2 n <= j <= 900 ->
  binary_round_aux prec emax false (n * 2 ^ j) (- j) loc_Exact = canon n.
Proof.
  intros Hn Hj Hk.
  assert (Hl : 0 <= Z.log2 n < 53).
  { split; [apply Z.log2_nonneg|]. apply Z.log2_lt_pow2; lia. }
  assert (Hpos : 0 < n * 2 ^ j) by (apply Z.mul_pos_pos; lia).
  assert (Hc : 0 < n * 2 ^ (52 - Z.log2 n)) by (apply Z.mul_pos_pos; lia).
  assert (Hdc : Zdigits2 (n * 2 ^ (52 - Z.log2 n)) = 53).
  { rewrite Zdigits2_log2 by exact Hc. rewrite Z.log2_mul_pow2 by lia. lia. }
  assert (H1 : shr_fexp prec emax (n * 2 ^ j) (- j) loc_Exact
               = (Build_shr_record (n * 2 ^ (52 - Z.log2 n)) false false, Z.log2 n - 52)).
  { unfold shr_fexp. rewrite Zdigits2_log2 by exact Hpos.
    rewrite Z.log2_mul_pow2 by lia.
    rewrite fexp_small by lia. cbn [shr_record_of_loc].
    destruct (j + Z.log2 n + 1 + - j - 53 - - j) as [|p|p] eqn:E; cbn [shr].
    - replace j with (52 - Z.log2 n) at 1 2 by lia. f_equal. lia.
    - replace (n * 2 ^ j) with (n * 2 ^ (52 - Z.log2 n) * 2 ^ Z.pos p).
      2:{ rewrite <- Z.mul_assoc, <- Z.pow_add_r by lia. do 2 f_equal. lia. }
      rewrite iter_shr_1_exact by exact Hc. f_equal. lia.
    - lia. }
  assert (H2 : shr_fexp prec emax (n * 2 ^ (52 - Z.log2 n)) (Z.log2 n - 52) loc_Exact
               = (Build_shr_record (n * 2 ^ (52 - Z.log2 n)) false false, Z.log2 n - 52)).
  { unfold shr_fexp. rewrite Hdc, fexp_small by lia. cbn [shr_record_of_loc].
    replace (53 + (Z.log2 n - 52) - 53 - (Z.log2 n - 52)) with 0 by lia. reflexivity. }
  unfold binary_round_aux. rewrite H1.
  cbn [shr_m loc_of_shr_record round_nearest_even]. rewrite H2. cbn [shr_m].
  unfold canon.
  destruct (n * 2 ^ (52 - Z.log2 n)) as [|m|m] eqn:E; try lia.
  replace (Z.log2 n - 52 <=? emax - prec) with true
    by (symmetry; apply Z.leb_le; unfold emax, prec; lia).
  reflexivity.
Qed.

Lemma iter_xO_pow2 (m q : positive) : Z.pos (Pos.iter xO m q) = Z.pos m * 2 ^ Z.pos q.
Proof.
  revert m. induction q using Pos.peano_ind; intros m.
  - cbn [Pos.iter]. lia.
  - rewrite Pos.iter_succ, Pos2Z.inj_succ, Z.pow_succ_r by lia.
    rewrite Pos2Z.inj_xO, IHq. ring.
Qed.

Lemma binary_round_exact (m : positive) (n j : Z) :
  0 < n < 2 ^ 53 -> 0 <= j <= 900 -> Z.pos m = n * 2 ^ j ->
  binary_round prec emax false m (- j) = canon n.
Proof.
  intros Hn Hj Hm.
  assert (Hl : 0 <= Z.log2 n < 53).
  { split; [apply Z.log2_nonneg|]. apply Z.log2_lt_pow2; lia. }
  unfold binary_round, shl_align.
  change (Z.pos (digits2_pos m)) with (Zdigits2 (Z.pos m)).
  rewrite Zdigits2_log2 by lia. rewrite Hm, Z.log2_mul_pow2 by lia.
  rewrite fexp_small by lia.
  destruct (j + Z.log2 n + 1 + - j - 53 - - j) as [|p|p] eqn:E.
  - rewrite Hm. apply round_aux_exact; lia.
  - rewrite Hm. apply round_aux_exact; lia.
  - rewrite iter_xO_pow2, Hm.
    replace (n * 2 ^ j * 2 ^ Z.pos p) with (n * 2 ^ (52 - Z.log2 n)).
    2:{ rewrite <- Z.mul_assoc, <- Z.pow_add_r by lia. do 2 f_equal. lia. }
    replace (j + Z.log2 n + 1 + - j - 53) with (- (52 - Z.log2 n)) by lia.
    apply round_aux_exact; lia.
Qed.

Lemma normalize_exact (n : Z) :
  0 < n < 2 ^ 53 -> binary_normalize prec emax n 0 false = canon n.
Proof.
  intros Hn. destruct n as [|m|m]; try lia. cbn [binary_normalize].
  apply (binary_round_exact m (Z.pos m) 0); [lia | lia | ]. cbn. lia.
Qed.

Lemma log2_lt_53 (n : Z) : 0 < n < 2 ^ 53 -> 0 <= Z.log2 n < 53.
Proof.
  intros Hn. split; [apply Z.log2_nonneg|]. apply Z.log2_lt_pow2; lia.
Qed.

Lemma canon_mantissa (n : Z) :
  0 < n < 2 ^ 53 ->
  Z.pos (Z.to_pos (n * 2 ^ (52 - Z.log2 n))) = n * 2 ^ (52 - Z.log2 n).
Proof.
  intros Hn. pose proof (log2_lt_53 n Hn).
  apply Z2Pos.id, Z.mul_pos_pos; lia.
Qed.

Lemma canon_valid (n : Z) : 0 < n < 2 ^ 53 -> valid_binary (canon n) = true.
Proof.
  intros Hn. pose proof (log2_lt_53 n Hn) as Hl.
  unfold canon, valid_binary, bounded, canonical_mantissa.
  change (Z.pos (digits2_pos ?m)) with (Zdigits2 (Z.pos m)).
  rewrite canon_mantissa by exact Hn.
  rewrite Zdigits2_log2 by (apply Z.mul_pos_pos; lia).
  rewrite Z.log2_mul_pow2 by lia. rewrite fexp_small by lia.
  apply andb_true_intro. split; [apply Z.eqb_eq | apply Z.leb_le; unfold emax, prec]; lia.
Qed.

Lemma shl_align_canon (n ez : Z) :
  0 < n < 2 ^ 53 -> ez <= Z.log2 n - 52 ->
  Z.pos (fst (shl_align (Z.to_pos (n * 2 ^ (52 - Z.log2 n))) (Z.log2 n - 52) ez))
  = n * 2 ^ (- ez).
Proof.
  intros Hn He. pose proof (log2_lt_53 n Hn) as Hl.
  unfold shl_align.
  destruct (ez - (Z.log2 n - 52)) as [|p|p] eqn:E; cbn [fst]; try lia.
  - rewrite canon_mantissa by exact Hn. do 2 f_equal. lia.
  - rewrite iter_xO_pow2, canon_mantissa by exact Hn.
    rewrite <- Z.mul_assoc, <- Z.pow_add_r by lia. do 2 f_equal. lia.
Qed.

Lemma SFadd_exact (a b : Z) :
  0 < a -> 0 < b -> a + b < 2 ^ 53 ->
  SFadd prec emax (canon a) (canon b) = canon (a + b).
Proof.
  intros Ha Hb Hab.
  pose proof (log2_lt_53 a ltac:(lia)) as Hla.
  pose proof (log2_lt_53 b ltac:(lia)) as Hlb.
  unfold canon at 1 2. cbn [SFadd cond_Zopp].
  set (ez := Z.min (Z.log2 a - 52) (Z.log2 b - 52)).
  rewrite (shl_align_canon a ez), (shl_align_canon b ez) by (unfold ez; lia).
  rewrite <- Z.mul_add_distr_r.
  assert (Hp : 0 < (a + b) * 2 ^ (- ez)) by (apply Z.mul_pos_pos; unfold ez; lia).
  destruct ((a + b) * 2 ^ (- ez)) as [|m|m] eqn:E; try lia.
  cbn [binary_normalize].
  replace ez with (- (- ez)) at 1 by lia.
  apply binary_round_exact; [lia | unfold ez; lia | symmetry; exact E].
Qed.

Lemma log2_mul_million (n : Z) :
  0 < n -> Z.log2 n + 19 <= Z.log2 (n * 1000000) <= Z.log2 n + 20.
Proof.
  intros Hn. pose proof (Z.log2_nonneg n) as H0.
  destruct (Z.log2_spec n Hn) as [Hlo Hhi].
  split.
  - apply Z.log2_le_pow2; [lia|]. rewrite Z.pow_add_r by lia.
    change (2 ^ 19) with 524288. nia.
  - apply Z.lt_succ_r, Z.log2_lt_pow2; [lia|].
    replace (Z.succ (Z.log2 n + 20)) with (Z.succ (Z.log2 n) + 20) by lia.
    rewrite Z.pow_add_r by lia. change (2 ^ 20) with 1048576. nia.
Qed.

Lemma SFdiv_exact (n : Z) :
  0 < n < 2 ^ 53 ->
  SFdiv prec emax (Z2SF (n * 1000000)) (Z2SF 1000000) = canon n.
Proof.
  intros Hn. pose proof (log2_lt_53 n Hn) as Hl.
  pose proof (log2_mul_million n ltac:(lia)) as HN.
  assert (HNpos : 0 < n * 1000000) by lia.
  destruct (n * 1000000) as [|N|N] eqn:EN; try lia.
  cbn [Z2SF SFdiv xorb].
  unfold SFdiv_core_binary.
  rewrite (Zdigits2_log2 (Z.pos N)) by lia.
  change (Zdigits2 1000000) with 20.
  rewrite fexp_small by lia.
  replace (Z.min (Z.log2 (Z.pos N) + 1 + 0 - (20 + 0) - 53) (0 - 0))
    with (- (72 - Z.log2 (Z.pos N))) by lia.
  replace (0 - 0 - - (72 - Z.log2 (Z.pos N))) with (72 - Z.log2 (Z.pos N)) by lia.
  set (s := 72 - Z.log2 (Z.pos N)).
  assert (Hm : match s with
               | 0 => Z.pos N
               | Z.pos _ => Z.shiftl (Z.pos N) s
               | Z.neg _ => 0
               end = n * 2 ^ s * 1000000).
  { destruct s as [|p|p] eqn:Es; try lia.
    rewrite Z.shiftl_mul_pow2 by lia. lia. }
  rewrite Hm.
  assert (Hd : Z.div_eucl (n * 2 ^ s * 1000000) 1000000 = (n * 2 ^ s, 0)).
  { pose proof (Z.div_mul (n * 2 ^ s) 1000000 ltac:(lia)) as Hq.
    pose proof (Z.mod_mul (n * 2 ^ s) 1000000 ltac:(lia)) as Hr.
    unfold Z.div, Z.modulo in Hq, Hr.
    destruct (Z.div_eucl (n * 2 ^ s * 1000000) 1000000) as [q r].
    congruence. }
  rewrite Hd.
  change (new_location 1000000 0) with loc_Exact.
  apply round_aux_exact; unfold s; lia.
Qed.

Lemma Prim2SF_float_of_int (n : Z) : 0 < n < 2 ^ 53 -> Prim2SF (float_of_int n) = canon n.
Proof.
  intros Hn. unfold float_of_int. rewrite normalize_exact by exact Hn.
  apply Prim2SF_SF2Prim, canon_valid, Hn.
Qed.

Lemma Prim2SF_float_of_int_0 : Prim2SF (float_of_int 0) = S754_zero false.
Proof. reflexivity. Qed.

Lemma Prim2SF_inj (x y : float) : Prim2SF x = Prim2SF y -> x = y.
Proof.
  intros H. rewrite <- (SF2Prim_Prim2SF x), <- (SF2Prim_Prim2SF y). now rewrite H.
Qed.

(** Binary64 addition is exact on whole numbers below 2^53. *)
Lemma float_of_int_add (a b : Z) :
  0 <= a -> 0 <= b -> a + b < 2 ^ 53 -> (float_of_int a + float_of_int b)%float = float_of_int (a + b).
Proof.
  intros Ha Hb Hab. apply Prim2SF_inj. rewrite add_spec. unfold SF64add.
  destruct (Z.eq_dec a 0) as [->|Ha0]; destruct (Z.eq_dec b 0) as [->|Hb0].
  - reflexivity.
  - rewrite Prim2SF_float_of_int_0, Z.add_0_l, Prim2SF_float_of_int by lia. reflexivity.
  - rewrite Prim2SF_float_of_int_0, Z.add_0_r, Prim2SF_float_of_int by lia. reflexivity.
  - rewrite !Prim2SF_float_of_int by lia. apply SFadd_exact; lia.
Qed.

(** A whole number of seconds, given in microseconds, converts exactly. *)
Lemma total_seconds_whole (n : Z) :
  0 <= n < 2 ^ 53 -> total_seconds (n * 1000000) = float_of_int n.
Proof.
  intros Hn. destruct (Z.eq_dec n 0) as [->|Hn0]; [reflexivity|].
  unfold total_seconds, true_divide, float_of_int.
  rewrite SFdiv_exact, normalize_exact by lia. reflexivity.
Qed.

(** On whole numbers below [2**53], [float_of_int] loses nothing: the
    float has the integer as its value, and different integers give
    different floats. *)
Lemma float_of_int_value (n : Z) :
  0 < n < 2 ^ 53 ->
  exists m e, Prim2SF (float_of_int n) = S754_finite false m e /\
              e <= 0 /\ Z.pos m = n * 2 ^ (- e).
Proof.
  intros Hn. pose proof (log2_lt_53 n Hn) as Hl.
  rewrite Prim2SF_float_of_int by exact Hn. unfold canon.
  eexists _, _. split; [reflexivity |]. split; [lia |].
  rewrite canon_mantissa by exact Hn. do 2 f_equal. lia.
Qed.

Lemma float_of_int_inj (a b : Z) :
  0 <= a < 2 ^ 53 -> 0 <= b < 2 ^ 53 -> float_of_int a = float_of_int b -> a = b.
Proof.
  intros Ha Hb H. apply (f_equal Prim2SF) in H.
  destruct (Z.eq_dec a 0) as [-> | Ha0]; destruct (Z.eq_dec b 0) as [-> | Hb0].
  - reflexivity.
  - rewrite Prim2SF_float_of_int_0, Prim2SF_float_of_int in H by lia. discriminate.
  - rewrite Prim2SF_float_of_int_0, Prim2SF_float_of_int in H by lia. discriminate.
  - rewrite !Prim2SF_float_of_int in H by lia. unfold canon in H.
    assert (He : Z.log2 a - 52 = Z.log2 b - 52) by congruence.
    assert (Hm : Z.pos (Z.to_pos (a * 2 ^ (52 - Z.log2 a)))
                 = Z.pos (Z.to_pos (b * 2 ^ (52 - Z.log2 b)))) by congruence.
    rewrite !canon_mantissa in Hm by lia.
    replace (Z.log2 b) with (Z.log2 a) in Hm by lia.
    pose proof (log2_lt_53 a ltac:(lia)).
    apply Z.mul_cancel_r in Hm; lia.
Qed.

(** ** The binary64 totals of whole-second events *)

Lemma whole_seconds_div (us : Z) :
  whole_seconds us -> 0 <= us / 1000000 /\ us = us / 1000000 * 1000000.
Proof.
  intros [H0 Hm]. pose proof (Z.div_mod us 1000000 ltac:(lia)) as Hd.
  split; [apply Z.div_pos; lia | lia].
Qed.

Lemma whole_seconds_add (a b : Z) :
  whole_seconds a -> whole_seconds b -> whole_seconds (a + b).
Proof.
  intros [Ha Ha'] [Hb Hb']. split; [lia |].
  rewrite Z.add_mod, Ha', Hb' by lia. reflexivity.
Qed.

Lemma whole_seconds_0 : whole_seconds 0.
Proof. split; [lia | reflexivity]. Qed.

Lemma total_seconds_exact (us : Z) :
  whole_seconds us -> us < EXACT_LIMIT ->
  total_seconds us = float_of_int (us / 1000000).
Proof.
  intros Hw Hlt. destruct (whole_seconds_div us Hw) as [H0 E].
  rewrite E at 1. apply total_seconds_whole. unfold EXACT_LIMIT in Hlt. lia.
Qed.

Lemma float_add_exact (a b : Z) :
  whole_seconds a -> whole_seconds b -> a + b < EXACT_LIMIT ->
  (float_of_int (a / 1000000) + float_of_int (b / 1000000))%float
  = float_of_int ((a + b) / 1000000).
Proof.
  intros Ha Hb Hlt.
  destruct (whole_seconds_div a Ha) as [Ha0 Ea].
  destruct (whole_seconds_div b Hb) as [Hb0 Eb].
  unfold EXACT_LIMIT in Hlt.
  replace ((a + b) / 1000000) with (a / 1000000 + b / 1000000).
  - apply float_of_int_add; lia.
  - rewrite Ea at 2. rewrite Eb at 2. rewrite <- Z.mul_add_distr_r.
    rewrite Z.div_mul by lia. reflexivity.
Qed.

Lemma whole_totals_sum (d : dict Z) :
  whole_totals d -> whole_seconds (sum_values d).
Proof.
  induction 1 as [| [k x] d Hx _ IH]; cbn [sum_values fold_right snd].
  - apply whole_seconds_0.
  - apply whole_seconds_add; assumption.
Qed.

(** One [+=] on exact totals of whole seconds is one exact [+=] on the
    floats. *)
Lemma float_add_to_exact (d : dict Z) (k : string) (v : Z) :
  whole_totals d -> whole_seconds v -> sum_values d + v < EXACT_LIMIT ->
  float_add_to (seconds_of d) k (total_seconds v) = seconds_of (add_to d k v) /\
  whole_totals (add_to d k v).
Proof.
  intros Hd Hv. induction Hd as [| [k' x] d Hx Hd IH]; intros Hlt.
  - assert (Hlt' : 0 + v < EXACT_LIMIT)
      by (unfold sum_values in Hlt; cbn [fold_right] in Hlt; exact Hlt).
    cbn [seconds_of map float_add_to add_to fst snd]. split.
    + rewrite total_seconds_exact by (trivial; lia).
      change 0%float with (float_of_int (0 / 1000000)).
      rewrite float_add_exact; [reflexivity | apply whole_seconds_0 | exact Hv |].
      exact Hlt'.
    + constructor; [| constructor]. cbn [snd].
      apply whole_seconds_add; [apply whole_seconds_0 | exact Hv].
  - cbn [sum_values fold_right snd] in Hlt. fold (sum_values d) in Hlt.
    cbn [snd] in Hx.
    pose proof (whole_totals_sum d Hd) as [Hs _]. destruct Hx as [Hx0 Hxm].
    assert (Hx : whole_seconds x) by (split; assumption).
    destruct Hv as [Hv0 Hvm]. assert (Hv : whole_seconds v) by (split; assumption).
    cbn [seconds_of map float_add_to add_to fst snd].
    destruct (k' =? k)%string.
    + cbn [seconds_of map fst snd]. split.
      * rewrite total_seconds_exact by (trivial; lia).
        rewrite float_add_exact by (trivial; lia). reflexivity.
      * constructor; [cbn [snd]; apply whole_seconds_add; assumption | exact Hd].
    + destruct IH as [IH1 IH2]; [lia |].
      cbn [seconds_of map fst snd]. split.
      * fold (seconds_of d). rewrite IH1. reflexivity.
      * constructor; [exact Hx | exact IH2].
Qed.

(** The same for a whole loop: when each step of the exact loop is one
    exact step on the floats, so is the loop. *)
Lemma for_each_exact {X : Type}
  (body : dict Z -> X -> result (dict Z))
  (body64 : dict float -> X -> result (dict float))
  (f : X -> Z) (P : X -> Prop) :
  (forall x, P x -> 0 <= f x) ->
  (forall acc x acc', body acc x = Ok acc' -> sum_values acc' = sum_values acc + f x) ->
  (forall acc x,
      whole_totals acc -> P x -> sum_values acc + f x < EXACT_LIMIT ->
      match body acc x with
      | Ok acc' => body64 (seconds_of acc) x = Ok (seconds_of acc') /\ whole_totals acc'
      | Raise e => body64 (seconds_of acc) x = Raise e
      end) ->
  forall xs acc,
    whole_totals acc -> Forall P xs ->
    sum_values acc + fold_right (fun x a => f x + a) 0 xs < EXACT_LIMIT ->
    match for_each body xs acc with
    | Ok acc' =>
        for_each body64 xs (seconds_of acc) = Ok (seconds_of acc') /\ whole_totals acc'
    | Raise e => for_each body64 xs (seconds_of acc) = Raise e
    end.
Proof.
  intros Hpos Hadds Hstep. induction xs as [| x xs IH]; intros acc Hacc HP Hlt.
  - cbn [for_each]. split; [reflexivity | exact Hacc].
  - inversion HP as [| ? ? Hx Hxs]; subst. cbn [fold_right] in Hlt.
    assert (Hrest : 0 <= fold_right (fun x a => f x + a) 0 xs).
    { clear - Hpos Hxs. induction Hxs as [| y ys Hy _ IHy]; cbn [fold_right].
      - lia.
      - pose proof (Hpos y Hy). lia. }
    pose proof (Hpos x Hx) as Hfx.
    pose proof (Hstep acc x Hacc Hx ltac:(lia)) as Hs.
    cbn [for_each].
    destruct (body acc x) as [acc1 |] eqn:E; cbn [bind].
    + destruct Hs as [Hs1 Hs2]. rewrite Hs1. cbn [bind].
      apply IH; [exact Hs2 | exact Hxs |].
      rewrite (Hadds _ _ _ E). lia.
    + rewrite Hs. reflexivity.
Qed.

Lemma sum_events_nonneg {X : Type} (f : X -> Z) (xs : list X) :
  Forall (fun x => whole_seconds (f x)) xs ->
  0 <= fold_right (fun x a => f x + a) 0 xs.
Proof.
  induction 1 as [| x xs [Hx _] _ IH]; cbn [fold_right]; lia.
Qed.

Section SimpleFloatTotals.

Variables start end_ : datetime.
Variable count_all_day : bool.
Variables event_colors calendar_colors : dict (option string).

Lemma simple_float_process_event (hex : option string) (acc : dict Z) (evt : event) :
  whole_totals acc ->
  whole_seconds (simple_seconds start end_ count_all_day evt) ->
  sum_values acc + simple_seconds start end_ count_all_day evt < EXACT_LIMIT ->
  match Simple.process_event start end_ count_all_day event_colors hex acc evt with
  | Ok acc' =>
      SimpleFloat.process_event start end_ count_all_day event_colors hex
        (seconds_of acc) evt = Ok (seconds_of acc') /\ whole_totals acc'
  | Raise e =>
      SimpleFloat.process_event start end_ count_all_day event_colors hex
        (seconds_of acc) evt = Raise e
  end.
Proof.
  unfold Simple.process_event, SimpleFloat.process_event, simple_seconds.
  intros Hacc.
  destruct (Simple.parse_event_times evt) as [[[s e] ad] |]; [| reflexivity].
  cbn [bind]. rewrite clipped_duration_clip.
  destruct (Simple.clip s e start end_) as [[cs ce] |].
  - destruct (ad && negb count_all_day).
    + intros _ _. split; [reflexivity | exact Hacc].
    + intros Hw Hlt. cbv zeta.
      destruct (Simple.decide_label (ev_colorId evt) hex event_colors) as [label |];
        cbn [bind]; [| reflexivity].
      destruct (float_add_to_exact acc label (elapsed_us ce cs) Hacc Hw Hlt) as [H1 H2].
      rewrite H1. split; [reflexivity | exact H2].
  - intros _ _. split; [reflexivity | exact Hacc].
Qed.

Lemma simple_float_aggregate (cals : list (calendar event)) :
  Forall (fun cal =>
            Forall (fun evt => whole_seconds (simple_seconds start end_ count_all_day evt))
              (cal_events cal)) cals ->
  sum_over (simple_seconds start end_ count_all_day) cals < EXACT_LIMIT ->
  match Simple.aggregate start end_ count_all_day event_colors calendar_colors cals with
  | Ok totals =>
      SimpleFloat.aggregate start end_ count_all_day event_colors calendar_colors cals
      = Ok (seconds_of totals) /\ whole_totals totals
  | Raise e =>
      SimpleFloat.aggregate start end_ count_all_day event_colors calendar_colors cals
      = Raise e
  end.
Proof.
  intros Hw Hlt. unfold Simple.aggregate, SimpleFloat.aggregate.
  change (@nil (string * float)) with (seconds_of []).
  apply (for_each_exact _ _
           (fun cal =>
              fold_right (fun evt a => simple_seconds start end_ count_all_day evt + a)
                0 (cal_events cal))
           (fun cal =>
              Forall (fun evt => whole_seconds (simple_seconds start end_ count_all_day evt))
                (cal_events cal))).
  - intros cal. apply sum_events_nonneg.
  - intros acc cal acc'. unfold Simple.process_calendar.
    apply for_each_sum. apply simple_process_event_adds.
  - intros acc cal Hacc Hcal Hb.
    unfold Simple.process_calendar, SimpleFloat.process_calendar. cbv zeta.
    apply (for_each_exact _ _ (simple_seconds start end_ count_all_day)
             (fun evt => whole_seconds (simple_seconds start end_ count_all_day evt))).
    + intros evt [H0 _]. exact H0.
    + intros a x a'. apply simple_process_event_adds.
    + intros a x. apply simple_float_process_event.
    + exact Hacc.
    + exact Hcal.
    + exact Hb.
  - constructor.
  - exact Hw.
  - exact Hlt.
Qed.

End SimpleFloatTotals.

Section WeeklyFloatTotals.

Variables week_start week_end : datetime.
Variable ignore_all_day : bool.

Lemma weekly_float_process_event (cal_default : option string) (acc : dict Z)
  (timed : datetime * event) :
  whole_totals acc ->
  whole_seconds
    (weekly_seconds week_start week_end (Weekly.count_all_day ignore_all_day) timed) ->
  sum_values acc
  + weekly_seconds week_start week_end (Weekly.count_all_day ignore_all_day) timed
  < EXACT_LIMIT ->
  match Weekly.process_event week_start week_end ignore_all_day cal_default acc timed with
  | Ok acc' =>
      WeeklyFloat.process_event week_start week_end ignore_all_day cal_default
        (seconds_of acc) timed = Ok (seconds_of acc') /\ whole_totals acc'
  | Raise e =>
      WeeklyFloat.process_event week_start week_end ignore_all_day cal_default
        (seconds_of acc) timed = Raise e
  end.
Proof.
  destruct timed as [now evt].
  unfold Weekly.process_event, WeeklyFloat.process_event, weekly_seconds. cbn [fst snd].
  intros Hacc.
  destruct (Weekly.parse_event_times now evt) as [[[s e] ad] |]; [| reflexivity].
  cbn [bind]. rewrite clipped_duration_clip.
  rewrite (clamp_interval_clip s e week_start week_end).
  destruct (Simple.clip s e week_start week_end) as [[cs ce] |].
  - destruct (ad && negb (Weekly.count_all_day ignore_all_day)).
    + intros _ _. split; [reflexivity | exact Hacc].
    + intros Hw Hlt. cbv zeta.
      destruct (float_add_to_exact acc
                  (Weekly.color_key (ev_colorId evt) cal_default)
                  (elapsed_us ce cs) Hacc Hw Hlt) as [H1 H2].
      rewrite H1. split; [reflexivity | exact H2].
  - intros _ _. split; [reflexivity | exact Hacc].
Qed.

Lemma weekly_float_aggregate (cals : list (calendar (datetime * event))) :
  Forall (fun cal =>
            Forall (fun timed =>
                      whole_seconds
                        (weekly_seconds week_start week_end
                           (Weekly.count_all_day ignore_all_day) timed))
              (cal_events cal)) cals ->
  sum_over (weekly_seconds week_start week_end (Weekly.count_all_day ignore_all_day)) cals
  < EXACT_LIMIT ->
  match Weekly.aggregate week_start week_end ignore_all_day cals with
  | Ok totals =>
      WeeklyFloat.aggregate week_start week_end ignore_all_day cals
      = Ok (seconds_of totals) /\ whole_totals totals
  | Raise e => WeeklyFloat.aggregate week_start week_end ignore_all_day cals = Raise e
  end.
Proof.
  intros Hw Hlt. unfold Weekly.aggregate, WeeklyFloat.aggregate.
  change (@nil (string * float)) with (seconds_of []).
  apply (for_each_exact _ _
           (fun cal =>
              fold_right
                (fun timed a =>
                   weekly_seconds week_start week_end
                     (Weekly.count_all_day ignore_all_day) timed + a)
                0 (cal_events cal))
           (fun cal =>
              Forall (fun timed =>
                        whole_seconds
                          (weekly_seconds week_start week_end
                             (Weekly.count_all_day ignore_all_day) timed))
                (cal_events cal))).
  - intros cal. apply sum_events_nonneg.
  - intros acc cal acc'. unfold Weekly.process_calendar.
    apply for_each_sum. apply weekly_process_event_adds.
  - intros acc cal Hacc Hcal Hb.
    unfold Weekly.process_calendar, WeeklyFloat.process_calendar. cbv zeta.
    apply (for_each_exact _ _
             (weekly_seconds week_start week_end (Weekly.count_all_day ignore_all_day))
             (fun timed =>
                whole_seconds
                  (weekly_seconds week_start week_end
                     (Weekly.count_all_day ignore_all_day) timed))).
    + intros timed [H0 _]. exact H0.
    + intros a x a'. apply weekly_process_event_adds.
    + intros a x. apply weekly_float_process_event.
    + exact Hacc.
    + exact Hcal.
    + exact Hb.
  - constructor.
  - exact Hw.
  - exact Hlt.
Qed.

End WeeklyFloatTotals.

(** Adding up exact whole-second floats from left to right is exact. *)
Lemma fold_left_add_exact (l : list Z) : forall a : Z,
  whole_seconds a -> Forall whole_seconds l ->
  a + fold_right Z.add 0 l < EXACT_LIMIT ->
  fold_left PrimFloat.add (map (fun us => float_of_int (us / 1000000)) l)
    (float_of_int (a / 1000000))
  = float_of_int ((a + fold_right Z.add 0 l) / 1000000).
Proof.
  induction l as [| x l IH]; intros a Ha Hl Hlt; cbn [map fold_left fold_right] in *.
  - rewrite Z.add_0_r. reflexivity.
  - inversion Hl as [| ? ? Hx Hl']; subst.
    assert (0 <= fold_right Z.add 0 l).
    { clear - Hl'. induction Hl' as [| y ys [Hy _] _ IHy]; cbn [fold_right]; lia. }
    destruct Hx as [Hx0 Hxm]. assert (Hx : whole_seconds x) by (split; assumption).
    rewrite float_add_exact by (trivial; lia).
    rewrite IH; [f_equal; f_equal; lia | apply whole_seconds_add; assumption
                | exact Hl' | lia].
Qed.

Lemma float_sum_exact (l : list Z) :
  Forall whole_seconds l -> fold_right Z.add 0 l < EXACT_LIMIT ->
  float_sum (map (fun us => float_of_int (us / 1000000)) l)
  = float_of_int (fold_right Z.add 0 l / 1000000).
Proof.
  intros Hl Hlt. unfold float_sum.
  change 0%float with (float_of_int (0 / 1000000)).
  rewrite fold_left_add_exact; [reflexivity | apply whole_seconds_0 | exact Hl | lia].
Qed.

Lemma float_sum_seconds_of (d : dict Z) :
  whole_totals d -> sum_values d < EXACT_LIMIT ->
  float_sum (map snd (seconds_of d)) = float_of_int (sum_values d / 1000000).
Proof.
  intros Hd Hlt.
  assert (E1 : map snd (seconds_of d)
               = map (fun us => float_of_int (us / 1000000)) (map snd d)).
  { unfold seconds_of. rewrite !map_map. reflexivity. }
  assert (E2 : sum_values d = fold_right Z.add 0 (map snd d)).
  { clear. unfold sum_values. induction d as [| [k x] d IH]; cbn [fold_right map snd].
    - reflexivity.
    - rewrite IH. reflexivity. }
  rewrite E1, E2. apply float_sum_exact.
  - unfold whole_totals in Hd. rewrite Forall_map. exact Hd.
  - rewrite <- E2. exact Hlt.
Qed.

Lemma float_sum_total_seconds (l : list Z) :
  Forall whole_seconds l -> fold_right Z.add 0 l < EXACT_LIMIT ->
  float_sum (map total_seconds l) = float_of_int (fold_right Z.add 0 l / 1000000).
Proof.
  intros Hl Hlt.
  assert (E : map total_seconds l = map (fun us => float_of_int (us / 1000000)) l).
  { assert (Hb : Forall (fun x => x < EXACT_LIMIT) l).
    { clear - Hl Hlt. induction Hl as [| x l [Hx _] Hl' IH]; constructor.
      - cbn [fold_right] in Hlt.
        assert (0 <= fold_right Z.add 0 l).
        { clear - Hl'. induction Hl' as [| y ys [Hy _] _ IHy]; cbn [fold_right]; lia. }
        lia.
      - apply IH. cbn [fold_right] in Hlt. lia. }
    clear Hlt. induction Hl as [| x l Hx Hl' IH]; cbn [map]; [reflexivity |].
    inversion Hb; subst. rewrite total_seconds_exact by assumption.
    f_equal. apply IH. assumption. }
  rewrite E. apply float_sum_exact; assumption.
Qed.

(** An event that is not counted has no clipped duration. *)
Lemma counted_false_duration (start end_ : datetime) (count_all_day : bool)
  (parsed : result (datetime * datetime * bool)) :
  counted start end_ count_all_day parsed = false ->
  match parsed with
  | Ok t => clipped_duration start end_ count_all_day t
  | Raise _ => 0
  end = 0.
Proof.
  destruct parsed as [[[s e] ad] |]; [| reflexivity].
  unfold counted, clipped_duration. intros ->. reflexivity.
Qed.

Lemma simple_durations_sum (start end_ : datetime) (count_all_day : bool)
  (cals : list (calendar event)) :
  fold_right Z.add 0 (simple_durations start end_ count_all_day cals)
  = sum_over (simple_seconds start end_ count_all_day) cals.
Proof.
  unfold simple_durations, sum_over.
  induction cals as [| cal cals IH]; cbn [flat_map fold_right]; [reflexivity |].
  rewrite fold_right_app, IH. clear IH.
  generalize (fold_right
                (fun cal acc =>
                   fold_right (fun evt a => simple_seconds start end_ count_all_day evt + a)
                     0 (cal_events cal) + acc) 0 cals).
  intros r. induction (cal_events cal) as [| evt evts IHe]; cbn [flat_map fold_right].
  - reflexivity.
  - rewrite fold_right_app, IHe.
    destruct (counted start end_ count_all_day (Simple.parse_event_times evt)) eqn:Ec;
      cbn [fold_right].
    + lia.
    + unfold simple_seconds at 2.
      rewrite (counted_false_duration _ _ _ _ Ec). lia.
Qed.

Lemma weekly_durations_sum (week_start week_end : datetime) (count_all_day : bool)
  (cals : list (calendar (datetime * event))) :
  fold_right Z.add 0 (weekly_durations week_start week_end count_all_day cals)
  = sum_over (weekly_seconds week_start week_end count_all_day) cals.
Proof.
  unfold weekly_durations, sum_over.
  induction cals as [| cal cals IH]; cbn [flat_map fold_right]; [reflexivity |].
  rewrite fold_right_app, IH. clear IH.
  generalize (fold_right
                (fun cal acc =>
                   fold_right
                     (fun evt a => weekly_seconds week_start week_end count_all_day evt + a)
                     0 (cal_events cal) + acc) 0 cals).
  intros r. induction (cal_events cal) as [| evt evts IHe]; cbn [flat_map fold_right].
  - reflexivity.
  - rewrite fold_right_app, IHe.
    destruct (counted week_start week_end count_all_day
                (Weekly.parse_event_times (fst evt) (snd evt))) eqn:Ec;
      cbn [fold_right].
    + lia.
    + unfold weekly_seconds at 2.
      rewrite (counted_false_duration _ _ _ _ Ec). lia.
Qed.

Lemma simple_durations_whole (start end_ : datetime) (count_all_day : bool)
  (cals : list (calendar event)) :
  Forall (fun cal =>
            Forall (fun evt => whole_seconds (simple_seconds start end_ count_all_day evt))
              (cal_events cal)) cals ->
  Forall whole_seconds (simple_durations start end_ count_all_day cals).
Proof.
  unfold simple_durations. induction 1 as [| cal cals Hc _ IH]; cbn [flat_map].
  - constructor.
  - apply Forall_app. split; [| exact IH].
    induction Hc as [| evt evts He _ IHe]; cbn [flat_map]; [constructor |].
    apply Forall_app. split; [| exact IHe].
    destruct (counted _ _ _ _); constructor; [exact He | constructor].
Qed.

Lemma weekly_durations_whole (week_start week_end : datetime) (count_all_day : bool)
  (cals : list (calendar (datetime * event))) :
  Forall (fun cal =>
            Forall (fun timed =>
                      whole_seconds (weekly_seconds week_start week_end count_all_day timed))
              (cal_events cal)) cals ->
  Forall whole_seconds (weekly_durations week_start week_end count_all_day cals).
Proof.
  unfold weekly_durations. induction 1 as [| cal cals Hc _ IH]; cbn [flat_map].
  - constructor.
  - apply Forall_app. split; [| exact IH].
    induction Hc as [| evt evts He _ IHe]; cbn [flat_map]; [constructor |].
    apply Forall_app. split; [| exact IHe].
    destruct (counted _ _ _ _); constructor; [exact He | constructor].
Qed.

(** C4 (as amended).  For every window, all-day flag and calendars whose
    counted events have clipped durations of whole seconds, with fewer
    than [2**53] seconds in all: each binary64 total the aggregation loop
    of either script ends with is a whole number of seconds, and these
    numbers add up to the sum of the clipped durations of the event
    occurrences that overlap the window and pass the all-day filter; the
    totals added as floats over all keys give that sum, and so do the
    durations added as floats one by one.  Within a calendar each event
    counts once, and an event present on two calendars counts twice.  The
    loop does end with totals when every event can be read (and, in the
    label-based script, the backgrounds of the event colour table can be
    parsed). *)
Theorem aggregate_totals_sum_whole_seconds :
  (forall start end_ count_all_day event_colors calendar_colors
          (calendars : list (calendar event)),
      Forall (fun cal =>
                Forall (fun evt =>
                          whole_seconds (simple_seconds start end_ count_all_day evt))
                  (cal_events cal)) calendars ->
      sum_over (simple_seconds start end_ count_all_day) calendars < EXACT_LIMIT ->
      (forall totals,
          SimpleFloat.aggregate start end_ count_all_day event_colors calendar_colors
            calendars = Ok totals ->
          (exists exact,
              totals = seconds_of exact /\ whole_totals exact /\
              sum_values exact
              = sum_over (simple_seconds start end_ count_all_day) calendars) /\
          float_sum (map snd totals)
          = float_of_int
              (sum_over (simple_seconds start end_ count_all_day) calendars / 1000000) /\
          float_sum (map total_seconds (simple_durations start end_ count_all_day calendars))
          = float_of_int
              (sum_over (simple_seconds start end_ count_all_day) calendars / 1000000)) /\
      (table_parses event_colors = true ->
       Forall (fun cal => Forall simple_parses (cal_events cal)) calendars ->
       exists totals,
         SimpleFloat.aggregate start end_ count_all_day event_colors calendar_colors
           calendars = Ok totals)) /\
  (forall week_start week_end ignore_all_day
          (calendars : list (calendar (datetime * event))),
      Forall (fun cal =>
                Forall (fun timed =>
                          whole_seconds
                            (weekly_seconds week_start week_end
                               (Weekly.count_all_day ignore_all_day) timed))
                  (cal_events cal)) calendars ->
      sum_over (weekly_seconds week_start week_end (Weekly.count_all_day ignore_all_day))
        calendars < EXACT_LIMIT ->
      (forall totals,
          WeeklyFloat.aggregate week_start week_end ignore_all_day calendars = Ok totals ->
          (exists exact,
              totals = seconds_of exact /\ whole_totals exact /\
              sum_values exact
              = sum_over
                  (weekly_seconds week_start week_end (Weekly.count_all_day ignore_all_day))
                  calendars) /\
          float_sum (map snd totals)
          = float_of_int
              (sum_over
                 (weekly_seconds week_start week_end (Weekly.count_all_day ignore_all_day))
                 calendars / 1000000) /\
          float_sum
            (map total_seconds
               (weekly_durations week_start week_end (Weekly.count_all_day ignore_all_day)
                  calendars))
          = float_of_int
              (sum_over
                 (weekly_seconds week_start week_end (Weekly.count_all_day ignore_all_day))
                 calendars / 1000000)) /\
      (Forall (fun cal => Forall weekly_parses (cal_events cal)) calendars ->
       exists totals,
         WeeklyFloat.aggregate week_start week_end ignore_all_day calendars = Ok totals)) /\
  (forall start end_ count_all_day event_colors calendar_colors evt id1 id2,
      table_parses event_colors = true ->
      simple_parses evt ->
      whole_seconds (simple_seconds start end_ count_all_day evt) ->
      2 * simple_seconds start end_ count_all_day evt < EXACT_LIMIT ->
      exists totals,
        SimpleFloat.aggregate start end_ count_all_day event_colors calendar_colors
          [mkcal id1 [evt]; mkcal id2 [evt]] = Ok totals /\
        float_sum (map snd totals)
        = float_of_int (2 * (simple_seconds start end_ count_all_day evt / 1000000))) /\
  (forall week_start week_end ignore_all_day timed id1 id2,
      weekly_parses timed ->
      whole_seconds
        (weekly_seconds week_start week_end (Weekly.count_all_day ignore_all_day) timed) ->
      2 * weekly_seconds week_start week_end (Weekly.count_all_day ignore_all_day) timed
      < EXACT_LIMIT ->
      exists totals,
        WeeklyFloat.aggregate week_start week_end ignore_all_day
          [mkcal id1 [timed]; mkcal id2 [timed]] = Ok totals /\
        float_sum (map snd totals)
        = float_of_int
            (2 * (weekly_seconds week_start week_end
                    (Weekly.count_all_day ignore_all_day) timed / 1000000))).
Proof.
  assert (Simple_part :
    forall start end_ cad ec cc (cals : list (calendar event)),
      Forall (fun cal =>
                Forall (fun evt => whole_seconds (simple_seconds start end_ cad evt))
                  (cal_events cal)) cals ->
      sum_over (simple_seconds start end_ cad) cals < EXACT_LIMIT ->
      (forall totals,
          SimpleFloat.aggregate start end_ cad ec cc cals = Ok totals ->
          (exists exact,
              totals = seconds_of exact /\ whole_totals exact /\
              sum_values exact = sum_over (simple_seconds start end_ cad) cals) /\
          float_sum (map snd totals)
          = float_of_int (sum_over (simple_seconds start end_ cad) cals / 1000000) /\
          float_sum (map total_seconds (simple_durations start end_ cad cals))
          = float_of_int (sum_over (simple_seconds start end_ cad) cals / 1000000)) /\
      (table_parses ec = true ->
       Forall (fun cal => Forall simple_parses (cal_events cal)) cals ->
       exists totals, SimpleFloat.aggregate start end_ cad ec cc cals = Ok totals)).
  { intros start end_ cad ec cc cals Hw Hlt.
    pose proof (simple_float_aggregate start end_ cad ec cc cals Hw Hlt) as Hsim.
    split.
    - intros totals H.
      destruct (Simple.aggregate start end_ cad ec cc cals) as [ztotals |] eqn:E.
      + destruct Hsim as [H1 H2]. rewrite H1 in H. injection H as <-.
        pose proof (simple_aggregate_sum _ _ _ _ _ _ _ E) as Hs.
        split; [exists ztotals; auto | split].
        * rewrite float_sum_seconds_of by (trivial; rewrite Hs; exact Hlt).
          rewrite Hs. reflexivity.
        * rewrite float_sum_total_seconds.
          -- rewrite simple_durations_sum. reflexivity.
          -- apply simple_durations_whole, Hw.
          -- rewrite simple_durations_sum. exact Hlt.
      + rewrite Hsim in H. discriminate.
    - intros Ht Hp.
      destruct (simple_calendars_sum start end_ cad ec cc Ht cals Hp [])
        as [ztotals [E _]].
      fold (Simple.aggregate start end_ cad ec cc cals) in E.
      rewrite E in Hsim. destruct Hsim as [H1 _]. eexists. exact H1. }
  assert (Weekly_part :
    forall ws we ig (cals : list (calendar (datetime * event))),
      Forall (fun cal =>
                Forall (fun timed =>
                          whole_seconds
                            (weekly_seconds ws we (Weekly.count_all_day ig) timed))
                  (cal_events cal)) cals ->
      sum_over (weekly_seconds ws we (Weekly.count_all_day ig)) cals < EXACT_LIMIT ->
      (forall totals,
          WeeklyFloat.aggregate ws we ig cals = Ok totals ->
          (exists exact,
              totals = seconds_of exact /\ whole_totals exact /\
              sum_values exact
              = sum_over (weekly_seconds ws we (Weekly.count_all_day ig)) cals) /\
          float_sum (map snd totals)
          = float_of_int
              (sum_over (weekly_seconds ws we (Weekly.count_all_day ig)) cals / 1000000) /\
          float_sum
            (map total_seconds (weekly_durations ws we (Weekly.count_all_day ig) cals))
          = float_of_int
              (sum_over (weekly_seconds ws we (Weekly.count_all_day ig)) cals / 1000000)) /\
      (Forall (fun cal => Forall weekly_parses (cal_events cal)) cals ->
       exists totals, WeeklyFloat.aggregate ws we ig cals = Ok totals)).
  { intros ws we ig cals Hw Hlt.
    pose proof (weekly_float_aggregate ws we ig cals Hw Hlt) as Hsim.
    split.
    - intros totals H.
      destruct (Weekly.aggregate ws we ig cals) as [ztotals |] eqn:E.
      + destruct Hsim as [H1 H2]. rewrite H1 in H. injection H as <-.
        pose proof (weekly_aggregate_sum _ _ _ _ _ E) as Hs.
        split; [exists ztotals; auto | split].
        * rewrite float_sum_seconds_of by (trivial; rewrite Hs; exact Hlt).
          rewrite Hs. reflexivity.
        * rewrite float_sum_total_seconds.
          -- rewrite weekly_durations_sum. reflexivity.
          -- apply weekly_durations_whole, Hw.
          -- rewrite weekly_durations_sum. exact Hlt.
      + rewrite Hsim in H. discriminate.
    - intros Hp.
      destruct (weekly_calendars_sum ws we ig cals Hp []) as [ztotals [E _]].
      fold (Weekly.aggregate ws we ig cals) in E.
      rewrite E in Hsim. destruct Hsim as [H1 _]. eexists. exact H1. }
  split; [exact Simple_part | split; [exact Weekly_part | split]].
  - intros start end_ cad ec cc evt id1 id2 Ht Hp Hw Hlt.
    assert (Hsum : sum_over (simple_seconds start end_ cad)
                     [mkcal id1 [evt]; mkcal id2 [evt]]
                   = 2 * simple_seconds start end_ cad evt).
    { unfold sum_over. cbn [fold_right cal_events]. lia. }
    destruct (Simple_part start end_ cad ec cc [mkcal id1 [evt]; mkcal id2 [evt]])
      as [Hsums Hex].
    { repeat (first [exact Hw | constructor]). }
    { rewrite Hsum. exact Hlt. }
    destruct (Hex Ht) as [totals E]; [repeat constructor; exact Hp |].
    exists totals. split; [exact E |].
    rewrite (proj1 (proj2 (Hsums totals E))), Hsum. f_equal.
    destruct (whole_seconds_div _ Hw) as [_ Ed]. rewrite Ed at 1.
    rewrite Z.mul_assoc, Z.div_mul by lia. reflexivity.
  - intros ws we ig timed id1 id2 Hp Hw Hlt.
    assert (Hsum : sum_over (weekly_seconds ws we (Weekly.count_all_day ig))
                     [mkcal id1 [timed]; mkcal id2 [timed]]
                   = 2 * weekly_seconds ws we (Weekly.count_all_day ig) timed).
    { unfold sum_over. cbn [fold_right cal_events]. lia. }
    destruct (Weekly_part ws we ig [mkcal id1 [timed]; mkcal id2 [timed]])
      as [Hsums Hex].
    { repeat (first [exact Hw | constructor]). }
    { rewrite Hsum. exact Hlt. }
    destruct Hex as [totals E]; [repeat constructor; exact Hp |].
    exists totals. split; [exact E |].
    rewrite (proj1 (proj2 (Hsums totals E))), Hsum. f_equal.
    destruct (whole_seconds_div _ Hw) as [_ Ed]. rewrite Ed at 1.
    rewrite Z.mul_assoc, Z.div_mul by lia. reflexivity.
Qed.

(** The week of Sunday 2024-01-07 with an "Exercise" event of an hour and
    a half and an uncoloured all-day event 2024-01-06 .. 2024-01-08 that is
    counted as 24 h a day on a calendar whose colour is nearest to "7":
    5400.0 and 86400.0 seconds are stored, 91800 seconds in all. *)
Lemma aggregate_totals_sum_whole_seconds_witness :
  float_sum (map snd [("Exercise", 5400%float); ("Money", 86400%float)])
  = float_of_int 91800 /\
  float_sum (map total_seconds [5400000000; 86400000000]) = float_of_int 91800.
Proof.
  refine (proj2 (proj1 (proj1 aggregate_totals_sum_whole_seconds
                   (civil 2024 1 7 0 0) (civil 2024 1 14 0 0) true
                   [("9", Some "#5484ed"); ("7", Some "#46d6db")]
                   [("14", Some "#9fe1e7")]
                   [mkcal (Some "14")
                      [ mkevent (Some (mkwhen (Some (civil 2024 1 8 6 0)) None))
                                (Some (mkwhen (Some (civil 2024 1 8 7 30)) None))
                                (Some "9");
                        mkevent (Some (mkwhen None (Some (ymd2ord 2024 1 6))))
                                (Some (mkwhen None (Some (ymd2ord 2024 1 8))))
                                None ]]
                   _ _)
            [("Exercise", 5400%float); ("Money", 86400%float)] eq_refl)).
  - repeat (constructor; try (split; [vm_compute; discriminate | reflexivity])).
  - vm_compute. reflexivity.
Defined.

(** With fractions of a second the totals are rounded sums.  Two
    "Exercise" events of 0.1 s and 0.2 s leave 0.30000000000000004 under
    their label, which is not the 0.3 s that 300000 microseconds are.  And
    "Class" with 0.1 s next to "Side-Hustle" with 0.2 s and 0.3 s gives
    totals that add up to 0.6 while the three durations, added as the
    events come, give 0.6000000000000001. *)
Lemma fractional_seconds_totals_are_rounded :
  SimpleFloat.aggregate (civil 2024 1 7 0 0) (civil 2024 1 14 0 0) false [] []
    [mkcal None
       [ mkevent (Some (mkwhen (Some (mkdt (ymd2ord 2024 1 8) 21600000000)) None))
                 (Some (mkwhen (Some (mkdt (ymd2ord 2024 1 8) 21600100000)) None))
                 (Some "9");
         mkevent (Some (mkwhen (Some (mkdt (ymd2ord 2024 1 8) 25200000000)) None))
                 (Some (mkwhen (Some (mkdt (ymd2ord 2024 1 8) 25200200000)) None))
                 (Some "9") ]]
  = Ok [("Exercise", 0x1.3333333333334p-2%float)] /\
  simple_durations (civil 2024 1 7 0 0) (civil 2024 1 14 0 0) false
    [mkcal None
       [ mkevent (Some (mkwhen (Some (mkdt (ymd2ord 2024 1 8) 21600000000)) None))
                 (Some (mkwhen (Some (mkdt (ymd2ord 2024 1 8) 21600100000)) None))
                 (Some "9");
         mkevent (Some (mkwhen (Some (mkdt (ymd2ord 2024 1 8) 25200000000)) None))
                 (Some (mkwhen (Some (mkdt (ymd2ord 2024 1 8) 25200200000)) None))
                 (Some "9") ]]
  = [100000; 200000] /\
  float_sum (map snd [("Exercise", 0x1.3333333333334p-2%float)])
  <> total_seconds (100000 + 200000) /\
  SimpleFloat.aggregate (civil 2024 1 7 0 0) (civil 2024 1 14 0 0) false [] []
    [mkcal None
       [ mkevent (Some (mkwhen (Some (mkdt (ymd2ord 2024 1 8) 21600000000)) None))
                 (Some (mkwhen (Some (mkdt (ymd2ord 2024 1 8) 21600100000)) None))
                 (Some "1");
         mkevent (Some (mkwhen (Some (mkdt (ymd2ord 2024 1 8) 25200000000)) None))
                 (Some (mkwhen (Some (mkdt (ymd2ord 2024 1 8) 25200200000)) None))
                 (Some "2");
         mkevent (Some (mkwhen (Some (mkdt (ymd2ord 2024 1 8) 28800000000)) None))
                 (Some (mkwhen (Some (mkdt (ymd2ord 2024 1 8) 28800300000)) None))
                 (Some "2") ]]
  = Ok [("Class", 0x1.999999999999ap-4%float); ("Side-Hustle", 0x1p-1%float)] /\
  simple_durations (civil 2024 1 7 0 0) (civil 2024 1 14 0 0) false
    [mkcal None
       [ mkevent (Some (mkwhen (Some (mkdt (ymd2ord 2024 1 8) 21600000000)) None))
                 (Some (mkwhen (Some (mkdt (ymd2ord 2024 1 8) 21600100000)) None))
                 (Some "1");
         mkevent (Some (mkwhen (Some (mkdt (ymd2ord 2024 1 8) 25200000000)) None))
                 (Some (mkwhen (Some (mkdt (ymd2ord 2024 1 8) 25200200000)) None))
                 (Some "2");
         mkevent (Some (mkwhen (Some (mkdt (ymd2ord 2024 1 8) 28800000000)) None))
                 (Some (mkwhen (Some (mkdt (ymd2ord 2024 1 8) 28800300000)) None))
                 (Some "2") ]]
  = [100000; 200000; 300000] /\
  float_sum
    (map snd [("Class", 0x1.999999999999ap-4%float); ("Side-Hustle", 0x1p-1%float)])
  <> float_sum (map total_seconds [100000; 200000; 300000]).
Proof.
  repeat split; try (vm_compute; reflexivity);
    intros H; apply (f_equal Prim2SF) in H; vm_compute in H; discriminate.
Qed.

Example end_to_end_exercise :
  Simple.aggregate (civil 2024 1 7 0 0) (civil 2024 1 14 0 0) false [] []
    [mkcal None
       [ mkevent (Some (mkwhen (Some (civil 2024 1 8 6 0)) None))
                 (Some (mkwhen (Some (civil 2024 1 8 7 30)) None))
                 (Some "9") ]]
  = Ok [("Exercise", 5400 * 1000000)].
Proof. reflexivity. Qed.

(** ** Report Formatter *)

(** C9. With an empty aggregation result neither script fails: the
    label-based script prints "No events found in this time window." and,
    when a CSV path is given, writes the header row [label,hours] and no
    data row; the raw-colour script prints "No events found in this
    window." and writes the header row [color_id,color,hours] and no data
    row. *)
Theorem empty_result_report :
  (forall pyfloat hours_of float_lt total_of console_row console_total csv_row
          csv date_range,
      let out :=
        Simple.report pyfloat hours_of float_lt total_of console_row console_total
          csv_row csv date_range [] in
      (exists line,
          In line (Simple.console out) /\ starts_with "No events found" line = true) /\
      Simple.csv_file out
      = if truthy csv then Some [["label"; "hours"]] else None) /\
  (forall pyfloat hours_of float_lt total_of console_row console_total float_str
          event_colors calendar_colors banner csv,
      let out :=
        Weekly.report pyfloat hours_of float_lt total_of console_row console_total
          float_str event_colors calendar_colors banner csv [] in
      (exists line,
          In line (Weekly.console out) /\ starts_with "No events found" line = true) /\
      Weekly.csv_file out = [["color_id"; "color"; "hours"]]).
Proof.
  split; intros; subst out.
  - split; [| reflexivity].
    exists "No events found in this time window.". split; [left |]; reflexivity.
  - split; [| reflexivity].
    exists "No events found in this window.". split; [| reflexivity].
    cbn. apply in_or_app. right. right. left. reflexivity.
Qed.

Section WeeklyRows.

Variable pyfloat : Type.
Variable hours_of : Z -> pyfloat.
Variable float_lt : pyfloat -> pyfloat -> bool.
Variables event_colors calendar_colors : dict (option string).

Lemma In_insert_desc (x y : Weekly.row pyfloat) (l : list (Weekly.row pyfloat)) :
  In y (Weekly.insert_desc pyfloat float_lt x l) <-> y = x \/ In y l.
Proof.
  induction l as [| z l IH]; cbn [Weekly.insert_desc In].
  - intuition congruence.
  - destruct (float_lt (Weekly.hours pyfloat z) (Weekly.hours pyfloat x));
      cbn [In]; rewrite ?IH; intuition congruence.
Qed.

Lemma In_sort_desc (y : Weekly.row pyfloat) (rows : list (Weekly.row pyfloat)) :
  In y (Weekly.sort_desc pyfloat float_lt rows) <-> In y rows.
Proof.
  unfold Weekly.sort_desc.
  assert (H : forall acc,
             In y (fold_left (fun acc x => Weekly.insert_desc pyfloat float_lt x acc)
                     rows acc)
             <-> In y rows \/ In y acc).
  { induction rows as [| x rows IH]; intros acc; cbn [fold_left In].
    - tauto.
    - rewrite IH, In_insert_desc. intuition congruence. }
  rewrite H. cbn [In]. tauto.
Qed.

(** Every row of the report comes from one aggregated key, with the text
    [color_label] gives that key. *)
Lemma In_build_rows (r : Weekly.row pyfloat) (totals : dict Z) :
  In r (Weekly.build_rows pyfloat hours_of float_lt event_colors calendar_colors totals)
  <-> exists cid secs,
      In (cid, secs) totals /\
      r = Weekly.mkrow pyfloat cid
            (Weekly.color_label event_colors calendar_colors cid) (hours_of secs).
Proof.
  unfold Weekly.build_rows. rewrite In_sort_desc, in_map_iff. split.
  - intros [[cid secs] [<- Hin]]. exists cid, secs. auto.
  - intros [cid [secs [Hin ->]]]. exists (cid, secs). auto.
Qed.

End WeeklyRows.

(** C10. In the raw-colour script an event whose colour id is absent or
    empty, on a calendar whose default colour id is absent or empty, is
    accumulated under the key "default"; when neither colour table has a
    key "default", that key is reported as "default (n/a)" in the console
    line and in the CSV row built for it. *)
Theorem uncoloured_event_reported_as_default
  (evt_color_id cal_default_color_id : option string)
  (event_colors calendar_colors : dict (option string)) :
  truthy evt_color_id = false ->
  truthy cal_default_color_id = false ->
  contains event_colors "default" = false ->
  contains calendar_colors "default" = false ->
  Weekly.color_key evt_color_id cal_default_color_id = "default" /\
  (forall week_start week_end ignore_all_day acc now st en s e is_all_day cs ce,
      Weekly.parse_event_times now (mkevent st en evt_color_id)
      = Ok (s, e, is_all_day) ->
      Weekly.clamp_interval s e week_start week_end = Some (cs, ce) ->
      is_all_day && negb (Weekly.count_all_day ignore_all_day) = false ->
      Weekly.process_event week_start week_end ignore_all_day cal_default_color_id
        acc (now, mkevent st en evt_color_id)
      = Ok (add_to acc "default" (elapsed_us ce cs))) /\
  Weekly.color_label event_colors calendar_colors "default" = "default (n/a)" /\
  (forall pyfloat hours_of float_lt total_of console_row console_total float_str
          banner csv totals secs,
      In ("default", secs) totals ->
      let rows :=
        Weekly.build_rows pyfloat hours_of float_lt event_colors calendar_colors
          totals in
      let out :=
        Weekly.report pyfloat hours_of float_lt total_of console_row console_total
          float_str event_colors calendar_colors banner csv totals in
      In ["default"; "default (n/a)"; float_str (hours_of secs)]
         (Weekly.csv_file out) /\
      In (console_row "default (n/a)" (hours_of secs)
            (total_of (map (Weekly.hours pyfloat) rows)))
         (Weekly.console out)).
Proof.
  intros He Hc Hec Hcc.
  assert (Hkey : Weekly.color_key evt_color_id cal_default_color_id = "default").
  { unfold Weekly.color_key. rewrite He, Hc. reflexivity. }
  assert (Hlabel : Weekly.color_label event_colors calendar_colors "default"
                   = "default (n/a)").
  { unfold Weekly.color_label, contains in *.
    destruct (get event_colors "default"); [discriminate |].
    destruct (get calendar_colors "default"); [discriminate |]. reflexivity. }
  split; [exact Hkey | split; [| split; [exact Hlabel |]]].
  - intros ws we ig acc now st en s e ad cs ce Hp Hcl Had.
    unfold Weekly.process_event. rewrite Hp. cbn [bind]. rewrite Hcl, Had.
    cbn [ev_colorId]. rewrite Hkey. reflexivity.
  - intros pyfloat hours_of float_lt total_of console_row console_total float_str
      banner csv totals secs Hin rows out.
    assert (Hrow : In (Weekly.mkrow pyfloat "default" "default (n/a)" (hours_of secs))
                      rows).
    { subst rows. apply In_build_rows. exists "default", secs.
      rewrite Hlabel. auto. }
    subst out. unfold Weekly.report. fold rows.
    cbn [Weekly.csv_file Weekly.console]. split.
    + right. apply in_map_iff.
      exists (Weekly.mkrow pyfloat "default" "default (n/a)" (hours_of secs)).
      split; [reflexivity | exact Hrow].
    + apply in_or_app. right. apply in_or_app. right. apply in_or_app. left.
      destruct rows as [| r0 rows0] eqn:Er; [contradiction |].
      apply in_or_app. left. apply in_map_iff.
      exists (Weekly.mkrow pyfloat "default" "default (n/a)" (hours_of secs)).
      split; [reflexivity | exact Hrow].
Qed.

(** An event without a colour on a calendar without a default colour, in
    the week of Sunday 2024-01-07, with Google's tables reduced to one
    entry each. *)
Lemma uncoloured_event_reported_as_default_witness :
  Weekly.aggregate (civil 2024 1 7 0 0) (civil 2024 1 14 0 0) false
    [mkcal None
       [ (civil 2024 1 15 8 0,
          mkevent (Some (mkwhen (Some (civil 2024 1 8 6 0)) None))
                  (Some (mkwhen (Some (civil 2024 1 8 7 30)) None))
                  (Some "")) ]]
  = Ok [("default", 5400 * 1000000)] /\
  Weekly.color_label [("1", Some "#a4bdfc")] [("1", Some "#ac725e")]
    (Weekly.color_key (Some "") None)
  = "default (n/a)".
Proof.
  split; [reflexivity |].
  destruct (uncoloured_event_reported_as_default (Some "") None
              [("1", Some "#a4bdfc")] [("1", Some "#ac725e")]
              eq_refl eq_refl eq_refl eq_refl) as [Hkey [_ [Hlabel _]]].
  rewrite Hkey. exact Hlabel.
Defined.

(** ** Hex parsing against the specification's 6-hex-digit strings *)

Lemma In_all_ascii (c : ascii) : In c all_ascii.
Proof.
  unfold all_ascii. rewrite <- (ascii_nat_embedding c).
  apply in_map, in_seq. pose proof (nat_ascii_bounded c). lia.
Qed.

Lemma all_pairs_checked :
  forallb (fun c1 => forallb (pair_checked c1) all_ascii) all_ascii = true.
Proof. vm_compute. reflexivity. Qed.

Lemma pair_checked_true (c1 c2 : ascii) : pair_checked c1 c2 = true.
Proof.
  pose proof all_pairs_checked as H. rewrite forallb_forall in H.
  specialize (H c1 (In_all_ascii c1)). rewrite forallb_forall in H.
  exact (H c2 (In_all_ascii c2)).
Qed.

(** [int(., 16)] on two characters accepts exactly the pairs of
    [pair_accepted]. *)
Lemma py_int16_two_chars (c1 c2 : ascii) :
  is_ok (py_int16 (String c1 (String c2 ""))) = pair_accepted c1 c2.
Proof.
  pose proof (pair_checked_true c1 c2) as H. unfold pair_checked in H.
  destruct (py_int16 (String c1 (String c2 ""))); cbn [is_ok].
  - apply andb_true_iff in H as [H _]. symmetry. exact H.
  - apply negb_true_iff in H. symmetry. exact H.
Qed.

Lemma py_int16_hex_pair (c1 c2 : ascii) :
  is_hex_digit c1 = true -> is_hex_digit c2 = true ->
  exists v, py_int16 (String c1 (String c2 "")) = Ok v /\ 0 <= v <= 255.
Proof.
  intros H1 H2. pose proof (pair_checked_true c1 c2) as H.
  unfold pair_checked, pair_accepted in H. rewrite H1, H2 in H. cbn in H.
  destruct (py_int16 (String c1 (String c2 ""))) as [v |]; [| discriminate].
  exists v. split; [reflexivity | lia].
Qed.

Lemma lstrip_hash_other (c : ascii) (r : string) :
  c <> "#"%char -> Simple.lstrip_hash (String c r) = String c r.
Proof.
  intros H.
  destruct c as [[|] [|] [|] [|] [|] [|] [|] [|]]; try reflexivity.
  exfalso. apply H. reflexivity.
Qed.

Lemma well_formed_hex_other (c : ascii) (r : string) :
  c <> "#"%char -> well_formed_hex (String c r) = six_hex_digits (String c r).
Proof.
  intros H.
  destruct c as [[|] [|] [|] [|] [|] [|] [|] [|]]; try reflexivity.
  exfalso. apply H. reflexivity.
Qed.

Lemma six_hex_digits_parse (s : string) :
  six_hex_digits s = true ->
  exists r g b,
    Simple.hex_to_rgb s = Ok (r, g, b) /\
    0 <= r <= 255 /\ 0 <= g <= 255 /\ 0 <= b <= 255.
Proof.
  unfold six_hex_digits. intros H. apply andb_true_iff in H as [Hl Hd].
  apply Nat.eqb_eq in Hl.
  destruct s as [| c0 [| c1 [| c2 [| c3 [| c4 [| c5 [| c6 s]]]]]]];
    try discriminate Hl.
  cbn [list_ascii_of_string forallb] in Hd.
  repeat (apply andb_true_iff in Hd as [? Hd]).
  assert (Hn : c0 <> "#"%char) by (intros ->; discriminate).
  unfold Simple.hex_to_rgb. rewrite (lstrip_hash_other c0 _ Hn).
  cbn [substring].
  destruct (py_int16_hex_pair c0 c1) as [r [-> Hr]]; try assumption.
  destruct (py_int16_hex_pair c2 c3) as [g [-> Hg]]; try assumption.
  destruct (py_int16_hex_pair c4 c5) as [b [-> Hb]]; try assumption.
  exists r, g, b. cbn [bind]. auto.
Qed.

(** Every string of the specification's form, six hex digits with or
    without one leading "#", is read as three integers in [0, 255]. *)
Lemma well_formed_hex_parses (s : string) :
  well_formed_hex s = true ->
  exists r g b,
    Simple.hex_to_rgb s = Ok (r, g, b) /\
    0 <= r <= 255 /\ 0 <= g <= 255 /\ 0 <= b <= 255.
Proof.
  destruct s as [| c s]; [discriminate |].
  destruct (ascii_dec c "#") as [-> | Hn].
  - cbn [well_formed_hex]. intros H.
    destruct (six_hex_digits_parse s H) as [r [g [b [E Hb]]]].
    exists r, g, b. split; [| exact Hb].
    unfold Simple.hex_to_rgb in *. exact E.
  - rewrite (well_formed_hex_other c s Hn). apply six_hex_digits_parse.
Qed.

(** Fewer than five characters after the leading "#"s: [hex_to_rgb]
    raises. *)
Lemma hex_to_rgb_short (s : string) :
  (String.length (Simple.lstrip_hash s) < 5)%nat ->
  is_ok (Simple.hex_to_rgb s) = false.
Proof.
  unfold Simple.hex_to_rgb. intros H.
  destruct (Simple.lstrip_hash s) as [| c0 [| c1 [| c2 [| c3 [| c4 r]]]]];
    cbn [String.length] in H; try lia; cbn [substring];
    repeat match goal with
    | |- context [bind (py_int16 ?x) _] =>
        destruct (py_int16 x) eqn:?; cbn [bind is_ok]; try reflexivity;
        try discriminate
    end.
Qed.

(** * Further properties of the code *)

(** ** Where the window lies relative to the clock *)

Lemma dt_le_spec (a b : datetime) :
  dt_le a b = true <->
  toordinal a < toordinal b \/ (toordinal a = toordinal b /\ micros a <= micros b).
Proof.
  rewrite dt_le_lt, negb_true_iff.
  destruct (dt_lt b a) eqn:E.
  - apply dt_lt_spec in E. split; [discriminate | lia].
  - split; [intros _ | reflexivity].
    destruct (Z_lt_le_dec (toordinal a) (toordinal b)) as [? | Hge]; [lia |].
    right.
    assert (Hn : ~ (toordinal b < toordinal a \/
                    (toordinal b = toordinal a /\ micros b < micros a))).
    { intros H. apply dt_lt_spec in H. congruence. }
    lia.
Qed.

(** [get_last_week_window]: on a Sunday the window is the week that ended
    at today's midnight, which is not after [now]; on every other day the
    window is the week in progress: it has started, and it ends after
    [now]. *)
Theorem get_last_week_window_position (now : datetime) :
  in_range now -> valid_time now ->
  exists start end_,
    Simple.get_last_week_window now = Ok (start, end_) /\
    (weekday now = 6 ->
       end_ = replace_midnight now /\ dt_le end_ now = true) /\
    (weekday now <> 6 ->
       dt_le start now = true /\ dt_lt now end_ = true).
Proof.
  intros Hr Hv. rewrite (get_last_week_window_formula now Hr).
  destruct now as [o u]. unfold valid_time, US_PER_DAY in Hv. cbn [micros] in Hv.
  unfold formula_window, replace_midnight, weekday. cbn [toordinal micros].
  destruct (days_since_sunday_cases o) as [[H6 H0] | [H6 [Hs Hb]]].
  - rewrite H0. cbn [Z.eqb toordinal]. eexists _, _. split; [reflexivity |].
    split; [intros _ | intros H; contradiction].
    replace (o - 7 + 7) with o by lia. split; [reflexivity |].
    apply dt_le_spec. cbn. lia.
  - rewrite Hs.
    assert (Hz : ((o + 6) mod 7 + 1 =? 0) = false) by (apply Z.eqb_neq; lia).
    rewrite Hz. cbn [toordinal]. eexists _, _. split; [reflexivity |].
    split; [intros H; contradiction | intros _]. split.
    + apply dt_le_spec. cbn. lia.
    + apply dt_lt_spec. cbn. lia.
Qed.

Lemma get_last_week_window_position_witness :
  exists start end_,
    Simple.get_last_week_window (civil 2024 1 10 15 45) = Ok (start, end_) /\
    dt_le start (civil 2024 1 10 15 45) = true /\
    dt_lt (civil 2024 1 10 15 45) end_ = true.
Proof.
  assert (Hr : in_range (civil 2024 1 10 15 45))
    by (vm_compute; split; discriminate).
  assert (Hv : valid_time (civil 2024 1 10 15 45))
    by (vm_compute; split; [discriminate | reflexivity]).
  destruct (get_last_week_window_position (civil 2024 1 10 15 45) Hr Hv)
    as [start [end_ [E [_ H]]]].
  exists start, end_. split; [exact E |]. apply H. vm_compute. discriminate.
Defined.

(** [last_sun_to_sat]: the window has always ended, at most six days before
    today: it is the most recent complete Sunday-to-Saturday week. *)
Theorem last_sun_to_sat_complete_week (now : datetime) :
  in_range now -> valid_time now ->
  exists start end_,
    Weekly.last_sun_to_sat now = Ok (start, end_) /\
    dt_le end_ now = true /\
    0 <= toordinal now - toordinal end_ <= 6 /\
    (weekday now = 6 -> end_ = replace_midnight now).
Proof.
  intros Hr Hv. rewrite (last_sun_to_sat_closed now Hr).
  destruct now as [o u]. unfold valid_time, US_PER_DAY in Hv. cbn [micros] in Hv.
  unfold weekday, replace_midnight. cbn [toordinal micros].
  assert (Hk : 0 <= ((o + 6) mod 7 + 1) mod 7 <= 6)
    by (Z.div_mod_to_equations; lia).
  eexists _, _. split; [reflexivity |]. cbn [toordinal]. repeat split; try lia.
  - apply dt_le_spec. cbn. lia.
  - intros H6. rewrite H6. cbn. f_equal. lia.
Qed.

Lemma last_sun_to_sat_complete_week_witness :
  exists start end_,
    Weekly.last_sun_to_sat (civil 2024 1 10 15 45) = Ok (start, end_) /\
    dt_le end_ (civil 2024 1 10 15 45) = true.
Proof.
  assert (Hr : in_range (civil 2024 1 10 15 45))
    by (vm_compute; split; discriminate).
  assert (Hv : valid_time (civil 2024 1 10 15 45))
    by (vm_compute; split; [discriminate | reflexivity]).
  destruct (last_sun_to_sat_complete_week (civil 2024 1 10 15 45) Hr Hv)
    as [start [end_ [E [H _]]]].
  exists start, end_. split; [exact E | exact H].
Defined.

(** In the first week of year 1 the week arithmetic leaves the range of
    [datetime] and both functions raise [OverflowError]. *)
Theorem week_window_overflow (now : datetime) :
  1 <= toordinal now <= 7 ->
  Simple.get_last_week_window now = Raise OverflowError /\
  Weekly.last_sun_to_sat now = Raise OverflowError.
Proof.
  destruct now as [o u]. cbn [toordinal]. intros Ho.
  unfold Simple.get_last_week_window, Weekly.last_sun_to_sat,
    replace_midnight, weekday, sub_days, add_days. cbn [toordinal micros].
  destruct (days_since_sunday_cases o) as [[H6 H0] | [H6 [Hs Hb]]].
  - rewrite H0, H6. cbn [Z.eqb Pos.eqb].
    assert (E1 : (0 <? o + - (7)) = false) by (apply Z.ltb_ge; lia).
    rewrite E1. cbn [andb bind]. split; [reflexivity |].
    replace (o + - 0) with o by lia.
    assert (E2 : (0 <? o) && (o <=? MAXORDINAL) = true).
    { apply andb_true_iff. split; [apply Z.ltb_lt | apply Z.leb_le];
        unfold MAXORDINAL; lia. }
    rewrite E2. cbn [bind toordinal micros]. rewrite E1. reflexivity.
  - rewrite Hs. apply Z.eqb_neq in H6. rewrite H6.
    assert (Hm : (o + 6) mod 7 + 1 = o) by (Z.div_mod_to_equations; lia).
    rewrite Hm.
    assert (E1 : (0 <? o + - o) = false) by (apply Z.ltb_ge; lia).
    rewrite E1. cbn [andb bind]. split; reflexivity.
Qed.

Lemma week_window_overflow_witness :
  1 <= toordinal (civil 1 1 3 12 0) <= 7 /\
  Simple.get_last_week_window (civil 1 1 3 12 0) = Raise OverflowError /\
  Weekly.last_sun_to_sat (civil 1 1 3 12 0) = Raise OverflowError.
Proof.
  assert (H : 1 <= toordinal (civil 1 1 3 12 0) <= 7)
    by (vm_compute; split; discriminate).
  split; [exact H |].
  exact (week_window_overflow (civil 1 1 3 12 0) H).
Defined.

(** ** What clipping keeps of an event *)

(** For times of day inside their day the order on datetimes is the order
    of elapsed microseconds. *)
Lemma dt_lt_elapsed (a b : datetime) :
  valid_time a -> valid_time b ->
  (dt_lt a b = true <-> 0 < elapsed_us b a).
Proof.
  unfold valid_time, elapsed_us, US_PER_DAY. rewrite dt_lt_spec. lia.
Qed.

Lemma dt_nlt_elapsed (a b : datetime) :
  valid_time a -> valid_time b ->
  (dt_lt a b = false <-> elapsed_us b a <= 0).
Proof.
  intros Ha Hb. pose proof (dt_lt_elapsed a b Ha Hb) as H.
  destruct (dt_lt a b); split; intros; try reflexivity; try discriminate.
  - assert (0 < elapsed_us b a) by (apply H; reflexivity). lia.
  - destruct (Z_lt_le_dec 0 (elapsed_us b a)) as [H1 | H1]; [| exact H1].
    apply H in H1. discriminate.
Qed.

Lemma clip_elapsed_bounds (s e start end_ cs ce : datetime) :
  valid_time s -> valid_time e -> valid_time start -> valid_time end_ ->
  Simple.clip s e start end_ = Some (cs, ce) ->
  0 < elapsed_us ce cs /\
  elapsed_us ce cs <= elapsed_us e s /\
  elapsed_us ce cs <= elapsed_us end_ start.
Proof.
  intros Hs He Hst Hen H. rewrite clip_unfold in H.
  destruct (dt_lt (py_max s start) (py_min e end_)) eqn:E; [| discriminate].
  injection H as <- <-.
  assert (Hcs : valid_time (py_max s start))
    by (destruct (py_max_cases s start) as [[_ ->] | [_ ->]]; assumption).
  assert (Hce : valid_time (py_min e end_))
    by (destruct (py_min_cases e end_) as [[_ ->] | [_ ->]]; assumption).
  apply (dt_lt_elapsed _ _ Hcs Hce) in E.
  pose proof (proj1 (dt_nlt_elapsed _ _ Hcs Hs) (py_max_ub_l s start)) as H1.
  pose proof (proj1 (dt_nlt_elapsed _ _ Hcs Hst) (py_max_ub_r s start)) as H2.
  pose proof (proj1 (dt_nlt_elapsed _ _ He Hce) (py_min_lb_l e end_)) as H3.
  pose proof (proj1 (dt_nlt_elapsed _ _ Hen Hce) (py_min_lb_r e end_)) as H4.
  unfold elapsed_us in *. lia.
Qed.

(** An overlap returned by [clip] or [clamp_interval] has a positive
    duration, no longer than the event and no longer than the window. *)
Theorem clip_duration_bounds (s e start end_ cs ce : datetime) :
  valid_time s -> valid_time e -> valid_time start -> valid_time end_ ->
  Simple.clip s e start end_ = Some (cs, ce)
  \/ Weekly.clamp_interval s e start end_ = Some (cs, ce) ->
  0 < elapsed_us ce cs /\
  elapsed_us ce cs <= elapsed_us e s /\
  elapsed_us ce cs <= elapsed_us end_ start.
Proof.
  intros Hs He Hst Hen [H | H].
  - eapply clip_elapsed_bounds; eassumption.
  - rewrite (clamp_interval_clip s e start end_) in H.
    eapply clip_elapsed_bounds; eassumption.
Qed.

(** The all-day event 2024-01-06 .. 2024-01-08 keeps exactly one day of
    the week of Sunday 2024-01-07. *)
Lemma clip_duration_bounds_witness :
  0 < elapsed_us (civil 2024 1 8 0 0) (civil 2024 1 7 0 0)
  /\ elapsed_us (civil 2024 1 8 0 0) (civil 2024 1 7 0 0)
     <= elapsed_us (civil 2024 1 8 0 0) (civil 2024 1 6 0 0)
  /\ elapsed_us (civil 2024 1 8 0 0) (civil 2024 1 7 0 0)
     <= elapsed_us (civil 2024 1 14 0 0) (civil 2024 1 7 0 0).
Proof.
  apply (clip_duration_bounds
           (civil 2024 1 6 0 0) (civil 2024 1 8 0 0)
           (civil 2024 1 7 0 0) (civil 2024 1 14 0 0));
    try (vm_compute; split; [discriminate | reflexivity]).
  left. reflexivity.
Defined.

Lemma clip_inside_and_covering_cases (s e start end_ : datetime) :
  (dt_le start s = true -> dt_le e end_ = true -> dt_lt s e = true ->
   Simple.clip s e start end_ = Some (s, e)) /\
  (dt_le s start = true -> dt_le end_ e = true -> dt_lt start end_ = true ->
   Simple.clip s e start end_ = Some (start, end_)).
Proof.
  rewrite !dt_le_lt, !negb_true_iff. split; intros H1 H2 H3; rewrite clip_unfold.
  - assert (Es : py_max s start = s).
    { destruct (py_max_cases s start) as [[H _] | [_ ->]]; congruence. }
    assert (Ee : py_min e end_ = e).
    { destruct (py_min_cases e end_) as [[H _] | [_ ->]]; congruence. }
    rewrite Es, Ee, H3. reflexivity.
  - assert (Es : py_max s start = start).
    { destruct (py_max_cases s start) as [[_ ->] | [H ->]]; [reflexivity |].
      destruct (dt_lt_total s start) as [? | [? | ?]]; congruence. }
    assert (Ee : py_min e end_ = end_).
    { destruct (py_min_cases e end_) as [[_ ->] | [H ->]]; [reflexivity |].
      destruct (dt_lt_total e end_) as [? | [? | ?]]; congruence. }
    rewrite Es, Ee, H3. reflexivity.
Qed.

(** An event inside the window is returned whole, and an event that
    covers the window is cut to the window. *)
Theorem clip_inside_and_covering (s e start end_ : datetime) :
  (dt_le start s = true -> dt_le e end_ = true -> dt_lt s e = true ->
   Simple.clip s e start end_ = Some (s, e) /\
   Weekly.clamp_interval s e start end_ = Some (s, e)) /\
  (dt_le s start = true -> dt_le end_ e = true -> dt_lt start end_ = true ->
   Simple.clip s e start end_ = Some (start, end_) /\
   Weekly.clamp_interval s e start end_ = Some (start, end_)).
Proof.
  rewrite (clamp_interval_clip s e start end_).
  destruct (clip_inside_and_covering_cases s e start end_) as [H1 H2].
  split; intros; split; auto.
Qed.

Lemma clip_inside_and_covering_witness :
  Simple.clip (civil 2024 1 1 0 0) (civil 2024 2 1 0 0)
              (civil 2024 1 7 0 0) (civil 2024 1 14 0 0)
  = Some (civil 2024 1 7 0 0, civil 2024 1 14 0 0).
Proof.
  apply (proj2 (clip_inside_and_covering
                  (civil 2024 1 1 0 0) (civil 2024 2 1 0 0)
                  (civil 2024 1 7 0 0) (civil 2024 1 14 0 0)));
    reflexivity.
Defined.

(** ** Reading event times *)

Ltac destruct_binds :=
  repeat match goal with
         | |- context [bind ?m _] =>
             let E := fresh "E" in destruct m eqn:E; cbn [bind getitem]
         end.

(** Reading the ISO texts of an event, [fromisoformat] being free to
    return or to raise on each text.  Whenever [parse_event_times] of the
    label-based script returns, the one of the raw-colour script returns the
    same triple, whatever its clock shows; whenever the raw-colour one
    raises, the label-based one raises the same exception.  What the
    raw-colour one raises is [KeyError] or what [fromisoformat] raised on
    one of the texts of the event.  And when every text that is present can
    be decoded, both are the functions of the modules [Simple] and [Weekly]
    on the decoded event, and the raw-colour one raises only [KeyError],
    exactly when [start] has "dateTime" and [end] lacks it, or [start] has
    only "date" and [end] lacks "date". *)
Theorem parse_event_times_agree
  (datetime_fromisoformat : string -> result datetime)
  (date_fromisoformat : string -> result Z)
  (now : datetime) (raw : event_text) :
  (forall t,
      SimpleText.parse_event_times datetime_fromisoformat date_fromisoformat raw = Ok t ->
      WeeklyText.parse_event_times datetime_fromisoformat date_fromisoformat now raw
      = Ok t) /\
  (forall e,
      WeeklyText.parse_event_times datetime_fromisoformat date_fromisoformat now raw
      = Raise e ->
      SimpleText.parse_event_times datetime_fromisoformat date_fromisoformat raw
      = Raise e) /\
  (forall e,
      WeeklyText.parse_event_times datetime_fromisoformat date_fromisoformat now raw
      = Raise e ->
      e = KeyError \/
      (exists t,
          (dateTime_text (get_when_text (text_start raw)) = Some t \/
           dateTime_text (get_when_text (text_end raw)) = Some t) /\
          datetime_fromisoformat t = Raise e) \/
      (exists t,
          (date_text (get_when_text (text_start raw)) = Some t \/
           date_text (get_when_text (text_end raw)) = Some t) /\
          date_fromisoformat t = Raise e)) /\
  (forall evt,
      denotes datetime_fromisoformat date_fromisoformat raw evt ->
      SimpleText.parse_event_times datetime_fromisoformat date_fromisoformat raw
      = Simple.parse_event_times evt /\
      WeeklyText.parse_event_times datetime_fromisoformat date_fromisoformat now raw
      = Weekly.parse_event_times now evt /\
      (forall e,
          WeeklyText.parse_event_times datetime_fromisoformat date_fromisoformat now raw
          = Raise e <->
          e = KeyError /\
          ((dateTime_text (get_when_text (text_start raw)) <> None /\
            dateTime_text (get_when_text (text_end raw)) = None) \/
           (dateTime_text (get_when_text (text_start raw)) = None /\
            date_text (get_when_text (text_start raw)) <> None /\
            date_text (get_when_text (text_end raw)) = None)))).
Proof.
  unfold SimpleText.parse_event_times, WeeklyText.parse_event_times, denotes,
    denotes_when, Simple.parse_event_times, Weekly.parse_event_times.
  cbv zeta.
  destruct (dateTime_text (get_when_text (text_start raw))) as [t1 |];
    destruct (dateTime_text (get_when_text (text_end raw))) as [t2 |];
    destruct (date_text (get_when_text (text_start raw))) as [t3 |];
    destruct (date_text (get_when_text (text_end raw))) as [t4 |];
    cbn [getitem bind].
  all: split; [| split; [| split]].
  all: try (intros t; destruct_binds; intros; congruence).
  all: try (intros e; destruct_binds; intros; congruence).
  all: try (intros e; destruct_binds; intros H; try discriminate; injection H as <-;
            first [ left; reflexivity
                  | right; left; eexists; split; [left; reflexivity | eassumption]
                  | right; left; eexists; split; [right; reflexivity | eassumption]
                  | right; right; eexists; split; [left; reflexivity | eassumption]
                  | right; right; eexists; split; [right; reflexivity | eassumption] ]).
  all: intros evt [[H1 H2] [H3 H4]];
    destruct (dateTime (get_when (ev_start evt)));
    destruct (date (get_when (ev_start evt)));
    destruct (dateTime (get_when (ev_end evt)));
    destruct (date (get_when (ev_end evt)));
    try contradiction.
  all: repeat match goal with H : _ = Ok _ |- _ => rewrite H; clear H end;
    cbn [bind getitem];
    (split; [reflexivity | split; [reflexivity |]]);
    intros e; split.
  all: try (intros [-> [[A B] | [A [B C]]]]; congruence).
  all: try discriminate.
  all: intros [= <-]; split; [reflexivity |];
    first [left; split; congruence | right; repeat split; congruence].
Qed.

(** A timed event is returned with the two values of its "dateTime" keys
    and is not all-day, also when "date" keys are present; an event with
    only "date" keys is all-day and runs from midnight to midnight. *)
Theorem parse_event_times_shapes (now : datetime) (evt : event) (s e : datetime)
  (is_all_day : bool) :
  Weekly.parse_event_times now evt = Ok (s, e, is_all_day) ->
  dateTime (get_when (ev_start evt)) <> None \/ date (get_when (ev_start evt)) <> None ->
  (is_all_day = false ->
     dateTime (get_when (ev_start evt)) = Some s /\
     dateTime (get_when (ev_end evt)) = Some e) /\
  (is_all_day = true ->
     dateTime (get_when (ev_start evt)) = None /\
     date (get_when (ev_start evt)) = Some (toordinal s) /\
     date (get_when (ev_end evt)) = Some (toordinal e) /\
     micros s = 0 /\ micros e = 0) /\
  Simple.parse_event_times evt = Ok (s, e, is_all_day).
Proof.
  unfold Simple.parse_event_times, Weekly.parse_event_times. cbv zeta.
  destruct (dateTime (get_when (ev_start evt))) as [sd |];
    destruct (dateTime (get_when (ev_end evt))) as [ed |];
    destruct (date (get_when (ev_start evt))) as [sdate |];
    destruct (date (get_when (ev_end evt))) as [edate |];
    cbn [getitem bind]; intros H Hk; try discriminate;
    try (injection H as <- <- <-);
    try (destruct Hk; congruence);
    repeat split; intros; try discriminate; reflexivity.
Qed.

Lemma parse_event_times_shapes_witness :
  Simple.parse_event_times
    (mkevent (Some (mkwhen None (Some (ymd2ord 2024 1 6))))
             (Some (mkwhen None (Some (ymd2ord 2024 1 8)))) None)
  = Ok (civil 2024 1 6 0 0, civil 2024 1 8 0 0, true).
Proof.
  apply (parse_event_times_shapes (civil 2024 1 10 0 0)).
  - reflexivity.
  - right. discriminate.
Defined.

(** An all-day event whose start date reads "2024-13-01": with a
    [date.fromisoformat] that raises [ValueError] on that text, the
    raw-colour script raises [ValueError], and so does the label-based
    one. *)
Lemma parse_event_times_agree_witness :
  SimpleText.parse_event_times
    (fun t => if (t =? "2024-01-08T06:00:00-06:00")%string
              then Ok (civil 2024 1 8 6 0) else Raise ValueError)
    (fun t => if (t =? "2024-01-07")%string
              then Ok (ymd2ord 2024 1 7) else Raise ValueError)
    (mkevent_text (Some (mkwhen_text None (Some "2024-13-01")))
                  (Some (mkwhen_text None (Some "2024-01-07"))))
  = Raise ValueError.
Proof.
  apply (proj1 (proj2 (parse_event_times_agree
                         (fun t => if (t =? "2024-01-08T06:00:00-06:00")%string
                                   then Ok (civil 2024 1 8 6 0) else Raise ValueError)
                         (fun t => if (t =? "2024-01-07")%string
                                   then Ok (ymd2ord 2024 1 7) else Raise ValueError)
                         (civil 2024 1 10 0 0)
                         (mkevent_text (Some (mkwhen_text None (Some "2024-13-01")))
                                       (Some (mkwhen_text None (Some "2024-01-07"))))))).
  reflexivity.
Defined.

(** ** What [hex_to_rgb] reads *)

Lemma py_int16_raises (s : string) (e : exn) :
  py_int16 s = Raise e -> e = ValueError.
Proof.
  unfold py_int16.
  repeat match goal with
         | |- context [let '(_, _) := ?x in _] => destruct x
         | |- context [match ?x with Some _ => _ | None => _ end] => destruct x
         | |- context [match ?x with String _ _ => _ | EmptyString => _ end] =>
             destruct x
         | |- context [if ?x then _ else _] => destruct x
         end; congruence.
Qed.

Lemma hex_to_rgb_raises (s : string) (e : exn) :
  Simple.hex_to_rgb s = Raise e -> e = ValueError.
Proof.
  unfold Simple.hex_to_rgb.
  repeat match goal with
         | |- context [bind (py_int16 ?x) _] =>
             destruct (py_int16 x) eqn:?; cbn [bind]
         end; try discriminate;
    intros [= <-]; eapply py_int16_raises; eassumption.
Qed.

Lemma all_short_bounded :
  forallb (fun c1 => forallb (short_bounded c1) all_ascii) all_ascii = true.
Proof. vm_compute. reflexivity. Qed.

Lemma py_int16_short_bound (s : string) (v : Z) :
  (String.length s <= 2)%nat -> py_int16 s = Ok v -> -255 <= v <= 255.
Proof.
  intros Hl H.
  assert (Hb : forall c1 c2, short_bounded c1 c2 = true).
  { intros c1 c2. pose proof all_short_bounded as A. rewrite forallb_forall in A.
    specialize (A c1 (In_all_ascii c1)). rewrite forallb_forall in A.
    exact (A c2 (In_all_ascii c2)). }
  destruct s as [| c1 [| c2 [| c3 s]]]; cbn [String.length] in Hl; try lia.
  - discriminate.
  - specialize (Hb c1 c1). unfold short_bounded in Hb.
    apply andb_true_iff in Hb as [_ Hb]. rewrite H in Hb. cbn in Hb. lia.
  - specialize (Hb c1 c2). unfold short_bounded in Hb.
    apply andb_true_iff in Hb as [Hb _]. rewrite H in Hb. cbn in Hb. lia.
Qed.

Lemma substring_length_le (n m : nat) (s : string) :
  (String.length (substring n m s) <= m)%nat.
Proof.
  revert n m. induction s as [| c s IH]; intros [| n] [| m]; cbn; try lia.
  - specialize (IH 0%nat m). lia.
  - apply (IH n 0%nat).
  - apply (IH n (S m)).
Qed.

Lemma lstrip_hash_head (s : string) :
  match Simple.lstrip_hash s with
  | String c _ => c <> "#"%char
  | EmptyString => True
  end.
Proof.
  induction s as [| c s IH]; [exact I |].
  destruct (ascii_dec c "#") as [-> | Hn].
  - exact IH.
  - rewrite (lstrip_hash_other c s Hn). exact Hn.
Qed.

Lemma lstrip_hash_app (s tail : string) :
  Simple.lstrip_hash s <> "" ->
  Simple.lstrip_hash (s ++ tail) = (Simple.lstrip_hash s ++ tail)%string.
Proof.
  induction s as [| c s IH]; [intros H; exfalso; apply H; reflexivity |].
  destruct (ascii_dec c "#") as [-> | Hn].
  - exact IH.
  - intros _. cbn [append]. rewrite !(lstrip_hash_other c _ Hn). reflexivity.
Qed.

Lemma hex_to_rgb_component_bounds (s : string) (r g b : Z) :
  Simple.hex_to_rgb s = Ok (r, g, b) ->
  -255 <= r <= 255 /\ -255 <= g <= 255 /\ -255 <= b <= 255.
Proof.
  unfold Simple.hex_to_rgb.
  destruct (py_int16 (substring 0 2 (Simple.lstrip_hash s))) as [r' |] eqn:Er;
    cbn [bind]; [| discriminate].
  destruct (py_int16 (substring 2 2 (Simple.lstrip_hash s))) as [g' |] eqn:Eg;
    cbn [bind]; [| discriminate].
  destruct (py_int16 (substring 4 2 (Simple.lstrip_hash s))) as [b' |] eqn:Eb;
    cbn [bind]; [| discriminate].
  intros [= <- <- <-].
  repeat split;
    eapply py_int16_short_bound; try eassumption; apply substring_length_le.
Qed.

(** [hex_to_rgb] drops every leading "#", reads the next six characters
    and nothing after them, raises nothing but [ValueError], and each
    component it returns lies between -255 and 255. *)
Theorem hex_to_rgb_reads_six (s : string) :
  Simple.hex_to_rgb (String "#" s) = Simple.hex_to_rgb s /\
  (forall tail, (6 <= String.length (Simple.lstrip_hash s))%nat ->
                Simple.hex_to_rgb (s ++ tail) = Simple.hex_to_rgb s) /\
  (forall e, Simple.hex_to_rgb s = Raise e -> e = ValueError) /\
  (forall r g b, Simple.hex_to_rgb s = Ok (r, g, b) ->
                 -255 <= r <= 255 /\ -255 <= g <= 255 /\ -255 <= b <= 255).
Proof.
  split; [reflexivity | split; [| split]].
  - intros tail Hl. unfold Simple.hex_to_rgb.
    rewrite lstrip_hash_app by (intros E; rewrite E in Hl; cbn in Hl; lia).
    destruct (Simple.lstrip_hash s)
      as [| c0 [| c1 [| c2 [| c3 [| c4 [| c5 t]]]]]];
      cbn [String.length] in Hl; try lia.
    cbn [append substring].
    replace (substring 0 0 (t ++ tail)) with (substring 0 0 t)
      by (destruct t, tail; reflexivity).
    reflexivity.
  - apply hex_to_rgb_raises.
  - apply hex_to_rgb_component_bounds.
Qed.

Lemma hex_to_rgb_reads_six_witness :
  Simple.hex_to_rgb ("#dc2127" ++ "ff") = Ok (220, 33, 39).
Proof.
  rewrite (proj1 (proj2 (hex_to_rgb_reads_six "#dc2127")) "ff").
  - reflexivity.
  - cbn. lia.
Defined.

Lemma well_formed_hex_parses_witness :
  exists r g b,
    Simple.hex_to_rgb "#5484ed" = Ok (r, g, b) /\
    0 <= r <= 255 /\ 0 <= g <= 255 /\ 0 <= b <= 255.
Proof. apply (well_formed_hex_parses "#5484ed"). reflexivity. Defined.

Lemma hex_to_rgb_short_witness :
  is_ok (Simple.hex_to_rgb "#abcd") = false.
Proof. apply (hex_to_rgb_short "#abcd"). cbn. lia. Defined.

(** ** The nearest event colour *)

Lemma truthy_Some (hx : string) : truthy (Some hx) = true <-> hx <> "".
Proof.
  cbn [truthy]. rewrite negb_true_iff. split.
  - intros H ->. discriminate.
  - intros H. apply String.eqb_neq. exact H.
Qed.

Lemma truthy_false_cases (v : option string) :
  truthy v = false -> v = None \/ v = Some "".
Proof.
  destruct v as [hx |]; [| auto]. cbn [truthy]. rewrite negb_false_iff.
  intros H. apply String.eqb_eq in H. subst. auto.
Qed.

Lemma rgb_distance_nonneg (c1 c2 : Z * Z * Z) : 0 <= rgb_distance c1 c2.
Proof.
  destruct c1 as [[r g] b], c2 as [[er eg] eb]. unfold rgb_distance.
  rewrite !Z.pow_2_r.
  pose proof (Z.square_nonneg (r - er)).
  pose proof (Z.square_nonneg (g - eg)).
  pose proof (Z.square_nonneg (b - eb)). lia.
Qed.

Lemma rgb_distance_zero (c1 c2 : Z * Z * Z) :
  rgb_distance c1 c2 = 0 <-> c1 = c2.
Proof.
  destruct c1 as [[r g] b], c2 as [[er eg] eb]. unfold rgb_distance.
  rewrite !Z.pow_2_r. split.
  - intros H.
    pose proof (Z.square_nonneg (r - er)).
    pose proof (Z.square_nonneg (g - eg)).
    pose proof (Z.square_nonneg (b - eb)).
    assert (Hr : (r - er) * (r - er) = 0) by lia.
    assert (Hg : (g - eg) * (g - eg) = 0) by lia.
    assert (Hb : (b - eb) * (b - eb) = 0) by lia.
    apply Z.mul_eq_0 in Hr, Hg, Hb.
    repeat f_equal; lia.
  - intros [= -> -> ->]. lia.
Qed.

(** The loop keeps the first entry at the least distance below [best_d],
    if there is one, and [best_id] otherwise. *)
Lemma nearest_loop_first_minimum (r g b : Z) (items : dict (option string)) :
  forall best_id best_d res,
    Simple.nearest_loop r g b items best_id best_d = Ok res ->
    (res = best_id /\
     forall cid hx c', In (cid, Some hx) items -> hx <> "" ->
                       Simple.hex_to_rgb hx = Ok c' ->
                       best_d <= rgb_distance (r, g, b) c')
    \/
    (exists l1 cid hx c' l2,
        items = (l1 ++ (cid, Some hx) :: l2)%list /\ res = Some cid /\
        hx <> "" /\ Simple.hex_to_rgb hx = Ok c' /\
        rgb_distance (r, g, b) c' < best_d /\
        (forall cid1 hx1 c1, In (cid1, Some hx1) l1 -> hx1 <> "" ->
                             Simple.hex_to_rgb hx1 = Ok c1 ->
                             rgb_distance (r, g, b) c' < rgb_distance (r, g, b) c1) /\
        (forall cid2 hx2 c2, In (cid2, Some hx2) l2 -> hx2 <> "" ->
                             Simple.hex_to_rgb hx2 = Ok c2 ->
                             rgb_distance (r, g, b) c' <= rgb_distance (r, g, b) c2)).
Proof.
  induction items as [| [k ehx] rest IH]; intros best_id best_d res H.
  - injection H as <-. left. split; [reflexivity | intros ? ? ? []].
  - cbn [Simple.nearest_loop] in H.
    destruct (truthy ehx) eqn:Et; cbn [negb] in H.
    + destruct ehx as [hx0 |]; [| discriminate]. cbn [str] in H.
      apply truthy_Some in Et.
      destruct (Simple.hex_to_rgb hx0) as [[[er eg] eb] |] eqn:E0;
        cbn [bind] in H; [| discriminate].
      change ((r - er) ^ 2 + (g - eg) ^ 2 + (b - eb) ^ 2)
        with (rgb_distance (r, g, b) (er, eg, eb)) in H.
      set (d0 := rgb_distance (r, g, b) (er, eg, eb)) in *.
      destruct (d0 <? best_d) eqn:Ed.
      * apply Z.ltb_lt in Ed.
        destruct (IH _ _ _ H)
          as [[-> Hall] | (l1 & cid & hx & c' & l2 & -> & -> & Hx & Ec & Hlt & H1 & H2)].
        -- right. exists [], k, hx0, (er, eg, eb), rest.
           split; [reflexivity |]. split; [reflexivity |].
           split; [exact Et |]. split; [exact E0 |]. split; [exact Ed |].
           split; [intros ? ? ? [] | exact Hall].
        -- right. exists ((k, Some hx0) :: l1), cid, hx, c', l2.
           split; [reflexivity |]. split; [reflexivity |].
           split; [exact Hx |]. split; [exact Ec |]. split; [lia |].
           split; [| exact H2].
           intros cid1 hx1 c1 [[= <- <-] | Hin] Hx1 E1.
           ++ rewrite E0 in E1. injection E1 as <-. exact Hlt.
           ++ eapply H1; eassumption.
      * apply Z.ltb_ge in Ed.
        destruct (IH _ _ _ H)
          as [[-> Hall] | (l1 & cid & hx & c' & l2 & -> & -> & Hx & Ec & Hlt & H1 & H2)].
        -- left. split; [reflexivity |].
           intros cid hx c' [[= <- <-] | Hin] Hx Ec.
           ++ rewrite E0 in Ec. injection Ec as <-. exact Ed.
           ++ eapply Hall; eassumption.
        -- right. exists ((k, Some hx0) :: l1), cid, hx, c', l2.
           split; [reflexivity |]. split; [reflexivity |].
           split; [exact Hx |]. split; [exact Ec |]. split; [exact Hlt |].
           split; [| exact H2].
           intros cid1 hx1 c1 [[= <- <-] | Hin] Hx1 E1.
           ++ rewrite E0 in E1. injection E1 as <-. fold d0. lia.
           ++ eapply H1; eassumption.
    + destruct (IH _ _ _ H)
        as [[-> Hall] | (l1 & cid & hx & c' & l2 & -> & -> & Hx & Ec & Hlt & H1 & H2)].
      * left. split; [reflexivity |].
        intros cid hx c' [[= -> ->] | Hin] Hx Ec.
        -- apply truthy_Some in Hx. congruence.
        -- eapply Hall; eassumption.
      * right. exists ((k, ehx) :: l1), cid, hx, c', l2.
        split; [reflexivity |]. split; [reflexivity |].
        split; [exact Hx |]. split; [exact Ec |]. split; [exact Hlt |].
        split; [| exact H2].
        intros cid1 hx1 c1 [[= -> ->] | Hin] Hx1 E1.
        -- apply truthy_Some in Hx1. congruence.
        -- eapply H1; eassumption.
Qed.

(** The id [nearest_event_color_id] returns is a key of the event colour
    table whose background is strictly nearer to the given colour than
    every readable background before it in the table and at least as near
    as every one after it: the first of the nearest entries. *)
Theorem nearest_event_color_id_first_minimum
  (hex_color : string) (event_hex_map : dict (option string)) (cid : string) :
  Simple.nearest_event_color_id hex_color event_hex_map = Ok (Some cid) ->
  exists c l1 hx c' l2,
    Simple.hex_to_rgb hex_color = Ok c /\
    event_hex_map = (l1 ++ (cid, Some hx) :: l2)%list /\
    hx <> "" /\ Simple.hex_to_rgb hx = Ok c' /\
    (forall cid1 hx1 c1, In (cid1, Some hx1) l1 -> hx1 <> "" ->
                         Simple.hex_to_rgb hx1 = Ok c1 ->
                         rgb_distance c c' < rgb_distance c c1) /\
    (forall cid2 hx2 c2, In (cid2, Some hx2) l2 -> hx2 <> "" ->
                         Simple.hex_to_rgb hx2 = Ok c2 ->
                         rgb_distance c c' <= rgb_distance c c2).
Proof.
  unfold Simple.nearest_event_color_id.
  destruct (Simple.hex_to_rgb hex_color) as [[[r g] b] |]; [| discriminate].
  intros H.
  destruct (nearest_loop_first_minimum r g b event_hex_map _ _ _ H)
    as [[E _] | (l1 & cid' & hx & c' & l2 & E & [= <-] & Hx & Ec & _ & H1 & H2)];
    [discriminate |].
  exists (r, g, b), l1, hx, c', l2. auto 10.
Qed.

(** Google's event colours 9 to 11 and the calendar colour "#d06b64":
    Tomato, id 11, is the nearest. *)
Lemma nearest_event_color_id_first_minimum_witness :
  exists c l1 hx c' l2,
    Simple.hex_to_rgb "#d06b64" = Ok c /\
    [("9", Some "#5484ed"); ("10", Some "#51b749"); ("11", Some "#dc2127")]
    = (l1 ++ ("11", Some hx) :: l2)%list /\
    hx <> "" /\ Simple.hex_to_rgb hx = Ok c' /\
    (forall cid1 hx1 c1, In (cid1, Some hx1) l1 -> hx1 <> "" ->
                         Simple.hex_to_rgb hx1 = Ok c1 ->
                         rgb_distance c c' < rgb_distance c c1) /\
    (forall cid2 hx2 c2, In (cid2, Some hx2) l2 -> hx2 <> "" ->
                         Simple.hex_to_rgb hx2 = Ok c2 ->
                         rgb_distance c c' <= rgb_distance c c2).
Proof.
  apply (nearest_event_color_id_first_minimum "#d06b64"
           [("9", Some "#5484ed"); ("10", Some "#51b749"); ("11", Some "#dc2127")]).
  reflexivity.
Defined.

Lemma rgb_distance_small (s1 s2 : string) (c1 c2 : Z * Z * Z) :
  Simple.hex_to_rgb s1 = Ok c1 -> Simple.hex_to_rgb s2 = Ok c2 ->
  rgb_distance c1 c2 < 10 ^ 9.
Proof.
  destruct c1 as [[r g] b], c2 as [[er eg] eb]. intros H1 H2.
  apply hex_to_rgb_component_bounds in H1, H2.
  unfold rgb_distance. rewrite !Z.pow_2_r.
  assert (Hsq : forall x, -510 <= x <= 510 -> x * x <= 260100) by (intros; nia).
  pose proof (Hsq (r - er)). pose proof (Hsq (g - eg)). pose proof (Hsq (b - eb)).
  change (10 ^ 9) with 1000000000. lia.
Qed.

Lemma nearest_loop_ok_parses (r g b : Z) (items : dict (option string)) :
  forall best_id best_d res,
    Simple.nearest_loop r g b items best_id best_d = Ok res ->
    table_parses items = true.
Proof.
  induction items as [| [k ehx] rest IH]; intros best_id best_d res H;
    [reflexivity |].
  cbn [Simple.nearest_loop] in H. cbn [table_parses forallb snd].
  destruct (truthy ehx); cbn [negb orb andb] in *.
  - destruct (Simple.hex_to_rgb (str ehx)) as [[[er eg] eb] |];
      cbn [bind is_ok andb] in *; [| discriminate].
    destruct (_ <? best_d); eapply IH; eassumption.
  - eapply IH; eassumption.
Qed.

Lemma nearest_loop_raises (r g b : Z) (items : dict (option string)) :
  table_parses items = false ->
  forall best_id best_d,
    Simple.nearest_loop r g b items best_id best_d = Raise ValueError.
Proof.
  induction items as [| [k ehx] rest IH]; intros Ht best_id best_d;
    [discriminate |].
  cbn [Simple.nearest_loop]. cbn [table_parses forallb snd] in Ht.
  destruct (truthy ehx); cbn [negb orb andb] in *.
  - destruct (Simple.hex_to_rgb (str ehx)) as [[[er eg] eb] | e] eqn:E;
      cbn [bind is_ok andb] in *.
    + destruct (_ <? best_d); apply IH; assumption.
    + apply hex_to_rgb_raises in E. subst. reflexivity.
  - apply IH; assumption.
Qed.

Lemma nearest_loop_no_background (r g b : Z) (items : dict (option string)) :
  (forall cid hx, In (cid, hx) items -> truthy hx = false) ->
  forall best_id best_d,
    Simple.nearest_loop r g b items best_id best_d = Ok best_id.
Proof.
  induction items as [| [k ehx] rest IH]; intros Hn best_id best_d;
    [reflexivity |].
  cbn [Simple.nearest_loop]. rewrite (Hn k ehx (or_introl eq_refl)). cbn [negb].
  apply IH. intros cid hx Hin. apply (Hn cid hx). right. exact Hin.
Qed.

(** [nearest_event_color_id] raises exactly when the given colour can be
    read and some background of the table cannot, and then it raises
    [ValueError]; it returns [None] exactly when the given colour cannot be
    read, or the table can be read and has no background at all. *)
Theorem nearest_event_color_id_outcomes
  (hex_color : string) (event_hex_map : dict (option string)) :
  (forall e,
      Simple.nearest_event_color_id hex_color event_hex_map = Raise e <->
      e = ValueError /\ is_ok (Simple.hex_to_rgb hex_color) = true /\
      table_parses event_hex_map = false) /\
  (Simple.nearest_event_color_id hex_color event_hex_map = Ok None <->
   is_ok (Simple.hex_to_rgb hex_color) = false \/
   (table_parses event_hex_map = true /\
    forall cid hx, In (cid, hx) event_hex_map -> truthy hx = false)).
Proof.
  unfold Simple.nearest_event_color_id.
  destruct (Simple.hex_to_rgb hex_color) as [[[r g] b] | e0] eqn:Eh; cbn [is_ok].
  - split.
    + intros e. split.
      * intros H. destruct (table_parses event_hex_map) eqn:Et.
        -- destruct (nearest_loop_total r g b _ Et None (10 ^ 9)) as [n En].
           congruence.
        -- rewrite (nearest_loop_raises r g b _ Et) in H. injection H as <-. auto.
      * intros [-> [_ Et]]. apply nearest_loop_raises. exact Et.
    + split.
      * intros H. right. split; [eapply nearest_loop_ok_parses; eassumption |].
        intros cid hx Hin. destruct (truthy hx) eqn:Etr; [exfalso | reflexivity].
        destruct hx as [hx |]; [| discriminate]. apply truthy_Some in Etr.
        pose proof (nearest_loop_ok_parses _ _ _ _ _ _ _ H) as Hp.
        unfold table_parses in Hp. rewrite forallb_forall in Hp.
        specialize (Hp _ Hin). cbn [snd str] in Hp.
        apply truthy_Some in Etr. rewrite Etr in Hp. cbn [negb orb] in Hp.
        destruct (Simple.hex_to_rgb hx) as [c' |] eqn:Ec; [| discriminate].
        destruct (nearest_loop_first_minimum r g b _ _ _ _ H)
          as [[_ Hall] | (l1 & cid' & hx' & c'' & l2 & _ & [=] & _)].
        apply truthy_Some in Etr.
        specialize (Hall cid hx c' Hin Etr Ec).
        pose proof (rgb_distance_small _ _ _ _ Eh Ec). lia.
      * intros [H | [_ Hn]]; [discriminate |].
        apply nearest_loop_no_background. exact Hn.
  - split.
    + intros e. split; [discriminate | intros [_ [H _]]; discriminate].
    + split; auto.
Qed.

Lemma nearest_event_color_id_outcomes_witness :
  Simple.nearest_event_color_id "#d06b64" [("9", Some "#5484ed"); ("10", Some "51b7")]
  = Raise ValueError.
Proof.
  apply (proj1 (nearest_event_color_id_outcomes "#d06b64"
                  [("9", Some "#5484ed"); ("10", Some "51b7")])).
  repeat split; reflexivity.
Defined.

(** When the given colour is exactly the background of one table entry,
    and of no entry with another id, [nearest_event_color_id] returns that
    entry's id, and an uncoloured event on a calendar with this default
    hex gets the label of that id. *)
Theorem nearest_event_color_id_exact
  (hex_color : string) (event_hex_map : dict (option string))
  (cid hx : string) (c : Z * Z * Z) :
  table_parses event_hex_map = true ->
  Simple.hex_to_rgb hex_color = Ok c ->
  In (cid, Some hx) event_hex_map -> hx <> "" ->
  Simple.hex_to_rgb hx = Ok c ->
  (forall cid2 hx2, In (cid2, Some hx2) event_hex_map -> hx2 <> "" ->
                    Simple.hex_to_rgb hx2 = Ok c -> cid2 = cid) ->
  Simple.nearest_event_color_id hex_color event_hex_map = Ok (Some cid) /\
  Simple.decide_label None (Some hex_color) event_hex_map
  = Ok (Simple.label_of_nearest (Some cid)).
Proof.
  intros Ht Eh Hin Hx Ec Huniq.
  assert (En : Simple.nearest_event_color_id hex_color event_hex_map = Ok (Some cid)).
  { unfold Simple.nearest_event_color_id. rewrite Eh. destruct c as [[r g] b].
    destruct (nearest_loop_total r g b _ Ht None (10 ^ 9)) as [res Hres].
    rewrite Hres. do 2 f_equal.
    pose proof (rgb_distance_nonneg (r, g, b)) as Hnn.
    assert (H0 : rgb_distance (r, g, b) (r, g, b) = 0)
      by (apply rgb_distance_zero; reflexivity).
    destruct (nearest_loop_first_minimum r g b _ _ _ _ Hres)
      as [[_ Hall] | (l1 & cid' & hx' & c' & l2 & E & -> & Hx' & Ec' & _ & H1 & H2)].
    - specialize (Hall cid hx _ Hin Hx Ec). rewrite H0 in Hall.
      change (10 ^ 9) with 1000000000 in Hall. lia.
    - f_equal. rewrite E in Hin.
      apply in_app_or in Hin as [Hin | [[= -> _] | Hin]].
      + specialize (H1 cid hx _ Hin Hx Ec). rewrite H0 in H1.
        specialize (Hnn c'). lia.
      + reflexivity.
      + specialize (H2 cid hx _ Hin Hx Ec). rewrite H0 in H2.
        specialize (Hnn c').
        assert (Ez : rgb_distance (r, g, b) c' = 0) by lia.
        apply rgb_distance_zero in Ez. subst c'.
        apply (Huniq cid' hx'); [| assumption | assumption].
        rewrite E. apply in_or_app. right. left. reflexivity. }
  split; [exact En |].
  unfold Simple.decide_label. cbn [truthy andb].
  assert (Hne : hex_color <> "") by (intros ->; discriminate).
  apply String.eqb_neq in Hne. rewrite Hne. cbn [negb str].
  rewrite En. reflexivity.
Qed.

(** Google's eleven event colours; a calendar whose default hex is the
    Grape of id "3" labels its uncoloured events "Personal-Development". *)
Lemma nearest_event_color_id_exact_witness :
  Simple.decide_label None (Some "#dbadff")
    [ ("1", Some "#a4bdfc"); ("2", Some "#7ae7bf"); ("3", Some "#dbadff");
      ("4", Some "#ff887c"); ("5", Some "#fbd75b"); ("6", Some "#ffb878");
      ("7", Some "#46d6db"); ("8", Some "#e1e1e1"); ("9", Some "#5484ed");
      ("10", Some "#51b749"); ("11", Some "#dc2127") ]
  = Ok "Personal-Development".
Proof.
  refine (proj2 (nearest_event_color_id_exact "#dbadff" _ "3" "#dbadff"
                   (219, 173, 255) _ _ _ _ _ _)).
  - reflexivity.
  - reflexivity.
  - cbn. auto.
  - discriminate.
  - reflexivity.
  - intros cid2 hx2 Hin _ E. cbn [In] in Hin.
    repeat (destruct Hin as [[= <- <-] | Hin];
            [try reflexivity; vm_compute in E; discriminate |]).
    contradiction.
Defined.

Lemma get_In {V : Type} (d : dict V) (k : string) (v : V) :
  get d k = Some v -> In (k, v) d.
Proof.
  induction d as [| [k' v'] d IH]; cbn [get]; [discriminate |].
  destruct (k' =? k)%string eqn:E.
  - apply String.eqb_eq in E. intros [= ->]. left. congruence.
  - intros H. right. apply IH. exact H.
Qed.

Lemma label_of_nearest_range (nearest_id : option string) :
  In (Simple.label_of_nearest nearest_id) all_labels.
Proof.
  unfold Simple.label_of_nearest, all_labels.
  destruct nearest_id as [k |]; [| left; reflexivity].
  destruct (get Simple.CUSTOM_COLOR_NAMES k) as [l |] eqn:E; [| left; reflexivity].
  right. apply get_In in E. apply in_map_iff. exists (k, l). auto.
Qed.

Lemma decide_label_range (cid cal_default_hex : option string)
  (event_colors : dict (option string)) (label : string) :
  Simple.decide_label cid cal_default_hex event_colors = Ok label ->
  In label all_labels.
Proof.
  unfold Simple.decide_label, contains.
  destruct (truthy cid && _) eqn:E1.
  - destruct (get Simple.CUSTOM_COLOR_NAMES (str cid)) as [l |] eqn:E;
      cbn [getitem]; [| discriminate].
    intros [= <-]. right. apply get_In in E. apply in_map_iff. exists (str cid, l). auto.
  - destruct (truthy cal_default_hex).
    + destruct (Simple.nearest_event_color_id _ _) as [n |]; cbn [bind];
        [| discriminate].
      intros [= <-]. apply label_of_nearest_range.
    + intros [= <-]. left. reflexivity.
Qed.

(** The label decided for an event is the fixed table's label of its
    colour id whenever that id is one of the table's, whatever the
    calendar and the colour tables are; in every other case it is one of
    the table's eleven labels or "Miscellaneous", and it is
    "Miscellaneous" when the calendar has no default hex. *)
Theorem decide_label_cases (cid cal_default_hex : option string)
  (event_colors : dict (option string)) :
  (forall l, truthy cid = true -> get Simple.CUSTOM_COLOR_NAMES (str cid) = Some l ->
             Simple.decide_label cid cal_default_hex event_colors = Ok l) /\
  (forall label, Simple.decide_label cid cal_default_hex event_colors = Ok label ->
                 In label all_labels) /\
  (truthy cid && contains Simple.CUSTOM_COLOR_NAMES (str cid) = false ->
   truthy cal_default_hex = false ->
   Simple.decide_label cid cal_default_hex event_colors = Ok "Miscellaneous").
Proof.
  split; [| split].
  - intros l Ht Hg. apply decide_label_explicit; assumption.
  - apply decide_label_range.
  - intros H1 H2. unfold Simple.decide_label. rewrite H1, H2. reflexivity.
Qed.

Lemma decide_label_cases_witness :
  Simple.decide_label (Some "12") None [("12", Some "#000000")] = Ok "Miscellaneous".
Proof.
  apply (proj2 (proj2 (decide_label_cases (Some "12") None [("12", Some "#000000")])));
    reflexivity.
Defined.

(** ** Totals per key *)

Lemma lookup0_add_to (d : dict Z) (k k' : string) (v : Z) :
  lookup0 (add_to d k v) k' = lookup0 d k' + (if (k =? k')%string then v else 0).
Proof.
  unfold lookup0. induction d as [| [k0 x] d IH]; cbn [add_to get].
  - destruct (k =? k')%string; lia.
  - destruct (k0 =? k)%string eqn:E0; cbn [get].
    + apply String.eqb_eq in E0. subst k0.
      destruct (k =? k')%string; lia.
    + destruct (k0 =? k')%string eqn:E1.
      * apply String.eqb_eq in E1. subst k0.
        rewrite String.eqb_sym, E0. lia.
      * exact IH.
Qed.

Lemma for_each_measure {S X : Type} (m : S -> Z) (body : S -> X -> result S)
  (f : X -> Z) :
  (forall st x st', body st x = Ok st' -> m st' = m st + f x) ->
  forall xs st st',
    for_each body xs st = Ok st' ->
    m st' = m st + fold_right (fun x a => f x + a) 0 xs.
Proof.
  intros Hbody. induction xs as [| x xs IH]; intros st st'; cbn [for_each fold_right].
  - intros [= ->]. lia.
  - destruct (body st x) as [st1 |] eqn:E; cbn [bind]; [| discriminate].
    intros H. rewrite (IH _ _ H), (Hbody _ _ _ E). lia.
Qed.

Lemma weekly_process_event_under (k : string)
  (week_start week_end : datetime) (ignore_all_day : bool)
  (cal : calendar (datetime * event)) (acc : dict Z) (timed : datetime * event)
  (acc' : dict Z) :
  Weekly.process_event week_start week_end ignore_all_day (cal_colorId cal) acc timed
  = Ok acc' ->
  lookup0 acc' k =
  lookup0 acc k
  + weekly_seconds_under k week_start week_end (Weekly.count_all_day ignore_all_day)
      cal timed.
Proof.
  destruct timed as [now evt].
  unfold Weekly.process_event, weekly_seconds_under, weekly_seconds. cbn [fst snd].
  destruct (Weekly.parse_event_times now evt) as [[[s e] ad] |]; [| discriminate].
  cbn [bind]. rewrite clipped_duration_clip.
  rewrite (clamp_interval_clip s e week_start week_end).
  destruct (Simple.clip s e week_start week_end) as [[cs ce] |].
  - destruct (ad && negb (Weekly.count_all_day ignore_all_day)).
    + intros [= ->]. destruct (_ =? k)%string; lia.
    + intros [= <-]. apply lookup0_add_to.
  - intros [= ->]. destruct (_ =? k)%string; lia.
Qed.

Lemma simple_process_event_under (k : string)
  (start end_ : datetime) (count_all_day : bool)
  (event_colors calendar_colors : dict (option string))
  (cal : calendar event) (acc : dict Z) (evt : event) (acc' : dict Z) :
  Simple.process_event start end_ count_all_day event_colors
    (Simple.default_hex calendar_colors (cal_colorId cal)) acc evt = Ok acc' ->
  lookup0 acc' k =
  lookup0 acc k
  + simple_seconds_under k start end_ count_all_day event_colors calendar_colors
      cal evt.
Proof.
  unfold Simple.process_event, simple_seconds_under, simple_seconds.
  destruct (Simple.parse_event_times evt) as [[[s e] ad] |]; [| discriminate].
  cbn [bind]. rewrite clipped_duration_clip.
  destruct (Simple.clip s e start end_) as [[cs ce] |].
  - destruct (ad && negb count_all_day).
    + intros [= ->]. destruct (Simple.decide_label _ _ _) as [l |]; [| lia].
      destruct (l =? k)%string; lia.
    + destruct (Simple.decide_label _ _ _) as [l |]; cbn [bind]; [| discriminate].
      intros [= <-]. apply lookup0_add_to.
  - intros [= ->]. destruct (Simple.decide_label _ _ _) as [l |]; [| lia].
    destruct (l =? k)%string; lia.
Qed.

(** The exact totals: whenever the exact aggregation loop completes, the
    microseconds under each key are those of the event occurrences that
    resolve to that key. *)
Lemma simple_exact_per_key (k : string)
  (start end_ : datetime) (count_all_day : bool)
  (event_colors calendar_colors : dict (option string))
  (calendars : list (calendar event)) (totals : dict Z) :
  Simple.aggregate start end_ count_all_day event_colors calendar_colors calendars
  = Ok totals ->
  lookup0 totals k
  = sum_over_calendars
      (simple_seconds_under k start end_ count_all_day event_colors calendar_colors)
      calendars.
Proof.
  intros H. unfold Simple.aggregate in H.
  apply (for_each_measure (fun d => lookup0 d k) _
           (fun cal =>
              fold_right
                (fun evt a =>
                   simple_seconds_under k start end_ count_all_day event_colors
                     calendar_colors cal evt + a)
                0 (cal_events cal))) in H.
  - exact H.
  - intros acc cal acc'. unfold Simple.process_calendar. cbv zeta.
    apply (for_each_measure (fun d => lookup0 d k)).
    intros st evt st'. apply simple_process_event_under.
Qed.

Lemma weekly_exact_per_key (k : string)
  (week_start week_end : datetime) (ignore_all_day : bool)
  (calendars : list (calendar (datetime * event))) (totals : dict Z) :
  Weekly.aggregate week_start week_end ignore_all_day calendars = Ok totals ->
  lookup0 totals k
  = sum_over_calendars
      (weekly_seconds_under k week_start week_end (Weekly.count_all_day ignore_all_day))
      calendars.
Proof.
  intros H. unfold Weekly.aggregate in H.
  apply (for_each_measure (fun d => lookup0 d k) _
           (fun cal =>
              fold_right
                (fun evt a =>
                   weekly_seconds_under k week_start week_end
                     (Weekly.count_all_day ignore_all_day) cal evt + a)
                0 (cal_events cal))) in H.
  - exact H.
  - intros acc cal acc'. unfold Weekly.process_calendar. cbv zeta.
    apply (for_each_measure (fun d => lookup0 d k)).
    intros st evt st'. apply weekly_process_event_under.
Qed.

Lemma float_lookup_seconds_of (d : dict Z) (k : string) :
  float_lookup (seconds_of d) k = float_of_int (lookup0 d k / 1000000).
Proof.
  unfold float_lookup, lookup0, seconds_of.
  induction d as [| [k' x] d IH]; cbn [map get fst snd].
  - reflexivity.
  - destruct (k' =? k)%string; [reflexivity | exact IH].
Qed.

(** For calendars whose counted events have clipped durations of whole
    seconds, fewer than [2**53] seconds in all: whenever the aggregation
    loop of either script completes, the binary64 total under each key is
    exactly the sum of the clipped durations of the event occurrences that
    resolve to that key (the label decided for the event, or its colour
    key), and a key without such an event has none. *)
Theorem aggregate_totals_per_key (k : string) :
  (forall start end_ count_all_day event_colors calendar_colors
          (calendars : list (calendar event)) totals,
      Forall (fun cal =>
                Forall (fun evt =>
                          whole_seconds (simple_seconds start end_ count_all_day evt))
                  (cal_events cal)) calendars ->
      sum_over (simple_seconds start end_ count_all_day) calendars < EXACT_LIMIT ->
      SimpleFloat.aggregate start end_ count_all_day event_colors calendar_colors
        calendars = Ok totals ->
      float_lookup totals k
      = float_of_int
          (sum_over_calendars
             (simple_seconds_under k start end_ count_all_day event_colors
                calendar_colors)
             calendars / 1000000)) /\
  (forall week_start week_end ignore_all_day
          (calendars : list (calendar (datetime * event))) totals,
      Forall (fun cal =>
                Forall (fun timed =>
                          whole_seconds
                            (weekly_seconds week_start week_end
                               (Weekly.count_all_day ignore_all_day) timed))
                  (cal_events cal)) calendars ->
      sum_over (weekly_seconds week_start week_end (Weekly.count_all_day ignore_all_day))
        calendars < EXACT_LIMIT ->
      WeeklyFloat.aggregate week_start week_end ignore_all_day calendars = Ok totals ->
      float_lookup totals k
      = float_of_int
          (sum_over_calendars
             (weekly_seconds_under k week_start week_end
                (Weekly.count_all_day ignore_all_day))
             calendars / 1000000)).
Proof.
  split.
  - intros start end_ cad ec cc cals totals Hw Hlt H.
    pose proof (simple_float_aggregate start end_ cad ec cc cals Hw Hlt) as Hsim.
    destruct (Simple.aggregate start end_ cad ec cc cals) as [ztotals |] eqn:E.
    + destruct Hsim as [H1 _]. rewrite H1 in H. injection H as <-.
      rewrite float_lookup_seconds_of.
      rewrite (simple_exact_per_key k _ _ _ _ _ _ _ E). reflexivity.
    + rewrite Hsim in H. discriminate.
  - intros ws we ig cals totals Hw Hlt H.
    pose proof (weekly_float_aggregate ws we ig cals Hw Hlt) as Hsim.
    destruct (Weekly.aggregate ws we ig cals) as [ztotals |] eqn:E.
    + destruct Hsim as [H1 _]. rewrite H1 in H. injection H as <-.
      rewrite float_lookup_seconds_of.
      rewrite (weekly_exact_per_key k _ _ _ _ _ E). reflexivity.
    + rewrite Hsim in H. discriminate.
Qed.

(** An event coloured "5" on a calendar without colour and an uncoloured
    event on a calendar whose default colour id is "5" are added up under
    the one key "5": 5400.0 + 3600.0 seconds. *)
Lemma aggregate_totals_per_key_witness :
  float_lookup [("5", 9000%float)] "5" = float_of_int 9000.
Proof.
  refine (proj2 (aggregate_totals_per_key "5")
            (civil 2024 1 7 0 0) (civil 2024 1 14 0 0) false
            [ mkcal None
                [ (civil 2024 1 15 8 0,
                   mkevent (Some (mkwhen (Some (civil 2024 1 8 6 0)) None))
                           (Some (mkwhen (Some (civil 2024 1 8 7 30)) None))
                           (Some "5")) ];
              mkcal (Some "5")
                [ (civil 2024 1 15 8 0,
                   mkevent (Some (mkwhen (Some (civil 2024 1 9 12 0)) None))
                           (Some (mkwhen (Some (civil 2024 1 9 13 0)) None))
                           None) ] ]
            [("5", 9000%float)] _ _ eq_refl).
  - repeat (constructor; try (split; [vm_compute; discriminate | reflexivity])).
  - vm_compute. reflexivity.
Defined.

(** ** The keys of the totals *)

Lemma keys_add_to_In (d : dict Z) (k k' : string) (v : Z) :
  In k' (keys (add_to d k v)) <-> k' = k \/ In k' (keys d).
Proof.
  unfold keys. induction d as [| [k0 x] d IH]; cbn [add_to map fst In].
  - intuition congruence.
  - destruct (k0 =? k)%string eqn:E; cbn [map fst In].
    + apply String.eqb_eq in E. subst k0. intuition congruence.
    + rewrite IH. intuition congruence.
Qed.

Lemma NoDup_keys_add_to (d : dict Z) (k : string) (v : Z) :
  NoDup (keys d) -> NoDup (keys (add_to d k v)).
Proof.
  induction d as [| [k0 x] d IH]; intros Hn.
  - cbn. constructor; [intros [] | constructor].
  - cbn [add_to]. destruct (k0 =? k)%string eqn:E.
    + exact Hn.
    + change (keys ((k0, x) :: add_to d k v)) with (k0 :: keys (add_to d k v)).
      change (keys ((k0, x) :: d)) with (k0 :: keys d) in Hn.
      inversion Hn as [| ? ? Hnotin Hnd]; subst.
      constructor; [| apply IH; exact Hnd].
      rewrite keys_add_to_In. intros [-> | Hin]; [| contradiction].
      rewrite String.eqb_refl in E. discriminate.
Qed.

Lemma for_each_keys {X : Type} (body : dict Z -> X -> result (dict Z))
  (P : X -> string -> Prop) :
  (forall acc x acc',
      body acc x = Ok acc' ->
      (NoDup (keys acc) -> NoDup (keys acc')) /\
      forall k, In k (keys acc') <-> In k (keys acc) \/ P x k) ->
  forall xs acc acc',
    for_each body xs acc = Ok acc' ->
    (NoDup (keys acc) -> NoDup (keys acc')) /\
    forall k, In k (keys acc') <-> In k (keys acc) \/ exists x, In x xs /\ P x k.
Proof.
  intros Hbody. induction xs as [| x xs IH]; intros acc acc'; cbn [for_each].
  - intros [= ->]. split; [auto |]. intros k. split; [auto |].
    intros [H | [x [[] _]]]. exact H.
  - destruct (body acc x) as [acc1 |] eqn:E; cbn [bind]; [| discriminate].
    intros H. destruct (Hbody _ _ _ E) as [Hn1 Hk1].
    destruct (IH _ _ H) as [Hn2 Hk2]. split; [auto |].
    intros k. rewrite Hk2, Hk1. split.
    + intros [[Hin | Hp] | [y [Hy Hp]]]; [auto | right | right].
      * exists x. split; [left; reflexivity | exact Hp].
      * exists y. split; [right; exact Hy | exact Hp].
    + intros [Hin | [y [[<- | Hy] Hp]]]; [auto | auto |].
      right. exists y. auto.
Qed.

Lemma counted_clip (start end_ : datetime) (count_all_day : bool)
  (s e : datetime) (is_all_day : bool) :
  counted start end_ count_all_day (Ok (s, e, is_all_day)) =
  match Simple.clip s e start end_ with
  | Some _ => negb (is_all_day && negb count_all_day)
  | None => false
  end.
Proof.
  unfold counted, overlaps, passes_all_day_filter. rewrite clip_unfold.
  destruct (dt_lt (py_max s start) (py_min e end_)); [| reflexivity].
  destruct is_all_day, count_all_day; reflexivity.
Qed.

Lemma weekly_process_event_keys
  (week_start week_end : datetime) (ignore_all_day : bool)
  (cal_default : option string) (acc : dict Z) (timed : datetime * event)
  (acc' : dict Z) :
  Weekly.process_event week_start week_end ignore_all_day cal_default acc timed
  = Ok acc' ->
  (NoDup (keys acc) -> NoDup (keys acc')) /\
  forall k,
    In k (keys acc') <->
    In k (keys acc) \/
    (counted week_start week_end (Weekly.count_all_day ignore_all_day)
       (Weekly.parse_event_times (fst timed) (snd timed)) = true /\
     Weekly.color_key (ev_colorId (snd timed)) cal_default = k).
Proof.
  destruct timed as [now evt]. unfold Weekly.process_event. cbn [fst snd].
  destruct (Weekly.parse_event_times now evt) as [[[s e] ad] |]; [| discriminate].
  cbn [bind]. rewrite counted_clip.
  rewrite (clamp_interval_clip s e week_start week_end).
  destruct (Simple.clip s e week_start week_end) as [[cs ce] |].
  - destruct (ad && negb (Weekly.count_all_day ignore_all_day)); cbn [negb].
    + intros [= ->]. split; [auto |]. intros k. split; [auto |].
      intros [H | [H _]]; [exact H | discriminate].
    + intros [= <-]. split; [apply NoDup_keys_add_to |].
      intros k. rewrite keys_add_to_In. intuition congruence.
  - intros [= ->]. split; [auto |]. intros k. split; [auto |].
    intros [H | [H _]]; [exact H | discriminate].
Qed.

Lemma simple_process_event_keys
  (start end_ : datetime) (count_all_day : bool)
  (event_colors : dict (option string)) (hex : option string)
  (acc : dict Z) (evt : event) (acc' : dict Z) :
  Simple.process_event start end_ count_all_day event_colors hex acc evt = Ok acc' ->
  (NoDup (keys acc) -> NoDup (keys acc')) /\
  forall k,
    In k (keys acc') <->
    In k (keys acc) \/
    (counted start end_ count_all_day (Simple.parse_event_times evt) = true /\
     Simple.decide_label (ev_colorId evt) hex event_colors = Ok k).
Proof.
  unfold Simple.process_event.
  destruct (Simple.parse_event_times evt) as [[[s e] ad] |]; [| discriminate].
  cbn [bind]. rewrite counted_clip.
  destruct (Simple.clip s e start end_) as [[cs ce] |].
  - destruct (ad && negb count_all_day); cbn [negb].
    + intros [= ->]. split; [auto |]. intros k. split; [auto |].
      intros [H | [H _]]; [exact H | discriminate].
    + destruct (Simple.decide_label _ _ _) as [l |]; cbn [bind]; [| discriminate].
      intros [= <-]. split; [apply NoDup_keys_add_to |].
      intros k. rewrite keys_add_to_In. intuition congruence.
  - intros [= ->]. split; [auto |]. intros k. split; [auto |].
    intros [H | [H _]]; [exact H | discriminate].
Qed.

Lemma for_each_ok_each {S X : Type} (body : S -> X -> result S) (xs : list X) :
  forall st st',
    for_each body xs st = Ok st' ->
    forall x, In x xs -> exists s1 s2, body s1 x = Ok s2.
Proof.
  induction xs as [| y xs IH]; intros st st' H x Hin; [contradiction |].
  cbn [for_each] in H.
  destruct (body st y) as [st1 |] eqn:E; cbn [bind] in H; [| discriminate].
  destruct Hin as [<- | Hin].
  - exists st, st1. exact E.
  - eapply IH; eassumption.
Qed.

Lemma simple_process_event_ok
  (start end_ : datetime) (count_all_day : bool)
  (event_colors : dict (option string)) (hex : option string)
  (acc : dict Z) (evt : event) (acc' : dict Z) :
  Simple.process_event start end_ count_all_day event_colors hex acc evt = Ok acc' ->
  is_ok (Simple.parse_event_times evt) = true /\
  (counted start end_ count_all_day (Simple.parse_event_times evt) = true ->
   exists label, Simple.decide_label (ev_colorId evt) hex event_colors = Ok label).
Proof.
  unfold Simple.process_event.
  destruct (Simple.parse_event_times evt) as [[[s e] ad] |]; [| discriminate].
  cbn [bind is_ok]. rewrite counted_clip. intros H. split; [reflexivity |].
  destruct (Simple.clip s e start end_) as [[cs ce] |]; [| discriminate].
  destruct (ad && negb count_all_day); cbn [negb]; [discriminate | intros _].
  destruct (Simple.decide_label _ _ _) as [l |]; [| discriminate].
  exists l. reflexivity.
Qed.

Lemma simple_aggregate_ok_each
  (start end_ : datetime) (count_all_day : bool)
  (event_colors calendar_colors : dict (option string))
  (calendars : list (calendar event)) (totals : dict Z) :
  Simple.aggregate start end_ count_all_day event_colors calendar_colors calendars
  = Ok totals ->
  forall cal evt, In cal calendars -> In evt (cal_events cal) ->
    is_ok (Simple.parse_event_times evt) = true /\
    (counted start end_ count_all_day (Simple.parse_event_times evt) = true ->
     exists label,
       Simple.decide_label (ev_colorId evt)
         (Simple.default_hex calendar_colors (cal_colorId cal)) event_colors
       = Ok label).
Proof.
  unfold Simple.aggregate. intros H cal evt Hc He.
  destruct (for_each_ok_each _ _ _ _ H cal Hc) as [s1 [s2 E]].
  unfold Simple.process_calendar in E. cbv zeta in E.
  destruct (for_each_ok_each _ _ _ _ E evt He) as [s3 [s4 E']].
  eapply simple_process_event_ok. exact E'.
Qed.

Lemma weekly_aggregate_ok_each
  (week_start week_end : datetime) (ignore_all_day : bool)
  (calendars : list (calendar (datetime * event))) (totals : dict Z) :
  Weekly.aggregate week_start week_end ignore_all_day calendars = Ok totals ->
  forall cal timed, In cal calendars -> In timed (cal_events cal) ->
    is_ok (Weekly.parse_event_times (fst timed) (snd timed)) = true.
Proof.
  unfold Weekly.aggregate. intros H cal timed Hc He.
  destruct (for_each_ok_each _ _ _ _ H cal Hc) as [s1 [s2 E]].
  unfold Weekly.process_calendar in E. cbv zeta in E.
  destruct (for_each_ok_each _ _ _ _ E timed He) as [s3 [s4 E']].
  destruct timed as [now evt]. unfold Weekly.process_event in E'. cbn [fst snd].
  destruct (Weekly.parse_event_times now evt); [reflexivity | discriminate].
Qed.

(** Whenever the aggregation loop of either script completes, no key
    occurs twice in the totals, and the keys are exactly the keys of the
    events that overlap the window and pass the all-day filter; in the
    label-based script every key is one of the eleven labels or
    "Miscellaneous".  So the totals are empty exactly when no event is
    counted. *)
Theorem aggregate_keys :
  (forall start end_ count_all_day event_colors calendar_colors
          (calendars : list (calendar event)) totals,
      Simple.aggregate start end_ count_all_day event_colors calendar_colors
        calendars = Ok totals ->
      NoDup (keys totals) /\
      (forall k,
          In k (keys totals) <->
          exists cal evt,
            In cal calendars /\ In evt (cal_events cal) /\
            counted start end_ count_all_day (Simple.parse_event_times evt) = true /\
            Simple.decide_label (ev_colorId evt)
              (Simple.default_hex calendar_colors (cal_colorId cal)) event_colors
            = Ok k) /\
      (forall k, In k (keys totals) -> In k all_labels) /\
      (totals = [] <->
       forall cal evt,
         In cal calendars -> In evt (cal_events cal) ->
         counted start end_ count_all_day (Simple.parse_event_times evt) = false)) /\
  (forall week_start week_end ignore_all_day
          (calendars : list (calendar (datetime * event))) totals,
      Weekly.aggregate week_start week_end ignore_all_day calendars = Ok totals ->
      NoDup (keys totals) /\
      (forall k,
          In k (keys totals) <->
          exists cal timed,
            In cal calendars /\ In timed (cal_events cal) /\
            counted week_start week_end (Weekly.count_all_day ignore_all_day)
              (Weekly.parse_event_times (fst timed) (snd timed)) = true /\
            Weekly.color_key (ev_colorId (snd timed)) (cal_colorId cal) = k) /\
      (totals = [] <->
       forall cal timed,
         In cal calendars -> In timed (cal_events cal) ->
         counted week_start week_end (Weekly.count_all_day ignore_all_day)
           (Weekly.parse_event_times (fst timed) (snd timed)) = false)).
Proof.
  split.
  - intros start end_ cad ec cc cals totals H.
    pose proof (simple_aggregate_ok_each _ _ _ _ _ _ _ H) as Hok.
    unfold Simple.aggregate in H.
    apply (for_each_keys _
             (fun cal k =>
                exists evt, In evt (cal_events cal) /\
                  counted start end_ cad (Simple.parse_event_times evt) = true /\
                  Simple.decide_label (ev_colorId evt)
                    (Simple.default_hex cc (cal_colorId cal)) ec = Ok k)) in H.
    + destruct H as [Hn Hk].
      assert (Hkeys : forall k,
                 In k (keys totals) <->
                 exists cal evt,
                   In cal cals /\ In evt (cal_events cal) /\
                   counted start end_ cad (Simple.parse_event_times evt) = true /\
                   Simple.decide_label (ev_colorId evt)
                     (Simple.default_hex cc (cal_colorId cal)) ec = Ok k).
      { intros k. rewrite Hk. split.
        - intros [[] | [cal [Hc [evt [He Hp]]]]]. exists cal, evt. tauto.
        - intros [cal [evt [Hc [He Hp]]]]. right. exists cal. split; [exact Hc |].
          exists evt. tauto. }
      split; [apply Hn; constructor | split; [exact Hkeys | split]].
      * intros k Hin. apply Hkeys in Hin as [cal [evt [_ [_ [_ Hl]]]]].
        eapply decide_label_range. exact Hl.
      * split.
        -- intros -> cal evt Hc He.
           destruct (counted start end_ cad (Simple.parse_event_times evt)) eqn:Ec;
             [exfalso | reflexivity].
           destruct (proj2 (Hok cal evt Hc He) Ec) as [l El].
           apply (proj2 (Hkeys l)). exists cal, evt. auto.
        -- intros Hnone. destruct totals as [| [k v] totals]; [reflexivity |].
           destruct (proj1 (Hkeys k) (or_introl eq_refl))
             as [cal [evt [Hc [He [Hcnt _]]]]].
           rewrite (Hnone cal evt Hc He) in Hcnt. discriminate.
    + intros acc cal acc'. unfold Simple.process_calendar. cbv zeta. intros Hc.
      apply (for_each_keys _
               (fun evt k =>
                  counted start end_ cad (Simple.parse_event_times evt) = true /\
                  Simple.decide_label (ev_colorId evt)
                    (Simple.default_hex cc (cal_colorId cal)) ec = Ok k)) in Hc.
      * exact Hc.
      * intros. apply simple_process_event_keys. assumption.
  - intros ws we ig cals totals H. unfold Weekly.aggregate in H.
    apply (for_each_keys _
             (fun cal k =>
                exists timed, In timed (cal_events cal) /\
                  counted ws we (Weekly.count_all_day ig)
                    (Weekly.parse_event_times (fst timed) (snd timed)) = true /\
                  Weekly.color_key (ev_colorId (snd timed)) (cal_colorId cal) = k))
      in H.
    + destruct H as [Hn Hk].
      assert (Hkeys : forall k,
                 In k (keys totals) <->
                 exists cal timed,
                   In cal cals /\ In timed (cal_events cal) /\
                   counted ws we (Weekly.count_all_day ig)
                     (Weekly.parse_event_times (fst timed) (snd timed)) = true /\
                   Weekly.color_key (ev_colorId (snd timed)) (cal_colorId cal) = k).
      { intros k. rewrite Hk. split.
        - intros [[] | [cal [Hc [timed [He Hp]]]]]. exists cal, timed. tauto.
        - intros [cal [timed [Hc [He Hp]]]]. right. exists cal. split; [exact Hc |].
          exists timed. tauto. }
      split; [apply Hn; constructor | split; [exact Hkeys | split]].
      * intros -> cal timed Hc He.
        destruct (counted ws we (Weekly.count_all_day ig)
                    (Weekly.parse_event_times (fst timed) (snd timed))) eqn:Ec;
          [exfalso | reflexivity].
        apply (proj2 (Hkeys (Weekly.color_key (ev_colorId (snd timed))
                               (cal_colorId cal)))).
        exists cal, timed. auto.
      * intros Hnone. destruct totals as [| [k v] totals]; [reflexivity |].
        destruct (proj1 (Hkeys k) (or_introl eq_refl))
          as [cal [timed [Hc [He [Hcnt _]]]]].
        rewrite (Hnone cal timed Hc He) in Hcnt. discriminate.
    + intros acc cal acc'. unfold Weekly.process_calendar. cbv zeta. intros Hc.
      apply (for_each_keys _
               (fun timed k =>
                  counted ws we (Weekly.count_all_day ig)
                    (Weekly.parse_event_times (fst timed) (snd timed)) = true /\
                  Weekly.color_key (ev_colorId (snd timed)) (cal_colorId cal) = k))
        in Hc.
      * exact Hc.
      * intros. apply weekly_process_event_keys. assumption.
Qed.

(** The week of Sunday 2024-01-07.  In the label-based script two events
    coloured "9" and an uncoloured all-day event on a calendar whose
    colour is nearest to "7" leave the two keys "Exercise" and "Money".  In
    the raw-colour script an event coloured "5", an uncoloured one on a
    calendar without colour and an event of the week after, coloured "7",
    leave the two keys "5" and "default". *)
Lemma aggregate_keys_witness :
  (NoDup (keys [("Exercise", 9000000000); ("Money", 86400000000)]) /\
   (forall k,
       In k (keys [("Exercise", 9000000000); ("Money", 86400000000)]) <->
       exists cal evt,
         In cal
           [mkcal (Some "14")
             [ mkevent (Some (mkwhen (Some (civil 2024 1 8 6 0)) None))
                       (Some (mkwhen (Some (civil 2024 1 8 7 30)) None))
                       (Some "9");
               mkevent (Some (mkwhen None (Some (ymd2ord 2024 1 6))))
                       (Some (mkwhen None (Some (ymd2ord 2024 1 8))))
                       None;
               mkevent (Some (mkwhen (Some (civil 2024 1 9 6 0)) None))
                       (Some (mkwhen (Some (civil 2024 1 9 7 0)) None))
                       (Some "9") ]] /\
         In evt (cal_events cal) /\
         counted (civil 2024 1 7 0 0) (civil 2024 1 14 0 0) true
           (Simple.parse_event_times evt) = true /\
         Simple.decide_label (ev_colorId evt)
           (Simple.default_hex [("14", Some "#9fe1e7")] (cal_colorId cal))
           [("9", Some "#5484ed"); ("7", Some "#46d6db")]
         = Ok k) /\
   (forall k,
       In k (keys [("Exercise", 9000000000); ("Money", 86400000000)]) ->
       In k all_labels) /\
   ([("Exercise", 9000000000); ("Money", 86400000000)] = [] <->
    forall cal evt,
      In cal
        [mkcal (Some "14")
          [ mkevent (Some (mkwhen (Some (civil 2024 1 8 6 0)) None))
                    (Some (mkwhen (Some (civil 2024 1 8 7 30)) None))
                    (Some "9");
            mkevent (Some (mkwhen None (Some (ymd2ord 2024 1 6))))
                    (Some (mkwhen None (Some (ymd2ord 2024 1 8))))
                    None;
            mkevent (Some (mkwhen (Some (civil 2024 1 9 6 0)) None))
                    (Some (mkwhen (Some (civil 2024 1 9 7 0)) None))
                    (Some "9") ]] ->
      In evt (cal_events cal) ->
      counted (civil 2024 1 7 0 0) (civil 2024 1 14 0 0) true
        (Simple.parse_event_times evt) = false)) /\
  (NoDup (keys [("5", 5400000000); ("default", 3600000000)]) /\
   (forall k,
       In k (keys [("5", 5400000000); ("default", 3600000000)]) <->
       exists cal timed,
         In cal
           [mkcal None
             [ (civil 2024 1 15 8 0,
                mkevent (Some (mkwhen (Some (civil 2024 1 8 6 0)) None))
                        (Some (mkwhen (Some (civil 2024 1 8 7 30)) None))
                        (Some "5"));
               (civil 2024 1 15 8 0,
                mkevent (Some (mkwhen (Some (civil 2024 1 9 12 0)) None))
                        (Some (mkwhen (Some (civil 2024 1 9 13 0)) None))
                        None);
               (civil 2024 1 15 8 0,
                mkevent (Some (mkwhen (Some (civil 2024 1 16 6 0)) None))
                        (Some (mkwhen (Some (civil 2024 1 16 7 30)) None))
                        (Some "7")) ]] /\
         In timed (cal_events cal) /\
         counted (civil 2024 1 7 0 0) (civil 2024 1 14 0 0) (Weekly.count_all_day false)
           (Weekly.parse_event_times (fst timed) (snd timed)) = true /\
         Weekly.color_key (ev_colorId (snd timed)) (cal_colorId cal) = k) /\
   ([("5", 5400000000); ("default", 3600000000)] = [] <->
    forall cal timed,
      In cal
        [mkcal None
          [ (civil 2024 1 15 8 0,
             mkevent (Some (mkwhen (Some (civil 2024 1 8 6 0)) None))
                     (Some (mkwhen (Some (civil 2024 1 8 7 30)) None))
                     (Some "5"));
            (civil 2024 1 15 8 0,
             mkevent (Some (mkwhen (Some (civil 2024 1 9 12 0)) None))
                     (Some (mkwhen (Some (civil 2024 1 9 13 0)) None))
                     None);
            (civil 2024 1 15 8 0,
             mkevent (Some (mkwhen (Some (civil 2024 1 16 6 0)) None))
                     (Some (mkwhen (Some (civil 2024 1 16 7 30)) None))
                     (Some "7")) ]] ->
      In timed (cal_events cal) ->
      counted (civil 2024 1 7 0 0) (civil 2024 1 14 0 0) (Weekly.count_all_day false)
        (Weekly.parse_event_times (fst timed) (snd timed)) = false)).
Proof.
  exact (conj
           (proj1 aggregate_keys (civil 2024 1 7 0 0) (civil 2024 1 14 0 0) true
              [("9", Some "#5484ed"); ("7", Some "#46d6db")] [("14", Some "#9fe1e7")]
              [mkcal (Some "14")
                [ mkevent (Some (mkwhen (Some (civil 2024 1 8 6 0)) None))
                          (Some (mkwhen (Some (civil 2024 1 8 7 30)) None))
                          (Some "9");
                  mkevent (Some (mkwhen None (Some (ymd2ord 2024 1 6))))
                          (Some (mkwhen None (Some (ymd2ord 2024 1 8))))
                          None;
                  mkevent (Some (mkwhen (Some (civil 2024 1 9 6 0)) None))
                          (Some (mkwhen (Some (civil 2024 1 9 7 0)) None))
                          (Some "9") ]]
              [("Exercise", 9000000000); ("Money", 86400000000)] eq_refl)
           (proj2 aggregate_keys (civil 2024 1 7 0 0) (civil 2024 1 14 0 0) false
              [mkcal None
                [ (civil 2024 1 15 8 0,
                   mkevent (Some (mkwhen (Some (civil 2024 1 8 6 0)) None))
                           (Some (mkwhen (Some (civil 2024 1 8 7 30)) None))
                           (Some "5"));
                  (civil 2024 1 15 8 0,
                   mkevent (Some (mkwhen (Some (civil 2024 1 9 12 0)) None))
                           (Some (mkwhen (Some (civil 2024 1 9 13 0)) None))
                           None);
                  (civil 2024 1 15 8 0,
                   mkevent (Some (mkwhen (Some (civil 2024 1 16 6 0)) None))
                           (Some (mkwhen (Some (civil 2024 1 16 7 30)) None))
                           (Some "7")) ]]
              [("5", 5400000000); ("default", 3600000000)] eq_refl)).
Defined.

(** ** Events that stop the aggregation *)

(** One event whose times cannot be read makes the whole aggregation loop
    of either script end with an exception, wherever the event is; so
    does, in the label-based script, one counted event whose label cannot
    be decided. *)
Theorem unreadable_event_aborts :
  (forall start end_ count_all_day event_colors calendar_colors
          (calendars : list (calendar event)) cal evt,
      In cal calendars -> In evt (cal_events cal) ->
      is_ok (Simple.parse_event_times evt) = false \/
      (counted start end_ count_all_day (Simple.parse_event_times evt) = true /\
       is_ok (Simple.decide_label (ev_colorId evt)
                (Simple.default_hex calendar_colors (cal_colorId cal)) event_colors)
       = false) ->
      is_ok (Simple.aggregate start end_ count_all_day event_colors calendar_colors
               calendars) = false) /\
  (forall week_start week_end ignore_all_day
          (calendars : list (calendar (datetime * event))) cal timed,
      In cal calendars -> In timed (cal_events cal) ->
      is_ok (Weekly.parse_event_times (fst timed) (snd timed)) = false ->
      is_ok (Weekly.aggregate week_start week_end ignore_all_day calendars) = false).
Proof.
  split.
  - intros start end_ cad ec cc cals cal evt Hc He Hbad.
    destruct (Simple.aggregate start end_ cad ec cc cals) as [totals |] eqn:E;
      [exfalso | reflexivity].
    destruct (simple_aggregate_ok_each _ _ _ _ _ _ _ E cal evt Hc He) as [Hp Hl].
    destruct Hbad as [Hbad | [Hcnt Hbad]]; [congruence |].
    destruct (Hl Hcnt) as [l El]. rewrite El in Hbad. discriminate.
  - intros ws we ig cals cal timed Hc He Hbad.
    destruct (Weekly.aggregate ws we ig cals) as [totals |] eqn:E;
      [exfalso | reflexivity].
    pose proof (weekly_aggregate_ok_each _ _ _ _ _ E cal timed Hc He). congruence.
Qed.

(** A timed event without an end time after a good event: no totals. *)
Lemma unreadable_event_aborts_witness :
  is_ok (Weekly.aggregate (civil 2024 1 7 0 0) (civil 2024 1 14 0 0) false
           [mkcal None
              [ (civil 2024 1 15 8 0,
                 mkevent (Some (mkwhen (Some (civil 2024 1 8 6 0)) None))
                         (Some (mkwhen (Some (civil 2024 1 8 7 30)) None))
                         (Some "5"));
                (civil 2024 1 15 8 0,
                 mkevent (Some (mkwhen (Some (civil 2024 1 9 6 0)) None))
                         (Some (mkwhen None None))
                         (Some "5")) ]])
  = false.
Proof.
  eapply (proj2 unreadable_event_aborts).
  - left. reflexivity.
  - right. left. reflexivity.
  - reflexivity.
Defined.

(** ** Positive totals *)

Lemma all_positive_add_to (d : dict Z) (k : string) (v : Z) :
  all_positive d -> 0 < v -> all_positive (add_to d k v).
Proof.
  unfold all_positive. induction d as [| [k0 x] d IH]; intros Hd Hv k' v'.
  - cbn. intros [[= <- <-] | []]. lia.
  - cbn [add_to]. destruct (k0 =? k)%string.
    + intros [[= <- <-] | Hin].
      * specialize (Hd k0 x (or_introl eq_refl)). lia.
      * apply (Hd k' v'). right. exact Hin.
    + intros [[= <- <-] | Hin].
      * apply (Hd k0 x). left. reflexivity.
      * apply IH with (k := k'); [| exact Hv | exact Hin].
        intros k1 v1 H1. apply (Hd k1 v1). right. exact H1.
Qed.

Lemma for_each_invariant {S X : Type} (P : S -> Prop) (Q : X -> Prop)
  (body : S -> X -> result S) :
  (forall st x st', Q x -> P st -> body st x = Ok st' -> P st') ->
  forall xs, Forall Q xs ->
  forall st st', P st -> for_each body xs st = Ok st' -> P st'.
Proof.
  intros Hbody. induction 1 as [| x xs Hq _ IH]; intros st st' Hp; cbn [for_each].
  - intros [= <-]. exact Hp.
  - destruct (body st x) as [st1 |] eqn:E; cbn [bind]; [| discriminate].
    apply IH. eapply Hbody; eassumption.
Qed.

Lemma simple_process_event_positive
  (start end_ : datetime) (count_all_day : bool)
  (event_colors : dict (option string)) (hex : option string) :
  valid_time start -> valid_time end_ ->
  forall acc evt acc',
    valid_times (Simple.parse_event_times evt) ->
    all_positive acc ->
    Simple.process_event start end_ count_all_day event_colors hex acc evt = Ok acc' ->
    all_positive acc'.
Proof.
  intros Hs He acc evt acc' Hq Hp. unfold Simple.process_event.
  unfold valid_times in Hq.
  destruct (Simple.parse_event_times evt) as [[[s e] ad] |]; [| discriminate].
  cbn [bind]. destruct (Simple.clip s e start end_) as [[cs ce] |] eqn:Ec.
  - destruct (ad && negb count_all_day); [intros [= <-]; exact Hp |].
    destruct (Simple.decide_label _ _ _) as [l |]; cbn [bind]; [| discriminate].
    intros [= <-]. apply all_positive_add_to; [exact Hp |].
    destruct Hq as [Hvs Hve].
    apply (clip_elapsed_bounds s e start end_ cs ce); assumption.
  - intros [= <-]. exact Hp.
Qed.

Lemma weekly_process_event_positive
  (week_start week_end : datetime) (ignore_all_day : bool)
  (cal_default : option string) :
  valid_time week_start -> valid_time week_end ->
  forall acc timed acc',
    valid_times (Weekly.parse_event_times (fst timed) (snd timed)) ->
    all_positive acc ->
    Weekly.process_event week_start week_end ignore_all_day cal_default acc timed
    = Ok acc' ->
    all_positive acc'.
Proof.
  intros Hs He acc [now evt] acc' Hq Hp. unfold Weekly.process_event.
  cbn [fst snd] in Hq. unfold valid_times in Hq.
  destruct (Weekly.parse_event_times now evt) as [[[s e] ad] |]; [| discriminate].
  cbn [bind]. rewrite (clamp_interval_clip s e week_start week_end).
  destruct (Simple.clip s e week_start week_end) as [[cs ce] |] eqn:Ec.
  - destruct (ad && negb (Weekly.count_all_day ignore_all_day));
      [intros [= <-]; exact Hp |].
    intros [= <-]. apply all_positive_add_to; [exact Hp |].
    destruct Hq as [Hvs Hve].
    apply (clip_elapsed_bounds s e week_start week_end cs ce); assumption.
  - intros [= <-]. exact Hp.
Qed.

(** When the window bounds and the times read from the events are times
    of day inside their day, every total the aggregation loop of either
    script ends with is positive: a key is reported only with time under
    it. *)
Theorem aggregate_totals_positive :
  (forall start end_ count_all_day event_colors calendar_colors
          (calendars : list (calendar event)) totals,
      valid_time start -> valid_time end_ ->
      Forall (fun cal =>
                Forall (fun evt => valid_times (Simple.parse_event_times evt))
                  (cal_events cal)) calendars ->
      Simple.aggregate start end_ count_all_day event_colors calendar_colors
        calendars = Ok totals ->
      all_positive totals) /\
  (forall week_start week_end ignore_all_day
          (calendars : list (calendar (datetime * event))) totals,
      valid_time week_start -> valid_time week_end ->
      Forall (fun cal =>
                Forall (fun timed =>
                          valid_times
                            (Weekly.parse_event_times (fst timed) (snd timed)))
                  (cal_events cal)) calendars ->
      Weekly.aggregate week_start week_end ignore_all_day calendars = Ok totals ->
      all_positive totals).
Proof.
  split.
  - intros start end_ cad ec cc cals totals Hs He Hv H. unfold Simple.aggregate in H.
    refine (for_each_invariant all_positive _ _ _ cals Hv [] totals _ H).
    + intros acc cal acc' Hq Hp. unfold Simple.process_calendar. cbv zeta.
      apply (for_each_invariant all_positive
               (fun evt => valid_times (Simple.parse_event_times evt))); try assumption.
      apply simple_process_event_positive; assumption.
    + intros k v [].
  - intros ws we ig cals totals Hs He Hv H. unfold Weekly.aggregate in H.
    refine (for_each_invariant all_positive _ _ _ cals Hv [] totals _ H).
    + intros acc cal acc' Hq Hp. unfold Weekly.process_calendar. cbv zeta.
      apply (for_each_invariant all_positive
               (fun timed =>
                  valid_times (Weekly.parse_event_times (fst timed) (snd timed))));
        try assumption.
      apply weekly_process_event_positive; assumption.
    + intros k v [].
Qed.

Lemma aggregate_totals_positive_witness :
  all_positive [("5", 5400 * 1000000)].
Proof.
  refine (proj2 aggregate_totals_positive
            (civil 2024 1 7 0 0) (civil 2024 1 14 0 0) false
            [mkcal None
               [ (civil 2024 1 15 8 0,
                  mkevent (Some (mkwhen (Some (civil 2024 1 8 6 0)) None))
                          (Some (mkwhen (Some (civil 2024 1 8 7 30)) None))
                          (Some "5")) ]]
            _ _ _ _ eq_refl).
  - vm_compute. split; [discriminate | reflexivity].
  - vm_compute. split; [discriminate | reflexivity].
  - repeat constructor; vm_compute; try discriminate; reflexivity.
Defined.

(** ** The order of the report rows *)

Section SimpleRows.

Variable pyfloat : Type.
Variable float_lt : pyfloat -> pyfloat -> bool.

(** No row is strictly below its successor. *)
Definition simple_not_below (r1 r2 : string * pyfloat) : Prop :=
  float_lt (snd r1) (snd r2) = false.

Lemma simple_insert_desc_perm (x : string * pyfloat) (l : list (string * pyfloat)) :
  Permutation (Simple.insert_desc pyfloat float_lt x l) (x :: l).
Proof.
  induction l as [| y l IH]; cbn [Simple.insert_desc]; [reflexivity |].
  destruct (float_lt (snd y) (snd x)); [reflexivity |].
  rewrite IH. apply perm_swap.
Qed.

Lemma simple_sort_desc_perm (rows : list (string * pyfloat)) :
  Permutation (Simple.sort_desc pyfloat float_lt rows) rows.
Proof.
  unfold Simple.sort_desc.
  assert (H : forall acc,
             Permutation
               (fold_left (fun acc x => Simple.insert_desc pyfloat float_lt x acc)
                  rows acc)
               (rows ++ acc)%list).
  { induction rows as [| x rows IH]; intros acc; cbn [fold_left app];
      [reflexivity |].
    rewrite IH, simple_insert_desc_perm. symmetry. apply Permutation_middle. }
  rewrite H, app_nil_r. reflexivity.
Qed.

Hypothesis float_lt_asym :
  forall a b, float_lt a b = true -> float_lt b a = false.

Lemma simple_insert_desc_sorted (x : string * pyfloat)
  (l : list (string * pyfloat)) :
  Sorted simple_not_below l ->
  Sorted simple_not_below (Simple.insert_desc pyfloat float_lt x l).
Proof.
  induction l as [| y l IH]; intros Hs; cbn [Simple.insert_desc].
  - repeat constructor.
  - destruct (float_lt (snd y) (snd x)) eqn:E.
    + constructor; [exact Hs |]. constructor. apply float_lt_asym. exact E.
    + inversion Hs as [| ? ? Hs' Hhd]; subst.
      constructor; [apply IH; exact Hs' |].
      destruct l as [| z l]; cbn [Simple.insert_desc].
      * constructor. exact E.
      * destruct (float_lt (snd z) (snd x)); constructor;
          [exact E | inversion Hhd; assumption].
Qed.

Lemma simple_sort_desc_sorted (rows : list (string * pyfloat)) :
  Sorted simple_not_below (Simple.sort_desc pyfloat float_lt rows).
Proof.
  unfold Simple.sort_desc.
  assert (H : forall acc,
             Sorted simple_not_below acc ->
             Sorted simple_not_below
               (fold_left (fun acc x => Simple.insert_desc pyfloat float_lt x acc)
                  rows acc)).
  { induction rows as [| x rows IH]; intros acc Ha; cbn [fold_left];
      [exact Ha |].
    apply IH, simple_insert_desc_sorted, Ha. }
  apply H. constructor.
Qed.

End SimpleRows.

(** For a non-empty aggregation result the label-based report has one row
    per label: the rows are the labels with their hours, rearranged so that
    no row has fewer hours than the row after it (for a comparison in
    which [a < b] excludes [b < a]); the CSV file, written only when a
    path is given, is the header [label,hours,percentage] followed by these
    rows. *)
Theorem simple_report_rows
  (pyfloat : Type) (hours_of : Z -> pyfloat)
  (float_lt : pyfloat -> pyfloat -> bool)
  (total_of : list pyfloat -> pyfloat)
  (console_row : string -> pyfloat -> pyfloat -> string)
  (console_total : pyfloat -> string)
  (csv_row : string -> pyfloat -> pyfloat -> list string)
  (csv : option string) (date_range : string) (seconds_by_label : dict Z) :
  (forall a b, float_lt a b = true -> float_lt b a = false) ->
  seconds_by_label <> [] ->
  exists rows,
    Permutation rows (map (fun kv => (fst kv, hours_of (snd kv))) seconds_by_label) /\
    Sorted (simple_not_below pyfloat float_lt) rows /\
    List.length rows = List.length seconds_by_label /\
    let out :=
      Simple.report pyfloat hours_of float_lt total_of console_row console_total
        csv_row csv date_range seconds_by_label in
    let total_hours := total_of (map snd rows) in
    Simple.csv_file out
    = (if truthy csv
       then Some (["label"; "hours"; "percentage"]
                    :: map (fun r => csv_row (fst r) (snd r) total_hours) rows)
       else None) /\
    List.length (Simple.console out)
    = (List.length seconds_by_label + 4 + (if truthy csv then 1 else 0))%nat.
Proof.
  intros Hasym Hne.
  exists (Simple.sort_desc pyfloat float_lt
            (map (fun kv => (fst kv, hours_of (snd kv))) seconds_by_label)).
  assert (Hperm := simple_sort_desc_perm pyfloat float_lt
                     (map (fun kv => (fst kv, hours_of (snd kv))) seconds_by_label)).
  split; [exact Hperm |].
  split; [apply simple_sort_desc_sorted; exact Hasym |].
  assert (Hlen : List.length
                   (Simple.sort_desc pyfloat float_lt
                      (map (fun kv => (fst kv, hours_of (snd kv))) seconds_by_label))
                 = List.length seconds_by_label).
  { rewrite (Permutation_length Hperm). apply length_map. }
  split; [exact Hlen |].
  destruct seconds_by_label as [| kv rest]; [contradiction |].
  cbv zeta. unfold Simple.report. cbn [Simple.csv_file Simple.console].
  split; [reflexivity |].
  cbn [List.length]. rewrite length_app, length_map, Hlen, length_app.
  destruct (truthy csv); cbn [List.length]; lia.
Qed.

(** Hours kept as integral hundredths: three labels come out in
    non-increasing order. *)
Lemma simple_report_rows_witness :
  exists rows,
    Permutation rows
      (map (fun kv => (fst kv, snd kv / 36000000))
         [("Sleep", 3600 * 1000000); ("Class", 7200 * 1000000)]) /\
    Sorted (simple_not_below Z Z.ltb) rows.
Proof.
  destruct (simple_report_rows Z (fun us => us / 36000000) Z.ltb
              (fun l => fold_right Z.add 0 l)
              (fun name _ _ => name) (fun _ => "Total") (fun name _ _ => [name])
              None "week"
              [("Sleep", 3600 * 1000000); ("Class", 7200 * 1000000)])
    as [rows [Hp [Hs _]]].
  - intros a b H. apply Z.ltb_lt in H. apply Z.ltb_ge. lia.
  - discriminate.
  - exists rows. split; assumption.
Defined.

Section WeeklyRowOrder.

Variable pyfloat : Type.
Variable float_lt : pyfloat -> pyfloat -> bool.

(** No row is strictly below its successor. *)
Definition weekly_not_below (r1 r2 : Weekly.row pyfloat) : Prop :=
  float_lt (Weekly.hours pyfloat r1) (Weekly.hours pyfloat r2) = false.

Lemma weekly_insert_desc_perm (x : Weekly.row pyfloat)
  (l : list (Weekly.row pyfloat)) :
  Permutation (Weekly.insert_desc pyfloat float_lt x l) (x :: l).
Proof.
  induction l as [| y l IH]; cbn [Weekly.insert_desc]; [reflexivity |].
  destruct (float_lt (Weekly.hours pyfloat y) (Weekly.hours pyfloat x));
    [reflexivity |].
  rewrite IH. apply perm_swap.
Qed.

Lemma weekly_sort_desc_perm (rows : list (Weekly.row pyfloat)) :
  Permutation (Weekly.sort_desc pyfloat float_lt rows) rows.
Proof.
  unfold Weekly.sort_desc.
  assert (H : forall acc,
             Permutation
               (fold_left (fun acc x => Weekly.insert_desc pyfloat float_lt x acc)
                  rows acc)
               (rows ++ acc)%list).
  { induction rows as [| x rows IH]; intros acc; cbn [fold_left app];
      [reflexivity |].
    rewrite IH, weekly_insert_desc_perm. symmetry. apply Permutation_middle. }
  rewrite H, app_nil_r. reflexivity.
Qed.

Hypothesis float_lt_asym :
  forall a b, float_lt a b = true -> float_lt b a = false.

Lemma weekly_insert_desc_sorted (x : Weekly.row pyfloat)
  (l : list (Weekly.row pyfloat)) :
  Sorted weekly_not_below l ->
  Sorted weekly_not_below (Weekly.insert_desc pyfloat float_lt x l).
Proof.
  induction l as [| y l IH]; intros Hs; cbn [Weekly.insert_desc].
  - repeat constructor.
  - destruct (float_lt (Weekly.hours pyfloat y) (Weekly.hours pyfloat x)) eqn:E.
    + constructor; [exact Hs |]. constructor. apply float_lt_asym. exact E.
    + inversion Hs as [| ? ? Hs' Hhd]; subst.
      constructor; [apply IH; exact Hs' |].
      destruct l as [| z l]; cbn [Weekly.insert_desc].
      * constructor. exact E.
      * destruct (float_lt (Weekly.hours pyfloat z) (Weekly.hours pyfloat x));
          constructor; [exact E | inversion Hhd; assumption].
Qed.

Lemma weekly_sort_desc_sorted (rows : list (Weekly.row pyfloat)) :
  Sorted weekly_not_below (Weekly.sort_desc pyfloat float_lt rows).
Proof.
  unfold Weekly.sort_desc.
  assert (H : forall acc,
             Sorted weekly_not_below acc ->
             Sorted weekly_not_below
               (fold_left (fun acc x => Weekly.insert_desc pyfloat float_lt x acc)
                  rows acc)).
  { induction rows as [| x rows IH]; intros acc Ha; cbn [fold_left];
      [exact Ha |].
    apply IH, weekly_insert_desc_sorted, Ha. }
  apply H. constructor.
Qed.

End WeeklyRowOrder.

(** The raw-colour report has one row per aggregated colour id: the rows
    are the ids with the text [color_label] gives them and their hours,
    rearranged so that no row has fewer hours than the row after it (for a
    comparison in which [a < b] excludes [b < a]); the CSV file is the
    header [color_id,color,hours] followed by these rows. *)
Theorem weekly_report_rows
  (pyfloat : Type) (hours_of : Z -> pyfloat)
  (float_lt : pyfloat -> pyfloat -> bool)
  (total_of : list pyfloat -> pyfloat)
  (console_row : string -> pyfloat -> pyfloat -> string)
  (console_total : pyfloat -> string)
  (float_str : pyfloat -> string)
  (event_colors calendar_colors : dict (option string))
  (banner : list string) (csv : string) (seconds_by_color_id : dict Z) :
  (forall a b, float_lt a b = true -> float_lt b a = false) ->
  let rows :=
    Weekly.build_rows pyfloat hours_of float_lt event_colors calendar_colors
      seconds_by_color_id in
  let out :=
    Weekly.report pyfloat hours_of float_lt total_of console_row console_total
      float_str event_colors calendar_colors banner csv seconds_by_color_id in
  Permutation rows
    (map (fun kv =>
            Weekly.mkrow pyfloat (fst kv)
              (Weekly.color_label event_colors calendar_colors (fst kv))
              (hours_of (snd kv)))
       seconds_by_color_id) /\
  Sorted (weekly_not_below pyfloat float_lt) rows /\
  Weekly.csv_file out
  = ["color_id"; "color"; "hours"]
      :: map (fun r => [Weekly.color_id pyfloat r; Weekly.color pyfloat r;
                        float_str (Weekly.hours pyfloat r)]) rows /\
  List.length (Weekly.csv_file out) = S (List.length seconds_by_color_id) /\
  List.length (Weekly.console out)
  = (List.length banner + 2
     + match seconds_by_color_id with
       | [] => 1
       | _ => List.length seconds_by_color_id + 2
       end)%nat.
Proof.
  intros Hasym rows out.
  assert (Hperm : Permutation rows
                    (map (fun kv =>
                            Weekly.mkrow pyfloat (fst kv)
                              (Weekly.color_label event_colors calendar_colors (fst kv))
                              (hours_of (snd kv)))
                       seconds_by_color_id))
    by apply weekly_sort_desc_perm.
  assert (Hlen : List.length rows = List.length seconds_by_color_id)
    by (rewrite (Permutation_length Hperm); apply length_map).
  split; [exact Hperm |].
  split; [apply weekly_sort_desc_sorted; exact Hasym |].
  split; [reflexivity |].
  subst out. unfold Weekly.report. fold rows. cbn [Weekly.csv_file Weekly.console].
  split.
  - cbn [List.length]. rewrite length_map, Hlen. reflexivity.
  - clearbody rows. rewrite !length_app. cbn [List.length].
    destruct rows as [| r rows']; destruct seconds_by_color_id as [| kv rest];
      try discriminate Hlen.
    + cbn [List.length]. lia.
    + rewrite length_app, length_map, Hlen. cbn [List.length]. lia.
Qed.

Lemma weekly_report_rows_witness :
  Sorted (weekly_not_below Z Z.ltb)
    (Weekly.build_rows Z (fun us => us / 36000000) Z.ltb
       [("5", Some "#fbd75b")] []
       [("default", 3600 * 1000000); ("5", 7200 * 1000000)]).
Proof.
  apply (weekly_report_rows Z (fun us => us / 36000000) Z.ltb
           (fun l => fold_right Z.add 0 l)
           (fun name _ _ => name) (fun _ => "TOTAL") (fun _ => "")
           [("5", Some "#fbd75b")] [] [] "out.csv"
           [("default", 3600 * 1000000); ("5", 7200 * 1000000)]).
  intros a b H. apply Z.ltb_lt in H. apply Z.ltb_ge. lia.
Defined.

(** ** Fetching pages *)

Lemma fetch_pages_serves {X : Type} (execute : option string -> result (page X))
  (tok : option string) (pages : list (page X)) :
  serves execute tok pages ->
  forall fuel acc,
    (List.length pages <= fuel)%nat ->
    fetch_pages fuel execute tok acc
    = Some (Ok (acc ++ List.concat (map page_items pages))%list).
Proof.
  induction 1 as [tok p E Ht | tok p ps E Ht _ IH]; intros fuel acc Hf;
    (destruct fuel as [| fuel]; [cbn in Hf; lia |]);
    cbn [fetch_pages]; rewrite E, Ht; cbn [map List.concat].
  - rewrite app_nil_r. reflexivity.
  - rewrite IH by (cbn in Hf; lia). rewrite app_assoc. reflexivity.
Qed.

Lemma fetch_pages_breaks {X : Type} (execute : option string -> result (page X))
  (e : exn) (tok : option string) (pages : list (page X)) :
  breaks execute e tok pages ->
  forall fuel acc,
    (List.length pages < fuel)%nat ->
    fetch_pages fuel execute tok acc = Some (Raise e).
Proof.
  induction 1 as [tok E | tok p ps E Ht _ IH]; intros fuel acc Hf;
    (destruct fuel as [| fuel]; [cbn in Hf; lia |]);
    cbn [fetch_pages]; rewrite E.
  - reflexivity.
  - rewrite Ht. apply IH. cbn in Hf. lia.
Qed.

(** When the service answers with a chain of pages, [fetch_all_calendars]
    and [list_calendars] return the entries of all pages in page order,
    without the hidden ones unless [include_hidden] is set. *)
Theorem calendar_list_all_pages
  (calendar_list : option string -> result (page calendar_entry))
  (pages : list (page calendar_entry)) (fuel : nat) (include_hidden : bool) :
  serves calendar_list None pages ->
  (List.length pages <= fuel)%nat ->
  let all := List.concat (map page_items pages) in
  let visible := if include_hidden then all else filter not_hidden all in
  Simple.fetch_all_calendars fuel calendar_list include_hidden = Some (Ok visible) /\
  Weekly.list_calendars fuel calendar_list include_hidden = Some (Ok visible) /\
  (forall c, In c visible <->
             In c all /\ (include_hidden = true \/ hidden c <> Some true)).
Proof.
  intros Hs Hf all visible.
  unfold Simple.fetch_all_calendars, Weekly.list_calendars.
  rewrite (fetch_pages_serves _ _ _ Hs fuel [] Hf). cbn [app]. fold all.
  subst visible. destruct include_hidden; cbn [negb].
  - split; [reflexivity | split; [reflexivity |]].
    intros c. tauto.
  - split; [reflexivity | split; [reflexivity |]].
    intros c. rewrite filter_In. unfold not_hidden.
    destruct (hidden c) as [[|] |]; cbn [negb]; split.
    + intros [_ H]. discriminate.
    + intros [_ [H | H]]; [discriminate | contradiction].
    + intros [H _]. split; [exact H | right; discriminate].
    + intros [H _]. auto.
    + intros [H _]. split; [exact H | right; discriminate].
    + intros [H _]. auto.
Qed.

Lemma calendar_list_all_pages_witness :
  Simple.fetch_all_calendars 5
    (fun tok =>
       match tok with
       | None => Ok (mkpage (Some [mkentry (Some "14") None;
                                   mkentry (Some "3") (Some true)])
                       (Some "p2"))
       | Some _ => Ok (mkpage (Some [mkentry None (Some false)]) None)
       end)
    false
  = Some (Ok [mkentry (Some "14") None; mkentry None (Some false)]).
Proof.
  refine (proj1 (calendar_list_all_pages _
                   [mkpage (Some [mkentry (Some "14") None;
                                  mkentry (Some "3") (Some true)]) (Some "p2");
                    mkpage (Some [mkentry None (Some false)]) None]
                   5 false _ _)).
  - apply serves_more; [reflexivity | reflexivity |].
    apply serves_last; reflexivity.
  - cbn. lia.
Defined.

(** [fetch_events_for_calendar]: when the service answers with a chain of
    pages, both scripts get the events of all pages in page order; when a
    request fails after some pages, the label-based script lets the
    exception through, and the raw-colour script returns no event at all,
    dropping the pages it had received. *)
Theorem fetch_events_for_calendar_outcomes {E : Type}
  (events_list : string -> string -> string -> option string -> result (page E))
  (calendar_id start_iso end_iso : string) (pages : list (page E)) (fuel : nat) :
  (serves (events_list calendar_id start_iso end_iso) None pages ->
   (List.length pages <= fuel)%nat ->
   Simple.fetch_events_for_calendar fuel events_list calendar_id start_iso end_iso
   = Some (Ok (List.concat (map page_items pages))) /\
   Weekly.fetch_events_for_calendar fuel events_list calendar_id start_iso end_iso
   = Some (List.concat (map page_items pages))) /\
  (forall e,
      breaks (events_list calendar_id start_iso end_iso) e None pages ->
      (List.length pages < fuel)%nat ->
      Simple.fetch_events_for_calendar fuel events_list calendar_id start_iso end_iso
      = Some (Raise e) /\
      Weekly.fetch_events_for_calendar fuel events_list calendar_id start_iso end_iso
      = Some []).
Proof.
  unfold Simple.fetch_events_for_calendar, Weekly.fetch_events_for_calendar.
  split.
  - intros Hs Hf. rewrite (fetch_pages_serves _ _ _ Hs fuel [] Hf). auto.
  - intros e Hb Hf. rewrite (fetch_pages_breaks _ _ _ _ Hb fuel [] Hf). auto.
Qed.

(** A first page with an event, then a failing request. *)
Lemma fetch_events_for_calendar_outcomes_witness :
  Weekly.fetch_events_for_calendar 3
    (fun _ _ _ tok =>
       match tok with
       | None => Ok (mkpage (Some [mkevent None None (Some "5")]) (Some "p2"))
       | Some _ => Raise ValueError
       end)
    "primary" "2024-01-07T00:00:00-06:00" "2024-01-14T00:00:00-06:00"
  = Some [].
Proof.
  refine (proj2 (proj2 (fetch_events_for_calendar_outcomes _ _ _ _
                          [mkpage (Some [mkevent None None (Some "5")]) (Some "p2")]
                          3)
                   ValueError _ _)).
  - apply breaks_later; [reflexivity | reflexivity |].
    apply breaks_now. reflexivity.
  - cbn. lia.
Defined.

(** ** Colour tables *)

Lemma get_backgrounds (d : dict color_def) (k : string) :
  get (backgrounds (Some d)) k = option_map background (get d k).
Proof.
  induction d as [| [k' v] d IH]; [reflexivity |].
  cbn [backgrounds map fst snd get]. cbn [backgrounds] in IH.
  destruct (k' =? k)%string; [reflexivity | exact IH].
Qed.

(** The default hex the label-based script uses for a calendar is the
    background the service's calendar palette gives the calendar's colour
    id; it is [None] when the calendar has no colour id or an empty one,
    when the palette is missing or lacks the id, and when the palette
    entry has no background.  Both scripts build the same tables, with the
    palettes' keys in the palettes' order. *)
Theorem default_hex_of_palette (colors : colors_response)
  (cal_default_id : option string) :
  Simple.default_hex (snd (Simple.get_colors_map colors)) cal_default_id
  = (if truthy cal_default_id
     then match colors_calendar colors with
          | Some palette =>
              match get palette (str cal_default_id) with
              | Some def => background def
              | None => None
              end
          | None => None
          end
     else None) /\
  Weekly.get_colors_map colors = Simple.get_colors_map colors /\
  (forall palette, colors_event colors = Some palette ->
     keys (fst (Simple.get_colors_map colors)) = keys palette) /\
  (forall palette, colors_calendar colors = Some palette ->
     keys (snd (Simple.get_colors_map colors)) = keys palette).
Proof.
  unfold Simple.default_hex, Simple.get_colors_map, Weekly.get_colors_map.
  cbn [fst snd]. split; [| split; [reflexivity | split]].
  - destruct (truthy cal_default_id); [| reflexivity].
    destruct (colors_calendar colors) as [palette |]; [| reflexivity].
    rewrite get_backgrounds. destruct (get palette (str cal_default_id));
      reflexivity.
  - intros palette ->. unfold keys, backgrounds. rewrite map_map. reflexivity.
  - intros palette ->. unfold keys, backgrounds. rewrite map_map. reflexivity.
Qed.

Lemma default_hex_of_palette_witness :
  keys (fst (Simple.get_colors_map
               (mkcolors (Some [("1", mkcolor (Some "#a4bdfc"));
                                ("2", mkcolor None)]) None)))
  = ["1"; "2"].
Proof.
  exact (proj1 (proj2 (proj2 (default_hex_of_palette
           (mkcolors (Some [("1", mkcolor (Some "#a4bdfc"));
                            ("2", mkcolor None)]) None) None)))
           [("1", mkcolor (Some "#a4bdfc")); ("2", mkcolor None)] eq_refl).
Defined.

(** ** Colour keys and their text in the raw-colour report *)

Lemma prefix_app (s t : string) : String.prefix s (s ++ t) = true.
Proof.
  induction s as [| c s IH]; cbn; [destruct t; reflexivity |].
  destruct (ascii_dec c c) as [_ | H]; [exact IH | contradiction].
Qed.

(** An uncoloured event is keyed by its calendar's default colour id, the
    same key an event explicitly coloured with that id gets; and the text
    reported for a key that the event palette has is the event palette's
    background, also when the key came from a calendar default and the
    calendar palette has it too.  The text always starts with the key. *)
Theorem calendar_default_key_text (c : string)
  (event_colors calendar_colors : dict (option string)) (event_hex : option string) :
  c <> "" ->
  get event_colors c = Some event_hex ->
  Weekly.color_key None (Some c) = c /\
  (forall cal_default, Weekly.color_key (Some c) cal_default = c) /\
  Weekly.color_label event_colors calendar_colors (Weekly.color_key None (Some c))
  = (c ++ " (" ++ str event_hex ++ ")")%string /\
  (forall cid, String.prefix cid (Weekly.color_label event_colors calendar_colors cid)
               = true).
Proof.
  intros Hc Hg. apply truthy_Some in Hc.
  assert (Hk : Weekly.color_key None (Some c) = c).
  { unfold Weekly.color_key. cbn [truthy] in *. rewrite Hc. reflexivity. }
  split; [exact Hk | split; [| split]].
  - intros cal_default. unfold Weekly.color_key. rewrite Hc. reflexivity.
  - rewrite Hk. unfold Weekly.color_label. rewrite Hg. reflexivity.
  - intros cid. unfold Weekly.color_label.
    destruct (get event_colors cid); [apply prefix_app |].
    destruct (get calendar_colors cid); apply prefix_app.
Qed.

(** Calendar colour 5 is "#ff7537" and event colour 5 is "#fbd75b": an
    uncoloured event on a calendar of colour 5 is reported with the
    latter. *)
Lemma calendar_default_key_text_witness :
  Weekly.color_label [("5", Some "#fbd75b")] [("5", Some "#ff7537")]
    (Weekly.color_key None (Some "5"))
  = "5 (#fbd75b)".
Proof.
  apply (calendar_default_key_text "5" [("5", Some "#fbd75b")]
           [("5", Some "#ff7537")] (Some "#fbd75b")).
  - discriminate.
  - reflexivity.
Defined.

(** ** The window and the events of a run *)

Lemma dt_le_trans (a b c : datetime) :
  dt_le a b = true -> dt_le b c = true -> dt_le a c = true.
Proof. rewrite !dt_le_spec. lia. Qed.

(** The raw-colour script never counts an event that starts at or after
    the clock reading its window was computed from; the label-based script
    on a Monday to Saturday does count what lies between that reading and
    the end of its window. *)
Theorem window_and_later_events (now : datetime) :
  in_range now -> valid_time now ->
  (forall week_start week_end s e,
      Weekly.last_sun_to_sat now = Ok (week_start, week_end) ->
      dt_le now s = true ->
      Weekly.clamp_interval s e week_start week_end = None) /\
  (forall start end_,
      Simple.get_last_week_window now = Ok (start, end_) ->
      weekday now <> 6 ->
      Simple.clip now end_ start end_ = Some (now, end_)).
Proof.
  intros Hr Hv. split.
  - intros ws we s e Hw Hs.
    rewrite (clamp_interval_clip s e ws we). apply clip_outside. right.
    rewrite dt_ge_lt, negb_true_iff, <- negb_true_iff, <- dt_le_lt.
    apply dt_le_trans with now; [| exact Hs].
    rewrite (last_sun_to_sat_closed now Hr) in Hw. injection Hw as <- <-.
    destruct now as [o u]. unfold valid_time, US_PER_DAY in Hv. cbn [micros] in Hv.
    unfold weekday. cbn [toordinal].
    assert (Hk : 0 <= ((o + 6) mod 7 + 1) mod 7 <= 6)
      by (Z.div_mod_to_equations; lia).
    apply dt_le_spec. cbn. lia.
  - intros start end_ Hw H6.
    rewrite (get_last_week_window_formula now Hr) in Hw.
    destruct now as [o u]. unfold valid_time, US_PER_DAY in Hv. cbn [micros] in Hv.
    unfold weekday in H6. cbn [toordinal] in H6.
    unfold formula_window, replace_midnight, weekday in Hw.
    cbn [toordinal micros] in Hw.
    destruct (days_since_sunday_cases o) as [[H6' _] | [_ [Hs Hb]]];
      [contradiction |].
    rewrite Hs in Hw.
    assert (Hz : ((o + 6) mod 7 + 1 =? 0) = false) by (apply Z.eqb_neq; lia).
    rewrite Hz in Hw. cbn [toordinal] in Hw. injection Hw as <- <-.
    apply (proj1 (clip_inside_and_covering_cases _ _ _ _)).
    + apply dt_le_spec. cbn. lia.
    + apply dt_le_spec. cbn. lia.
    + apply dt_lt_spec. cbn. lia.
Qed.

(** Wednesday 2024-01-10 at 15:45: an event of that evening is outside
    the raw-colour script's window. *)
Lemma window_and_later_events_witness :
  Weekly.clamp_interval (civil 2024 1 10 18 0) (civil 2024 1 10 19 0)
    (civil 2023 12 31 0 0) (civil 2024 1 7 0 0)
  = None.
Proof.
  assert (Hr : in_range (civil 2024 1 10 15 45))
    by (vm_compute; split; discriminate).
  assert (Hv : valid_time (civil 2024 1 10 15 45))
    by (vm_compute; split; [discriminate | reflexivity]).
  apply (proj1 (window_and_later_events (civil 2024 1 10 15 45) Hr Hv));
    reflexivity.
Defined.
